(** * ANIE icon generator: a shallow embedding of [create_icon_set.py]

    The script draws the four-letter ANIE glyph on a square canvas
    ([create_anie_icon]) and writes the macOS icon set with its
    [Contents.json] manifest ([create_icon_set]).

    Python integers are [Z].  The only non-integer quantity of the script
    is [scale_factor = size / 1024]: the quotient of an integer by a power
    of two, modelled as the exact rational [size # 1024]; [int] truncates
    toward zero.  Module [Binary64] runs the same arithmetic on IEEE-754
    doubles, and [binary64_agrees] proves that it gives the same integers
    for every size below [2^44].

    Library calls that touch the outside world (canvas allocation, font
    loaders, directory creation, file writes, printing) run in a
    state-and-exception monad over a [world]: which canvases the machine
    can allocate, which fonts load, the directories and files on disk and
    the trace of the calls made so far.  Faults of the medium (missing
    permissions, a full disk, symbolic links) are not part of the world:
    a file-system call fails only for what is or is not at a path. *)

From Stdlib Require Import ZArith QArith Lia List Bool Ascii String.
From Stdlib Require Import Floats.SpecFloat.
From stdpp Require Import gmap strings list fin_maps pretty.

Local Open Scope Z_scope.
Local Open Scope string_scope.

(** ** Numbers *)

Module Num.

(** [size / 1024] (true division of an [int] by [1024]). *)
Definition true_div_1024 (size : Z) : Q := (size # 1024)%Q.

(** [c * x] for an integer literal [c] and a float [x]. *)
Definition mul_int (c : Z) (x : Q) : Q := (inject_Z c * x)%Q.

(** [int(x)]: truncation toward zero. *)
Definition int (x : Q) : Z := Z.quot (Qnum x) (Z.pos (Qden x)).

End Num.

(** ** The scaled constants of [create_anie_icon] *)

Definition scale_factor (size : Z) : Q := Num.true_div_1024 size.

(** [int(c * scale_factor)] *)
Definition scaled (c size : Z) : Z := Num.int (Num.mul_int c (scale_factor size)).

Definition inset (size : Z) : Z := scaled 60 size.
Definition corner_radius (size : Z) : Z := scaled 100 size.
Definition font_size (size : Z) : Z := scaled 400 size.
Definition spacing (size : Z) : Z := scaled 10 size.

(** ** Strings *)

Module Str.

(** [str(n)] / the [{n}] of an f-string, for an integer of at most 4300
    digits; CPython from 3.11 on refuses longer ones with [ValueError].
    The script formats the pixel dimensions of its table and their
    quotients only. *)
Definition str (n : Z) : string := pretty n.

(** [s.split(sep)] for a one-character separator. *)
Fixpoint split_go (sep : ascii) (cur : string) (s : string) : list string :=
  match s with
  | EmptyString => [String.rev cur]
  | String c s' =>
      if Ascii.eqb c sep then String.rev cur :: split_go sep EmptyString s'
      else split_go sep (String c cur) s'
  end.

Definition split (sep : ascii) (s : string) : list string :=
  split_go sep EmptyString s.

Definition digit_of (c : ascii) : option Z :=
  let n := Z.of_N (N_of_ascii c) in
  if ((48 <=? n)%Z && (n <=? 57)%Z)%bool then Some (n - 48) else None.

(** The blanks [int] skips around an ASCII literal: tab, line feed,
    vertical tab, form feed, carriage return and space. *)
Definition is_space (c : ascii) : bool :=
  let n := Z.of_N (N_of_ascii c) in
  ((9 <=? n)%Z && (n <=? 13)%Z || (n =? 32)%Z)%bool.

Fixpoint lstrip (s : string) : string :=
  match s with
  | EmptyString => EmptyString
  | String c s' => if is_space c then lstrip s' else s
  end.

Fixpoint all_space (s : string) : bool :=
  match s with
  | EmptyString => true
  | String c s' => is_space c && all_space s'
  end.

(** The digits of a decimal literal, single underscores allowed between
    them: the value read after [acc], the number of digits read after
    [n], and what follows the literal.  [None] for a doubled underscore
    or one that no digit follows. *)
Fixpoint scan_digits (acc n : Z) (after_underscore : bool) (s : string)
    : option (Z * Z * string) :=
  match s with
  | EmptyString => if after_underscore then None else Some (acc, n, s)
  | String c s' =>
      match digit_of c with
      | Some d => scan_digits (10 * acc + d) (n + 1) false s'
      | None =>
          if after_underscore then None
          else if Ascii.eqb c "_" then scan_digits acc n true s'
          else Some (acc, n, s)
      end
  end.

(** The number of digits [int] accepts in a decimal literal (CPython
    from 3.11 on). *)
Definition max_str_digits : Z := 4300.

(** An unsigned literal: it does not begin with an underscore, has at
    least one and at most [max_str_digits] digits, and only blanks
    follow it. *)
Definition parse_unsigned (s : string) : option Z :=
  match s with
  | EmptyString => None
  | String c _ =>
      if Ascii.eqb c "_" then None
      else match scan_digits 0 0 false s with
           | Some (v, n, rest) =>
               if ((n =? 0)%Z || (max_str_digits <? n)%Z
                   || negb (all_space rest))%bool
               then None else Some v
           | None => None
           end
  end.

(** [int(s)] on an ASCII string: blanks around the literal, a sign,
    decimal digits with single underscores between them; [None] stands
    for the [ValueError] of anything else. *)
Definition parse_int (s : string) : option Z :=
  match lstrip s with
  | EmptyString => None
  | String c r =>
      if Ascii.eqb c "+" then parse_unsigned r
      else if Ascii.eqb c "-" then Z.opp <$> parse_unsigned r
      else parse_unsigned (String c r)
  end.

(** The characters of a string, as [for letter in s] yields them. *)
Fixpoint chars (s : string) : list string :=
  match s with
  | EmptyString => []
  | String c s' => String c EmptyString :: chars s'
  end.

(** [os.path.join(a, b)] for a relative [b] and a non-empty [a] that does
    not end in a separator. *)
Definition path_join (a b : string) : string := a ++ "/" ++ b.

(** The proper ancestors of a path, outermost first:
    ["a/b/c"] gives [["a"; "a/b"]]. *)
Fixpoint ancestors_go (pre : string) (s : string) : list string :=
  match s with
  | EmptyString => []
  | String c s' =>
      if Ascii.eqb c "/"%char
      then String.rev pre :: ancestors_go (String c pre) s'
      else ancestors_go (String c pre) s'
  end.

Definition ancestors (p : string) : list string := ancestors_go EmptyString p.

(** [os.path.dirname(p)], [None] when [p] has no directory part. *)
Definition dirname (p : string) : option string := last (ancestors p).

End Str.


(** ** Images, fonts and the manifest *)

Definition rgb : Type := Z * Z * Z.
Definition rgba : Type := Z * Z * Z * Z.
Definition bbox : Type := Z * Z * Z * Z.

(** A loaded font: a TrueType file at a pixel size, or Pillow's built-in
    default. *)
Inductive font :=
| TrueType (path : string) (size : Z)
| DefaultFont.

(** The drawing calls the script makes on its canvas. *)
Inductive draw_op :=
| RoundedRectangle (xy : list Z) (fill : rgb) (radius : Z)
| Text (xy : Z * Z) (text : string) (fill : rgb) (f : font).

(** An in-memory image: the canvas [Image.new] made and the drawing calls
    applied to it since, oldest first. *)
Record image := {
  im_mode : string;
  im_size : Z * Z;
  im_color : rgba;
  im_ops : list draw_op
}.

Definition im_width (img : image) : Z := fst (im_size img).
Definition im_height (img : image) : Z := snd (im_size img).

(** One entry of [contents["images"]]. *)
Record manifest_entry := {
  e_size : string;
  e_idiom : string;
  e_filename : string;
  e_scale : string
}.

Record manifest_info := { author : string; version : Z }.

(** The [contents] dictionary. *)
Record manifest := { images : list manifest_entry; info : manifest_info }.

(** What a file holds: an image, the manifest, or nothing yet (a file
    just opened for writing). *)
Inductive file_content :=
| PngFile (img : image)
| JsonFile (indent : Z) (m : manifest)
| EmptyFile.

#[global] Instance font_eq_dec : EqDecision font.
Proof. solve_decision. Defined.
#[global] Instance draw_op_eq_dec : EqDecision draw_op.
Proof. solve_decision. Defined.
#[global] Instance image_eq_dec : EqDecision image.
Proof. solve_decision. Defined.
#[global] Instance manifest_entry_eq_dec : EqDecision manifest_entry.
Proof. solve_decision. Defined.
#[global] Instance manifest_info_eq_dec : EqDecision manifest_info.
Proof. solve_decision. Defined.
#[global] Instance manifest_eq_dec : EqDecision manifest.
Proof. solve_decision. Defined.
#[global] Instance file_content_eq_dec : EqDecision file_content.
Proof. solve_decision. Defined.

(** ** The world and the monad of the script *)

Inductive exn :=
| ValueError | OverflowError | MemoryError
| OSError | KeyError | IndexError | ZeroDivisionError
| FileExistsError | FileNotFoundError | NotADirectoryError | IsADirectoryError.

(** Calls that reach outside the process, in the order they are made. *)
Inductive event :=
| FontOpen (path : string) (size : Z)
| FontDefault
| Mkdir (path : string)
| FileWrite (path : string) (content : file_content)
| Print (line : string).

#[global] Instance event_eq_dec : EqDecision event.
Proof. solve_decision. Defined.

Definition is_disk_write (e : event) : bool :=
  match e with
  | Mkdir _ | FileWrite _ _ => true
  | FontOpen _ _ | FontDefault | Print _ => false
  end.

Definition is_font_load (e : event) : bool :=
  match e with
  | FontOpen _ _ | FontDefault => true
  | _ => false
  end.

Record world := {
  (** which canvases the machine has the memory for, by width and height *)
  w_canvas : Z * Z -> bool;
  (** which TrueType files load, and at which sizes *)
  w_fonts : string -> Z -> bool;
  (** [textbbox((0, 0), text, font)] for every loaded font *)
  w_metrics : font -> string -> bbox;
  w_dirs : gset string;
  w_files : gmap string file_content;
  w_trace : list event
}.

Definition log (e : event) (w : world) : world :=
  {| w_canvas := w_canvas w; w_fonts := w_fonts w; w_metrics := w_metrics w;
     w_dirs := w_dirs w;
     w_files := w_files w; w_trace := w_trace w ++ [e] |}.

Definition add_dir (p : string) (w : world) : world :=
  {| w_canvas := w_canvas w; w_fonts := w_fonts w; w_metrics := w_metrics w;
     w_dirs := {[p]} ∪ w_dirs w;
     w_files := w_files w; w_trace := w_trace w |}.

Definition put_file (p : string) (c : file_content) (w : world) : world :=
  {| w_canvas := w_canvas w; w_fonts := w_fonts w; w_metrics := w_metrics w;
     w_dirs := w_dirs w;
     w_files := <[p := c]> (w_files w); w_trace := w_trace w |}.

Inductive result (A : Type) :=
| Ok (a : A) (w : world)
| Raise (e : exn) (w : world).
Arguments Ok {A} a w.
Arguments Raise {A} e w.

Definition M (A : Type) : Type := world -> result A.

Definition ret {A} (a : A) : M A := fun w => Ok a w.
Definition raise {A} (e : exn) : M A := fun w => Raise e w.
Definition bind {A B} (c : M A) (k : A -> M B) : M B :=
  fun w => match c w with
           | Ok a w' => k a w'
           | Raise e w' => Raise e w'
           end.

(** [try: c  except: h], a bare [except] that catches everything. *)
Definition try_except {A} (c : M A) (h : M A) : M A :=
  fun w => match c w with
           | Ok a w' => Ok a w'
           | Raise _ w' => h w'
           end.

Definition emit (e : event) : M unit := fun w => Ok tt (log e w).

Definition of_option {A} (e : exn) (o : option A) : M A :=
  match o with Some a => ret a | None => raise e end.

Declare Scope py_scope.
Delimit Scope py_scope with py.
Notation "x <- c ;; k" := (bind c (fun x => k))
  (at level 100, c at next level, right associativity) : py_scope.
Notation "c ;; k" := (bind c (fun _ => k))
  (at level 100, right associativity) : py_scope.
Local Open Scope py_scope.

(** [for x in xs: acc = body(x, acc)], stopping at the first exception. *)
Fixpoint for_each {A S} (xs : list A) (acc : S) (body : A -> S -> M S) : M S :=
  match xs with
  | [] => ret acc
  | x :: xs' => acc' <- body x acc ;; for_each xs' acc' body
  end.

(** ** The library calls of the script *)

Definition is_dir (p : string) (w : world) : bool := bool_decide (p ∈ w_dirs w).
Definition is_file (p : string) (w : world) : bool :=
  bool_decide (is_Some (w_files w !! p)).
Definition path_exists (p : string) (w : world) : bool := is_dir p w || is_file p w.

(** Every file-system error of the script is a subclass of [OSError]. *)
Definition is_OSError (e : exn) : bool :=
  match e with
  | OSError | FileExistsError | FileNotFoundError
  | NotADirectoryError | IsADirectoryError => true
  | _ => false
  end.

Module os.

(** The directory part of [p] must be an existing directory. *)
Definition check_parent (p : string) : M unit := fun w =>
  match Str.dirname p with
  | None => Ok tt w
  | Some d =>
      if is_dir d w then Ok tt w
      else if is_file d w then Raise NotADirectoryError w
      else Raise FileNotFoundError w
  end.

(** [os.mkdir(p)] *)
Definition mkdir (p : string) : M unit :=
  check_parent p ;;
  fun w => if path_exists p w then Raise FileExistsError w
           else Ok tt (log (Mkdir p) (add_dir p w)).

(** [os.makedirs(name, exist_ok=True)] on the chain
    [name :: dirname name :: ...]: create the missing parent first, then
    [mkdir name], forgiving an [OSError] when [name] is a directory. *)
Fixpoint makedirs_chain (chain : list string) : M unit :=
  match chain with
  | [] => ret tt
  | name :: heads =>
      (match heads with
       | [] => ret tt
       | head :: _ =>
           fun w =>
             if path_exists head w then Ok tt w
             else match makedirs_chain heads w with
                  | Raise FileExistsError w' => Ok tt w'
                  | r => r
                  end
       end) ;;
      fun w =>
        match mkdir name w with
        | Raise e w' =>
            if is_OSError e && is_dir name w' then Ok tt w' else Raise e w'
        | r => r
        end
  end.

Definition makedirs_exist_ok (name : string) : M unit :=
  makedirs_chain (name :: rev (Str.ancestors name)).

(** Opening [p] for writing: the file is created, or emptied if it is
    there already. *)
Definition open_for_writing (p : string) : M unit :=
  check_parent p ;;
  fun w => if is_dir p w then Raise IsADirectoryError w
           else Ok tt (put_file p EmptyFile w).

(** Opening [p] for writing, then storing [c] in it. *)
Definition write_file (p : string) (c : file_content) : M unit :=
  open_for_writing p ;;
  fun w => Ok tt (log (FileWrite p c) (put_file p c w)).

End os.

Module PIL.

(** [Image.new(mode, size, color)].  Pillow refuses a negative side
    ([ValueError]), then a side that does not fit a C [int]
    ([OverflowError]), and fails with [MemoryError] when the canvas
    cannot be allocated. *)
Definition Image_new (mode : string) (size : Z * Z) (color : rgba) : M image :=
  fun w =>
    if ((fst size <? 0)%Z || (snd size <? 0)%Z)%bool then Raise ValueError w
    else if ((2 ^ 31 <=? fst size)%Z || (2 ^ 31 <=? snd size)%Z)%bool
    then Raise OverflowError w
    else if w_canvas w size
    then Ok {| im_mode := mode; im_size := size; im_color := color;
               im_ops := [] |} w
    else Raise MemoryError w.

Definition draw (op : draw_op) (img : image) : image :=
  {| im_mode := im_mode img; im_size := im_size img; im_color := im_color img;
     im_ops := im_ops img ++ [op] |}.

(** [draw.rounded_rectangle(xy, fill=fill, radius=radius)] *)
Definition rounded_rectangle (xy : list Z) (fill : rgb) (radius : Z)
    (img : image) : image :=
  draw (RoundedRectangle xy fill radius) img.

(** [draw.text(xy, text, fill=fill, font=font)] *)
Definition text (xy : Z * Z) (s : string) (fill : rgb) (f : font)
    (img : image) : image :=
  draw (Text xy s fill f) img.

(** [draw.textbbox((0, 0), text, font=font)] *)
Definition textbbox (s : string) (f : font) : M bbox :=
  fun w => Ok (w_metrics w f s) w.

(** [ImageFont.truetype(path, size)] *)
Definition ImageFont_truetype (path : string) (size : Z) : M font :=
  emit (FontOpen path size) ;;
  fun w => if w_fonts w path size then Ok (TrueType path size) w
           else Raise OSError w.

(** [ImageFont.load_default()] *)
Definition ImageFont_load_default : M font :=
  emit FontDefault ;; ret DefaultFont.

(** [img.save(path)] *)
Definition Image_save (img : image) (path : string) : M unit :=
  os.write_file path (PngFile img).

End PIL.

(** [with open(path, "w") as f: json.dump(obj, f, indent=indent)] *)
Definition json_dump_to (path : string) (obj : manifest) (indent : Z) : M unit :=
  os.write_file path (JsonFile indent obj).

Definition print (line : string) : M unit := emit (Print line).

(** [a // b] on integers. *)
Definition floordiv (a b : Z) : M Z :=
  if (b =? 0)%Z then raise ZeroDivisionError else ret (a / b)%Z.

(** Components of a bounding box [(x0, y0, x1, y1)]. *)
Definition bb0 (b : bbox) : Z := b.1.1.1.
Definition bb1 (b : bbox) : Z := b.1.1.2.
Definition bb2 (b : bbox) : Z := b.1.2.
Definition bb3 (b : bbox) : Z := b.2.

(** [d[k]] on a dictionary literal, kept in source order. *)
Definition dict_get {V} (d : list (string * V)) (k : string) : M V :=
  of_option KeyError (snd <$> List.find (fun kv => String.eqb (fst kv) k) d).

(** ** [create_anie_icon] *)

Definition colors : list (string * rgb) :=
  [ ("A", (255, 255, 255));
    ("N", (0, 144, 255));
    ("I", (255, 255, 255));
    ("E", (0, 144, 255)) ].

Definition primary_font_path : string :=
  "/System/Library/Fonts/Supplemental/Arial Bold.ttf".
Definition secondary_font_path : string := "/Library/Fonts/Arial Bold.ttf".

Definition create_anie_icon (size : Z) : M image :=
  (* Create a square transparent image *)
  img <- PIL.Image_new "RGBA" (size, size) (0, 0, 0, 0) ;;
  (* Scale inset and corner radius proportionally *)
  let scale_factor := Num.true_div_1024 size in
  let inset := Num.int (Num.mul_int 60 scale_factor) in
  let corner_radius := Num.int (Num.mul_int 100 scale_factor) in
  (* Calculate rectangle dimensions *)
  let rect_coords := [inset; inset; size - inset; size - inset] in
  let img := PIL.rounded_rectangle rect_coords (0, 0, 0) corner_radius img in
  (* Scale font size proportionally *)
  let font_size := Num.int (Num.mul_int 400 scale_factor) in
  font <- try_except (PIL.ImageFont_truetype primary_font_path font_size)
            (try_except (PIL.ImageFont_truetype secondary_font_path font_size)
               PIL.ImageFont_load_default) ;;
  (* Calculate positions for 2x2 grid *)
  let spacing := Num.int (Num.mul_int 10 scale_factor) in
  (* First row - "AN" *)
  let text_top := "AN" in
  bbox_top <- PIL.textbbox text_top font ;;
  let width_top := bb2 bbox_top - bb0 bbox_top in
  let height_top := bb3 bbox_top - bb1 bbox_top in
  (* Second row - "IE" *)
  let text_bottom := "IE" in
  bbox_bottom <- PIL.textbbox text_bottom font ;;
  let width_bottom := bb2 bbox_bottom - bb0 bbox_bottom in
  (* Calculate vertical positions with scaled upward shift *)
  let total_height := height_top * 2 + spacing in
  let start_y := (size - total_height) / 2 - Num.int (Num.mul_int 80 scale_factor) in
  (* Draw top row (AN) *)
  let x := (size - width_top) / 2 in
  let y := start_y in
  top <- for_each (Str.chars text_top) (img, x)
      (fun letter '(img, x) =>
         letter_bbox <- PIL.textbbox letter font ;;
         let letter_width := bb2 letter_bbox - bb0 letter_bbox in
         fill <- dict_get colors letter ;;
         ret (PIL.text (x, y) letter fill font img, x + letter_width + spacing)) ;;
  let '(img, x) := top in
  (* Draw bottom row (IE) *)
  let base_x := (size - width_bottom) / 2 in
  let y := start_y + height_top + spacing in
  (* Draw I *)
  letter_bbox <- PIL.textbbox "I" font ;;
  let letter_width := bb2 letter_bbox - bb0 letter_bbox in
  fill <- dict_get colors "I" ;;
  let img :=
    PIL.text (base_x - Num.int (Num.mul_int 15 scale_factor), y) "I" fill font img in
  (* Draw E *)
  letter_bbox <- PIL.textbbox "E" font ;;
  let letter_width := bb2 letter_bbox - bb0 letter_bbox in
  fill <- dict_get colors "E" ;;
  let img :=
    PIL.text (base_x + letter_width + spacing - Num.int (Num.mul_int 68 scale_factor), y)
      "E" fill font img in
  ret img.

(** ** [create_icon_set] *)

Definition icon_dir : string := "Assets.xcassets/AppIcon.appiconset".

(** Required sizes for macOS: a dictionary literal, iterated in insertion
    order. *)
Definition icon_sizes : list (string * list Z) :=
  [ ("16x16", [16; 32]);
    ("32x32", [32; 64]);
    ("128x128", [128; 256]);
    ("256x256", [256; 512]);
    ("512x512", [512; 1024]) ].

Definition initial_contents : manifest :=
  {| images := []; info := {| author := "xcode"; version := 1 |} |}.

(** [contents["images"].append(e)] *)
Definition images_append (e : manifest_entry) (contents : manifest) : manifest :=
  {| images := images contents ++ [e]; info := info contents |}.

Definition icon_filename (size : Z) : string :=
  "icon_" ++ Str.str size ++ "x" ++ Str.str size ++ ".png".

Definition scale_string (size width : Z) : M string :=
  q <- floordiv size width ;; ret (Str.str q ++ "x").

(** The body of the inner loop, [for size in scales]: render one pixel
    dimension, save it, and append its manifest entry. *)
Definition icon_variant (base_size : string) (width : Z) (size : Z)
    (contents : manifest) : M manifest :=
  let filename := icon_filename size in
  icon <- create_anie_icon size ;;
  PIL.Image_save icon (Str.path_join icon_dir filename) ;;
  (* Add entry to Contents.json *)
  scale <- scale_string size width ;;
  ret (images_append
         {| e_size := base_size; e_idiom := "mac";
            e_filename := filename; e_scale := scale |}
         contents).

(** The body of the outer loop, [for base_size, scales in icon_sizes.items()]. *)
Definition size_class (item : string * list Z) (contents : manifest) : M manifest :=
  let '(base_size, scales) := item in
  part <- of_option IndexError (head (Str.split "x" base_size)) ;;
  width <- of_option ValueError (Str.parse_int part) ;;
  for_each scales contents (icon_variant base_size width).

Definition create_icon_set : M unit :=
  (* Create AppIcon.appiconset directory if it doesn't exist *)
  os.makedirs_exist_ok icon_dir ;;
  (* Create Contents.json data *)
  let contents := initial_contents in
  (* Generate icons for each size *)
  contents <- for_each icon_sizes contents size_class ;;
  (* Save Contents.json *)
  json_dump_to (Str.path_join icon_dir "Contents.json") contents 2 ;;
  print "Icon set created successfully!".

(** ** The same arithmetic on IEEE-754 doubles

    CPython's [float] is binary64: [prec = 53], [emax = 1024].  For
    integers below [2^53] in magnitude, [size / 1024] is the correctly
    rounded quotient of the two converted operands and [c * x] converts
    the integer [c] first. *)

Module Binary64.

Definition prec : Z := 53.
Definition emax : Z := 1024.

(** [float(n)] *)
Definition of_int (n : Z) : spec_float := binary_normalize prec emax n 0 false.

Definition div (x y : spec_float) : spec_float := SFdiv prec emax x y.
Definition mul (x y : spec_float) : spec_float := SFmul prec emax x y.

(** [int(x)]: truncation toward zero; [None] for infinities and NaN,
    where Python raises. *)
Definition to_int (x : spec_float) : option Z :=
  match x with
  | S754_zero _ => Some 0%Z
  | S754_finite s m e =>
      let a := match e with
               | Zneg k => Z.shiftr (Z.pos m) (Z.pos k)
               | _ => Z.shiftl (Z.pos m) e
               end in
      Some (if s then (- a)%Z else a)
  | _ => None
  end.

(** [int(c * (size / 1024))] *)
Definition scaled64 (c size : Z) : option Z :=
  to_int (mul (of_int c) (div (of_int size) (of_int 1024))).

(** The literals of [create_anie_icon] that multiply [scale_factor]. *)
Definition literals : list Z := [60; 100; 400; 10; 80; 15; 68].

End Binary64.

(** ** What the runs are expected to produce

    The definitions below are not translated from the script: they state,
    in closed form, the outcome the theorems prove the script to have. *)

(** [w] with the events [evs] appended to its trace and nothing else
    changed. *)
Definition extend (evs : list event) (w : world) : world :=
  {| w_canvas := w_canvas w; w_fonts := w_fonts w; w_metrics := w_metrics w;
     w_dirs := w_dirs w;
     w_files := w_files w; w_trace := w_trace w ++ evs |}.

(** Pillow makes the square canvas of side [size]: the side is not
    negative, fits a C [int], and the machine has the memory. *)
Definition canvas_ok (w : world) (size : Z) : bool :=
  ((0 <=? size)%Z && (size <? 2 ^ 31)%Z && w_canvas w (size, size))%bool.

(** Pillow makes the canvas of every one of [sizes]. *)
Definition can_render (w : world) (sizes : list Z) : bool :=
  forallb (canvas_ok w) sizes.

(** The font the fallback chain ends with. *)
Definition chosen_font (w : world) (size : Z) : font :=
  if w_fonts w primary_font_path (font_size size)
  then TrueType primary_font_path (font_size size)
  else if w_fonts w secondary_font_path (font_size size)
  then TrueType secondary_font_path (font_size size)
  else DefaultFont.

(** The loader calls the fallback chain makes, in order. *)
Definition font_calls (w : world) (size : Z) : list event :=
  if w_fonts w primary_font_path (font_size size)
  then [FontOpen primary_font_path (font_size size)]
  else if w_fonts w secondary_font_path (font_size size)
  then [FontOpen primary_font_path (font_size size);
        FontOpen secondary_font_path (font_size size)]
  else [FontOpen primary_font_path (font_size size);
        FontOpen secondary_font_path (font_size size);
        FontDefault].

Definition text_width (w : world) (f : font) (s : string) : Z :=
  bb2 (w_metrics w f s) - bb0 (w_metrics w f s).
Definition text_height (w : world) (f : font) (s : string) : Z :=
  bb3 (w_metrics w f s) - bb1 (w_metrics w f s).

Definition white : rgb := (255, 255, 255).
Definition blue : rgb := (0, 144, 255).
Definition black : rgb := (0, 0, 0).

Definition background (size : Z) : draw_op :=
  RoundedRectangle [inset size; inset size; size - inset size; size - inset size]
    black (corner_radius size).

Definition glyphs (w : world) (size : Z) : list draw_op :=
  let f := chosen_font w size in
  let start_y :=
    (size - (text_height w f "AN" * 2 + spacing size)) / 2 - scaled 80 size in
  let x := (size - text_width w f "AN") / 2 in
  let base_x := (size - text_width w f "IE") / 2 in
  let y := start_y + text_height w f "AN" + spacing size in
  [ Text (x, start_y) "A" white f;
    Text (x + text_width w f "A" + spacing size, start_y) "N" blue f;
    Text (base_x - scaled 15 size, y) "I" white f;
    Text (base_x + text_width w f "E" + spacing size - scaled 68 size, y) "E" blue f ].

Definition rendered (w : world) (size : Z) : image :=
  {| im_mode := "RGBA"; im_size := (size, size); im_color := (0, 0, 0, 0);
     im_ops := background size :: glyphs w size |}.

(** The pixel dimensions of the table, in iteration order. *)
Definition all_sizes : list Z := concat (map snd icon_sizes).

Definition assets_dir : string := "Assets.xcassets".

Definition icon_path (size : Z) : string :=
  Str.path_join icon_dir (icon_filename size).
Definition contents_path : string := Str.path_join icon_dir "Contents.json".

(** Every path the builder writes to. *)
Definition targets : list string := map icon_path all_sizes ++ [contents_path].

(** One pass of the inner loop body on the world. *)
Definition save_icon (w : world) (size : Z) : world :=
  log (FileWrite (icon_path size) (PngFile (rendered w size)))
    (put_file (icon_path size) (PngFile (rendered w size))
       (extend (font_calls w size) w)).

Definition entry (base : string) (size : Z) (scale : string) : manifest_entry :=
  {| e_size := base; e_idiom := "mac"; e_filename := icon_filename size;
     e_scale := scale |}.

Definition expected_manifest : manifest :=
  {| images :=
       [ entry "16x16" 16 "1x"; entry "16x16" 32 "2x";
         entry "32x32" 32 "1x"; entry "32x32" 64 "2x";
         entry "128x128" 128 "1x"; entry "128x128" 256 "2x";
         entry "256x256" 256 "1x"; entry "256x256" 512 "2x";
         entry "512x512" 512 "1x"; entry "512x512" 1024 "2x" ];
     info := {| author := "xcode"; version := 1 |} |}.

(** The world after the builder has run, from the world [w0] in which the
    output directory has just been made. *)
Definition finished (w0 : world) : world :=
  log (Print "Icon set created successfully!")
    (log (FileWrite contents_path (JsonFile 2 expected_manifest))
       (put_file contents_path (JsonFile 2 expected_manifest)
          (foldl save_icon w0 all_sizes))).

(** A pixel dimension the builder can process: it is not negative and
    fits a C [int], and its file lies directly in the output directory. *)
Definition good_size (size : Z) : Prop :=
  (0 <= size < 2 ^ 31)%Z /\ Str.dirname (icon_path size) = Some icon_dir.

(** The base dimension [int(base_size.split("x")[0])] of a size class. *)
Definition class_width (base : string) : option Z :=
  match head (Str.split "x" base) with
  | Some part => Str.parse_int part
  | None => None
  end.

Definition good_class (item : string * list Z) : Prop :=
  exists width, class_width (fst item) = Some width /\ width <> 0%Z /\
                Forall good_size (snd item).

(** The manifest entries one size class appends. *)
Definition add_entries (base : string) (width : Z) (contents : manifest)
    (sizes : list Z) : manifest :=
  foldl (fun c s => images_append (entry base s (Str.str (s / width) ++ "x")) c)
    contents sizes.

Definition class_entries (contents : manifest) (item : string * list Z) : manifest :=
  match class_width (fst item) with
  | Some width => add_entries (fst item) width contents (snd item)
  | None => contents
  end.

Definition none_is_dir (w : world) (ps : list string) : bool :=
  forallb (fun p => negb (is_dir p w)) ps.

Definition is_rounded_rectangle (op : draw_op) : bool :=
  match op with RoundedRectangle _ _ _ => true | Text _ _ _ _ => false end.

(** The font a drawing call uses, if it draws text. *)
Definition op_font (op : draw_op) : option font :=
  match op with Text _ _ _ f => Some f | RoundedRectangle _ _ _ => None end.

(** The events a run from [w] added to the trace. *)
Definition new_events (w w' : world) : list event :=
  drop (length (w_trace w)) (w_trace w').

(** [v] is exactly [c * size / 1024], with nothing lost to [int]. *)
Definition proportional (c size v : Z) : Prop :=
  (inject_Z v == Num.mul_int c (scale_factor size))%Q.

(** Can the builder run to completion from [w]?  The output directory
    can be made, every canvas of the table can be made, and no path it
    writes to is a directory. *)
Definition can_build (w : world) : bool :=
  match os.makedirs_exist_ok icon_dir w with
  | Ok _ w0 => can_render w all_sizes && none_is_dir w0 targets
  | Raise _ _ => false
  end.

Definition world_of {A} (r : result A) : world :=
  match r with Ok _ w | Raise _ w => w end.

Definition is_png (c : file_content) : bool :=
  match c with PngFile _ => true | JsonFile _ _ | EmptyFile => false end.

(** The image files on disk. *)
Definition image_files (w : world) : list string :=
  map fst (filter (fun kv => is_png (snd kv)) (map_to_list (w_files w))).

(** The file writes of a trace, oldest first: path and content. *)
Definition file_writes (evs : list event) : list (string * file_content) :=
  omap (fun e => match e with FileWrite p c => Some (p, c) | _ => None end) evs.

Definition mkdirs (evs : list event) : list string :=
  omap (fun e => match e with Mkdir p => Some p | _ => None end) evs.

(** What the builder writes, in order: one image per table entry, then
    the manifest. *)
Definition icon_writes (w : world) : list (string * file_content) :=
  map (fun s => (icon_path s, PngFile (rendered w s))) all_sizes.

Definition builder_writes (w : world) : list (string * file_content) :=
  icon_writes w ++ [(contents_path, JsonFile 2 expected_manifest)].

(** Storing a list of files in order, later ones replacing earlier ones. *)
Definition put_all (m : gmap string file_content)
    (kvs : list (string * file_content)) : gmap string file_content :=
  foldl (fun m kv => <[fst kv := snd kv]> m) m kvs.

(** The events of rendering and saving the given sizes in order. *)
Definition icon_events (w : world) (sizes : list Z) : list event :=
  flat_map (fun s => (font_calls w s
                      ++ [FileWrite (icon_path s) (PngFile (rendered w s))])%list)
    sizes.

(** The pixel dimensions of the table, each once. *)
Definition distinct_sizes : list Z := [16; 32; 64; 128; 256; 512; 1024].

(** The pixel dimensions that two size classes share. *)
Definition shared_sizes : list Z := [32; 256; 512].

(** The table flattened to its (size class, pixel dimension) variants. *)
Definition variants : list (string * Z) :=
  flat_map (fun item => map (pair (fst item)) (snd item)) icon_sizes.

(** A machine with the memory for canvases of sides below [2^14], a
    monospaced stand-in for the font metrics, and an empty working
    directory, used to run the model. *)
Definition roomy (size : Z * Z) : bool :=
  ((Z.log2 (fst size) <? 14)%Z && (Z.log2 (snd size) <? 14)%Z)%bool.

Definition mono_metrics (f : font) (s : string) : bbox :=
  match f with
  | TrueType _ sz => (0, 0, sz * Z.of_nat (String.length s), sz)
  | DefaultFont => (0, 0, 6 * Z.of_nat (String.length s), 11)
  end.

Definition empty_world (fonts : string -> Z -> bool) : world :=
  {| w_canvas := roomy; w_fonts := fonts; w_metrics := mono_metrics;
     w_dirs := ∅; w_files := ∅; w_trace := [] |}.

Definition no_fonts : string -> Z -> bool := fun _ _ => false.
Definition mac_fonts : string -> Z -> bool :=
  fun p sz => (String.eqb p primary_font_path && (0 <? sz)%Z)%bool.
Definition user_fonts : string -> Z -> bool :=
  fun p sz => (String.eqb p secondary_font_path && (0 <? sz)%Z)%bool.

(** ** Definitions for the further properties *)

(** What a drawing call draws, without its position: the text (empty for
    the rectangle), the fill colour and the font. *)
Definition op_summary (op : draw_op) : string * rgb * option font :=
  match op with
  | RoundedRectangle _ fill _ => ("", fill, None)
  | Text _ s fill f => (s, fill, Some f)
  end.

Definition value_of {A} (r : result A) : exn + A :=
  match r with Ok a _ => inr a | Raise e _ => inl e end.

(** The world in which the builder stops at the table entry [s], after
    the sizes [pre] have been saved: either the canvas of [s] could not
    be made, or [s] has been rendered (its font loaded) but could not be
    stored. *)
Definition stopped (w : world) (pre : list Z) (s : Z) : world :=
  if canvas_ok w s
  then extend (font_calls (foldl save_icon w pre) s) (foldl save_icon w pre)
  else foldl save_icon w pre.

(** The exception it stops with there. *)
Definition stop_error (w : world) (s : Z) : exn :=
  if canvas_ok w s then IsADirectoryError else MemoryError.

Definition is_print (e : event) : bool :=
  match e with Print _ => true | _ => false end.

(** How a world [w'] reached from [w] differs from it: the directories
    [ds] made, the files [kvs] written, both in order, as the calls [evs]
    added to the trace record them; fonts and metrics are untouched. *)
Definition reached (w w' : world) (ds : list string)
    (kvs : list (string * file_content)) (evs : list event) : Prop :=
  w_trace w' = (w_trace w ++ evs)%list /\
  mkdirs evs = ds /\ file_writes evs = kvs /\
  w_files w' = put_all (w_files w) kvs /\
  w_dirs w' = w_dirs (foldl (fun w d => add_dir d w) w ds) /\
  w_fonts w' = w_fonts w /\ w_metrics w' = w_metrics w.

Definition success_message : string := "Icon set created successfully!".

(** A working directory in which the output directory exists already and
    the file of the 64-pixel icon is, by accident, a directory. *)
Definition blocked_at_64 : world :=
  {| w_canvas := roomy; w_fonts := no_fonts; w_metrics := mono_metrics;
     w_dirs := {[assets_dir; icon_dir; icon_path 64]};
     w_files := ∅; w_trace := [] |}.

(** A working directory in which the output directory is a regular file. *)
Definition blocked_by_file : world :=
  {| w_canvas := roomy; w_fonts := no_fonts; w_metrics := mono_metrics;
     w_dirs := {[assets_dir]};
     w_files := {[icon_dir := JsonFile 2 initial_contents]}; w_trace := [] |}.

(** Which of [Assets.xcassets] and the output directory are not there,
    the parent first. *)
Definition missing_dirs (w : world) : list string :=
  List.filter (fun d => negb (path_exists d w)) [assets_dir; icon_dir].

(** [os.makedirs(icon_dir, exist_ok=True)] will succeed: the directory is
    there, or nothing is in its place and its parent is a directory or
    can be made. *)
Definition directory_ready (w : world) : bool :=
  is_dir icon_dir w
  || (negb (path_exists icon_dir w)
      && (is_dir assets_dir w || negb (path_exists assets_dir w))).

(** No character of [s] is [c]. *)
Fixpoint avoids (c : ascii) (s : string) : bool :=
  match s with
  | EmptyString => true
  | String a s' => negb (Ascii.eqb a c) && avoids c s'
  end.

(** Every character of [s] is a decimal digit. *)
Fixpoint digits_only (s : string) : bool :=
  match s with
  | EmptyString => true
  | String a s' =>
      match Str.digit_of a with Some _ => digits_only s' | None => false end
  end.

(** [mkdir name] as [makedirs] calls it, forgiving an existing directory. *)
Definition mkdir_exist_ok (name : string) : M unit :=
  fun w =>
    match os.mkdir name w with
    | Raise e w' =>
        if is_OSError e && is_dir name w' then Ok tt w' else Raise e w'
    | r => r
    end.

(** * Theorems *)

(** ** Strings, on the inputs of the script *)

Example str_64 : Str.str 64 = "64".
Proof. reflexivity. Qed.

Example split_32x32 : Str.split "x" "32x32" = ["32"; "32"].
Proof. reflexivity. Qed.

Example ancestors_icon_dir : Str.ancestors icon_dir = [assets_dir].
Proof. reflexivity. Qed.

Example class_width_128 : class_width "128x128" = Some 128%Z.
Proof. reflexivity. Qed.

(** ** Arithmetic of the scaled constants *)

Lemma scaled_quot c size : scaled c size = Z.quot (c * size) 1024.
Proof.
  unfold scaled, scale_factor, Num.int, Num.mul_int, Num.true_div_1024.
  cbn [Qnum Qden Qmult inject_Z]. reflexivity.
Qed.

Lemma scaled_floor c size :
  (0 <= c)%Z -> (0 <= size)%Z -> scaled c size = (c * size / 1024)%Z.
Proof.
  intros Hc Hs. rewrite scaled_quot. apply Z.quot_div_nonneg; lia.
Qed.

Lemma proportional_iff c size v :
  proportional c size v <-> (1024 * v = c * size)%Z.
Proof.
  unfold proportional, Num.mul_int, scale_factor, Num.true_div_1024, Qeq.
  cbn [Qnum Qden Qmult inject_Z]. lia.
Qed.

Lemma scaled_proportional_iff c size :
  proportional c size (scaled c size) <-> (1024 | c * size)%Z.
Proof.
  rewrite proportional_iff, scaled_quot. split.
  - intros H. exists (Z.quot (c * size) 1024). lia.
  - intros [k Hk]. rewrite Hk, Z.quot_mul by lia. lia.
Qed.

Lemma divide_1024_10 size : (1024 | 10 * size)%Z -> (512 | size)%Z.
Proof.
  intros [k Hk]. apply (Z.gauss 512 5 size).
  - exists k. lia.
  - reflexivity.
Qed.

(** Bounds on the truncation, without division. *)
Lemma scaled_bounds c size :
  (0 <= c)%Z -> (0 <= size)%Z ->
  (1024 * scaled c size <= c * size < 1024 * scaled c size + 1024)%Z.
Proof.
  intros Hc Hs. rewrite (scaled_floor _ _ Hc Hs).
  pose proof (Z.mul_div_le (c * size) 1024 ltac:(lia)).
  pose proof (Z.mul_succ_div_gt (c * size) 1024 ltac:(lia)). lia.
Qed.

(** ** Runs of [create_anie_icon] *)

Lemma extend_extend evs1 evs2 w :
  extend evs2 (extend evs1 w) = extend (evs1 ++ evs2) w.
Proof. unfold extend. cbn. by rewrite app_assoc. Qed.

Lemma log_extend e evs w : log e (extend evs w) = extend (evs ++ [e]) w.
Proof. unfold log, extend. cbn. by rewrite app_assoc. Qed.

Lemma log_as_extend e w : log e w = extend [e] w.
Proof. reflexivity. Qed.

Lemma canvas_ok_spec w size :
  canvas_ok w size = true
  <-> (0 <= size < 2 ^ 31)%Z /\ w_canvas w (size, size) = true.
Proof. unfold canvas_ok. rewrite !andb_true_iff, Z.leb_le, Z.ltb_lt. tauto. Qed.

Lemma Image_new_square mode size color w :
  PIL.Image_new mode (size, size) color w =
    if (size <? 0)%Z then Raise ValueError w
    else if (2 ^ 31 <=? size)%Z then Raise OverflowError w
    else if w_canvas w (size, size)
    then Ok {| im_mode := mode; im_size := (size, size); im_color := color;
               im_ops := [] |} w
    else Raise MemoryError w.
Proof. unfold PIL.Image_new. cbn [fst snd]. by rewrite !orb_diag. Qed.

Lemma create_anie_icon_neg size w :
  (size < 0)%Z -> create_anie_icon size w = Raise ValueError w.
Proof.
  intros H. unfold create_anie_icon, bind. rewrite Image_new_square.
  apply Z.ltb_lt in H. rewrite H. reflexivity.
Qed.

Lemma create_anie_icon_big size w :
  (2 ^ 31 <= size)%Z -> create_anie_icon size w = Raise OverflowError w.
Proof.
  intros H. unfold create_anie_icon, bind. rewrite Image_new_square.
  assert ((size <? 0)%Z = false) as -> by (apply Z.ltb_ge; lia).
  apply Z.leb_le in H. rewrite H. reflexivity.
Qed.

Lemma create_anie_icon_full size w :
  (0 <= size < 2 ^ 31)%Z -> w_canvas w (size, size) = false ->
  create_anie_icon size w = Raise MemoryError w.
Proof.
  intros H Hc. unfold create_anie_icon, bind. rewrite Image_new_square.
  assert ((size <? 0)%Z = false) as -> by (apply Z.ltb_ge; lia).
  assert ((2 ^ 31 <=? size)%Z = false) as -> by (apply Z.leb_gt; lia).
  rewrite Hc. reflexivity.
Qed.

(** Where Pillow does not make the canvas, nothing else happens. *)
Lemma create_anie_icon_refused size w :
  canvas_ok w size = false ->
  exists e, create_anie_icon size w = Raise e w /\
            (e = ValueError \/ e = OverflowError \/ e = MemoryError).
Proof.
  intros H. destruct (Z.lt_ge_cases size 0) as [Hneg|Hpos].
  { exists ValueError. split; [by apply create_anie_icon_neg | by left]. }
  destruct (Z.lt_ge_cases size (2 ^ 31)) as [Hfit|Hbig].
  2:{ exists OverflowError. split; [by apply create_anie_icon_big | right; by left]. }
  exists MemoryError. split; [|right; by right].
  apply create_anie_icon_full; [lia|].
  destruct (w_canvas w (size, size)) eqn:Hc; [|done].
  assert (canvas_ok w size = true) by (apply canvas_ok_spec; split; [lia | done]).
  congruence.
Qed.

Lemma create_anie_icon_run size w :
  canvas_ok w size = true ->
  create_anie_icon size w = Ok (rendered w size) (extend (font_calls w size) w).
Proof.
  intros H. apply canvas_ok_spec in H as [H Hc].
  unfold create_anie_icon, bind at 1. rewrite Image_new_square.
  assert ((size <? 0)%Z = false) as -> by (apply Z.ltb_ge; lia).
  assert ((2 ^ 31 <=? size)%Z = false) as -> by (apply Z.leb_gt; lia).
  rewrite Hc. cbv beta iota.
  unfold rendered, glyphs, font_calls, chosen_font.
  change (Num.int (Num.mul_int 400 (Num.true_div_1024 size))) with (font_size size).
  unfold bind, try_except, PIL.ImageFont_truetype, PIL.ImageFont_load_default, emit, bind, ret.
  cbn [log w_fonts].
  destruct (w_fonts w primary_font_path _) eqn:H1;
    [| cbn [log w_fonts]; destruct (w_fonts w secondary_font_path _) eqn:H2 ];
    rewrite !log_as_extend, ?extend_extend; reflexivity.
Qed.

(** *** File-system calls *)

Lemma put_file_put_file p c c' w :
  put_file p c (put_file p c' w) = put_file p c w.
Proof. unfold put_file. cbn. by rewrite insert_insert_eq. Qed.

Lemma write_file_run p d c w :
  Str.dirname p = Some d -> is_dir d w = true ->
  os.write_file p c w =
    if is_dir p w then Raise IsADirectoryError w
    else Ok tt (log (FileWrite p c) (put_file p c w)).
Proof.
  intros Hd Hdir. unfold os.write_file, os.open_for_writing, bind, os.check_parent.
  rewrite Hd, Hdir. destruct (is_dir p w); [reflexivity|].
  by rewrite put_file_put_file.
Qed.

Lemma is_dir_add_dir p q w :
  is_dir p (add_dir q w) = (bool_decide (p = q) || is_dir p w)%bool.
Proof.
  unfold is_dir, add_dir. cbn [w_dirs].
  apply eq_true_iff_eq.
  rewrite orb_true_iff, !bool_decide_eq_true. set_solver.
Qed.

Lemma makedirs_icon_dir_cases w :
  match os.makedirs_exist_ok icon_dir w with
  | Ok _ w0 =>
      is_dir icon_dir w0 = true /\ path_exists assets_dir w0 = true /\
      exists ds, w0 = extend (map Mkdir ds) (foldl (fun w d => add_dir d w) w ds) /\
                 sublist ds [assets_dir; icon_dir]
  | Raise _ _ => is_dir icon_dir w = false
  end.
Proof.
  unfold os.makedirs_exist_ok.
  change (Str.ancestors icon_dir) with [assets_dir]. cbn [rev app].
  unfold os.makedirs_chain, os.mkdir, bind, os.check_parent, ret.
  change (Str.dirname icon_dir) with (Some assets_dir).
  change (Str.dirname assets_dir) with (@None string).
  destruct (path_exists assets_dir w) eqn:HA.
  - (* the parent exists *)
    destruct (is_dir assets_dir w) eqn:HdA.
    + destruct (path_exists icon_dir w) eqn:HB.
      * cbn [is_OSError andb]. destruct (is_dir icon_dir w) eqn:HdB; [|done].
        split; [done|]. split; [done|]. exists []. split; [|repeat constructor].
        cbn. unfold extend. destruct w; cbn. by rewrite app_nil_r.
      * assert (is_dir icon_dir w = false) as HdB.
        { unfold path_exists in HB. by apply orb_false_iff in HB as [? ?]. }
        split.
        { unfold is_dir, log, add_dir; cbn. apply bool_decide_eq_true. set_solver. }
        split.
        { unfold path_exists. replace (is_dir assets_dir _) with true; [done|].
          symmetry. unfold is_dir in *; cbn. apply bool_decide_eq_true.
          apply bool_decide_eq_true in HdA. set_solver. }
        exists [icon_dir]. split; [reflexivity | repeat constructor].
    + assert (is_file assets_dir w = true) as HfA.
      { unfold path_exists in HA. rewrite HdA in HA. exact HA. }
      rewrite HfA. cbn [is_OSError andb].
      destruct (is_dir icon_dir w) eqn:HdB; [|done].
      split; [done|]. split; [done|]. exists []. split; [|repeat constructor].
      cbn. unfold extend. destruct w; cbn. by rewrite app_nil_r.
  - (* the parent is made first *)
    assert (is_dir assets_dir w = false /\ is_file assets_dir w = false) as [HdA HfA].
    { unfold path_exists in HA. by apply orb_false_iff in HA. }
    rewrite HA.
    set (w1 := log (Mkdir assets_dir) (add_dir assets_dir w)).
    assert (is_dir assets_dir w1 = true) as HdA1.
    { unfold w1, is_dir; cbn. apply bool_decide_eq_true. set_solver. }
    rewrite HdA1.
    assert (is_dir icon_dir w1 = is_dir icon_dir w) as HdB1.
    { unfold w1. change (is_dir icon_dir (log _ ?x)) with (is_dir icon_dir x).
      rewrite is_dir_add_dir. reflexivity. }
    assert (path_exists icon_dir w1 = path_exists icon_dir w) as HB1.
    { unfold path_exists. rewrite HdB1. reflexivity. }
    rewrite HB1.
    destruct (path_exists icon_dir w) eqn:HB.
    + cbn [is_OSError andb]. rewrite HdB1.
      destruct (is_dir icon_dir w) eqn:HdB; [|done].
      split; [by rewrite HdB1|]. split; [unfold path_exists; by rewrite HdA1|].
      exists [assets_dir]. split; [reflexivity | repeat constructor].
    + split.
      { unfold is_dir, log, add_dir; cbn. apply bool_decide_eq_true. set_solver. }
      split.
      { unfold path_exists.
        replace (is_dir assets_dir _) with true; [done|].
        symmetry. unfold is_dir, w1; cbn. apply bool_decide_eq_true. set_solver. }
      exists [assets_dir; icon_dir]. split; [|repeat constructor].
      unfold w1, log, extend, add_dir; cbn. by rewrite <- app_assoc.
Qed.

Lemma makedirs_icon_dir_again w :
  path_exists assets_dir w = true -> is_dir icon_dir w = true ->
  os.makedirs_exist_ok icon_dir w = Ok tt w.
Proof.
  intros HA HdB. unfold os.makedirs_exist_ok.
  change (Str.ancestors icon_dir) with [assets_dir]. cbn [rev app].
  unfold os.makedirs_chain, os.mkdir, bind, os.check_parent, ret.
  change (Str.dirname icon_dir) with (Some assets_dir).
  rewrite HA.
  destruct (is_dir assets_dir w) eqn:HdA.
  - unfold path_exists at 1. rewrite HdB. cbn. by rewrite HdB.
  - unfold path_exists in HA. rewrite HdA in HA. cbn in HA. rewrite HA.
    cbn. by rewrite HdB.
Qed.

(** *** The loops of [create_icon_set] *)

Lemma icon_variant_run base width size contents w :
  width <> 0%Z -> good_size size -> is_dir icon_dir w = true ->
  canvas_ok w size = true ->
  icon_variant base width size contents w =
    if is_dir (icon_path size) w
    then Raise IsADirectoryError (extend (font_calls w size) w)
    else Ok (images_append (entry base size (Str.str (size / width) ++ "x")) contents)
            (save_icon w size).
Proof.
  intros Hw [_ Hdn] Hdir Hcan. unfold icon_variant.
  unfold bind at 1. rewrite (create_anie_icon_run _ _ Hcan).
  unfold bind at 1, PIL.Image_save.
  fold (icon_path size).
  rewrite (write_file_run _ _ _ _ Hdn) by exact Hdir.
  change (is_dir (icon_path size) (extend _ w)) with (is_dir (icon_path size) w).
  destruct (is_dir (icon_path size) w); [reflexivity|].
  unfold scale_string, floordiv, bind.
  apply Z.eqb_neq in Hw. rewrite Hw. reflexivity.
Qed.

Lemma icon_variant_refused base width size contents w :
  canvas_ok w size = false ->
  exists e, icon_variant base width size contents w = Raise e w /\
            (e = ValueError \/ e = OverflowError \/ e = MemoryError).
Proof.
  intros H. destruct (create_anie_icon_refused _ _ H) as (e & He & Hcases).
  exists e. split; [|exact Hcases]. unfold icon_variant, bind. by rewrite He.
Qed.

Lemma canvas_ok_save_icon w s : canvas_ok (save_icon w s) = canvas_ok w.
Proof. reflexivity. Qed.

Lemma can_render_save_icons w sizes ss :
  can_render (foldl save_icon w sizes) ss = can_render w ss.
Proof.
  revert w. induction sizes as [|s sizes IH]; intros w; [done|].
  cbn [foldl]. rewrite IH. unfold can_render. by rewrite canvas_ok_save_icon.
Qed.

Lemma can_render_app w ps qs :
  can_render w (ps ++ qs) = (can_render w ps && can_render w qs)%bool.
Proof. apply forallb_app. Qed.

Lemma inner_loop_spec base width sizes :
  width <> 0%Z -> Forall good_size sizes ->
  forall contents w, is_dir icon_dir w = true ->
  match for_each sizes contents (icon_variant base width) w with
  | Ok c w' =>
      can_render w sizes = true /\
      none_is_dir w (map icon_path sizes) = true /\
      c = add_entries base width contents sizes /\
      w' = foldl save_icon w sizes
  | Raise e _ =>
      (can_render w sizes && none_is_dir w (map icon_path sizes))%bool = false
  end.
Proof.
  intros Hw Hgood. induction Hgood as [|s ss Hs Hss IH]; intros contents w Hdir.
  - cbn. done.
  - cbn [for_each]. unfold bind. cbn [map can_render none_is_dir forallb].
    destruct (canvas_ok w s) eqn:Hcan.
    2:{ destruct (icon_variant_refused base width s contents w Hcan) as (e & -> & _).
        reflexivity. }
    rewrite (icon_variant_run _ _ _ _ _ Hw Hs Hdir Hcan).
    destruct (is_dir (icon_path s) w) eqn:Hp; [by rewrite andb_false_r|].
    cbn [negb andb].
    specialize (IH (images_append (entry base s (Str.str (s / width) ++ "x")) contents)
                  (save_icon w s) Hdir).
    exact IH.
Qed.

Lemma w_dirs_save_icons w sizes : w_dirs (foldl save_icon w sizes) = w_dirs w.
Proof.
  revert w. induction sizes as [|s ss IH]; intros w; [done|].
  cbn [foldl]. rewrite IH. reflexivity.
Qed.

Lemma is_dir_save_icons p w sizes : is_dir p (foldl save_icon w sizes) = is_dir p w.
Proof. unfold is_dir. by rewrite w_dirs_save_icons. Qed.

Lemma none_is_dir_save_icons w sizes ps :
  none_is_dir (foldl save_icon w sizes) ps = none_is_dir w ps.
Proof.
  unfold none_is_dir, is_dir. by rewrite w_dirs_save_icons.
Qed.

Lemma none_is_dir_app w ps qs :
  none_is_dir w (ps ++ qs) = (none_is_dir w ps && none_is_dir w qs)%bool.
Proof. apply forallb_app. Qed.

Lemma size_class_run base scales width contents w :
  class_width base = Some width ->
  size_class (base, scales) contents w =
    for_each scales contents (icon_variant base width) w.
Proof.
  unfold class_width, size_class. intros H.
  destruct (head (Str.split "x" base)) as [part|]; [|done].
  unfold bind; cbn [of_option ret]. rewrite H. reflexivity.
Qed.

Lemma outer_loop_spec classes :
  Forall good_class classes ->
  forall contents w, is_dir icon_dir w = true ->
  match for_each classes contents size_class w with
  | Ok c w' =>
      can_render w (concat (map snd classes)) = true /\
      none_is_dir w (map icon_path (concat (map snd classes))) = true /\
      c = foldl class_entries contents classes /\
      w' = foldl save_icon w (concat (map snd classes))
  | Raise e _ =>
      (can_render w (concat (map snd classes))
       && none_is_dir w (map icon_path (concat (map snd classes))))%bool = false
  end.
Proof.
  induction 1 as [|[base scales] cs (width & Hwd & Hnz & Hgood) Hcs IH];
    intros contents w Hdir.
  - cbn. done.
  - cbn [for_each map concat snd fst] in *. unfold bind.
    rewrite (size_class_run _ _ _ _ _ Hwd).
    pose proof (inner_loop_spec base width scales Hnz Hgood contents w Hdir) as Hin.
    rewrite map_app, none_is_dir_app, can_render_app, foldl_app.
    destruct (for_each scales contents (icon_variant base width) w) as [c w'|e w'].
    + destruct Hin as (Hcan & Hnone & -> & ->). rewrite Hcan, Hnone. cbn [andb].
      assert (is_dir icon_dir (foldl save_icon w scales) = true) as Hdir'
        by (by rewrite is_dir_save_icons).
      specialize (IH (add_entries base width contents scales) _ Hdir').
      rewrite none_is_dir_save_icons, can_render_save_icons in IH.
      assert (class_entries contents (base, scales)
              = add_entries base width contents scales) as Hce
        by (unfold class_entries; cbn [fst snd]; by rewrite Hwd).
      cbn [foldl]. rewrite Hce. exact IH.
    + apply andb_false_iff in Hin as [->| ->]; cbn [andb]; by rewrite ?andb_false_r.
Qed.

Lemma table_sizes_good : Forall good_size all_sizes.
Proof.
  unfold all_sizes, icon_sizes. cbn [map snd concat app].
  repeat constructor; try (cbv; discriminate); vm_compute; reflexivity.
Qed.

Lemma table_classes_good : Forall good_class icon_sizes.
Proof.
  unfold icon_sizes.
  repeat (apply Forall_cons; split;
    [ eexists; split; [vm_compute; reflexivity|]; split; [discriminate|];
      cbn [snd]; repeat constructor; try (cbv; discriminate); vm_compute; reflexivity |]).
  constructor.
Qed.

Lemma table_manifest : foldl class_entries initial_contents icon_sizes = expected_manifest.
Proof. vm_compute. reflexivity. Qed.

Lemma w_canvas_add_dirs w ds :
  w_canvas (foldl (fun w d => add_dir d w) w ds) = w_canvas w.
Proof. revert w. induction ds as [|d ds IH]; intros w; [done|]. cbn. by rewrite IH. Qed.

Lemma makedirs_canvas w w0 :
  os.makedirs_exist_ok icon_dir w = Ok tt w0 -> w_canvas w0 = w_canvas w.
Proof.
  intros Hmk. pose proof (makedirs_icon_dir_cases w) as H. rewrite Hmk in H.
  destruct H as (_ & _ & ds & -> & _). cbn [extend w_canvas].
  apply w_canvas_add_dirs.
Qed.

Lemma can_render_ext w w' sizes :
  w_canvas w = w_canvas w' -> can_render w sizes = can_render w' sizes.
Proof. intros H. unfold can_render, canvas_ok. by rewrite H. Qed.

Lemma create_icon_set_spec w :
  match create_icon_set w with
  | Ok _ w1 =>
      exists w0, os.makedirs_exist_ok icon_dir w = Ok tt w0 /\
                 can_render w all_sizes = true /\
                 none_is_dir w0 targets = true /\ w1 = finished w0
  | Raise _ _ => can_build w = false
  end.
Proof.
  unfold create_icon_set, can_build. unfold bind at 1.
  pose proof (makedirs_icon_dir_cases w) as Hmk.
  pose proof (makedirs_canvas w) as Hcanvas.
  destruct (os.makedirs_exist_ok icon_dir w) as [[] w0|e w0]; [|done].
  destruct Hmk as (Hdir & _ & _). specialize (Hcanvas w0 eq_refl).
  rewrite <- (can_render_ext w0 w all_sizes Hcanvas).
  unfold bind at 1.
  pose proof (outer_loop_spec icon_sizes table_classes_good initial_contents w0 Hdir) as Hloop.
  fold all_sizes in Hloop. rewrite table_manifest in Hloop.
  unfold targets. rewrite none_is_dir_app.
  destruct (for_each icon_sizes initial_contents size_class w0) as [c w'|e w'].
  - destruct Hloop as (Hcan & Hnone & -> & ->). rewrite Hcan, Hnone.
    unfold bind at 1, json_dump_to. fold contents_path.
    rewrite (write_file_run contents_path icon_dir) by
      (first [reflexivity | by rewrite is_dir_save_icons]).
    rewrite is_dir_save_icons.
    unfold none_is_dir at 1 2. cbn [forallb andb].
    destruct (is_dir contents_path w0) eqn:Hc; [done|].
    exists w0. split; [reflexivity|]. split; [reflexivity|]. split; [|reflexivity].
    rewrite forallb_app. fold (none_is_dir w0 (map icon_path all_sizes)).
    rewrite Hnone. cbn [forallb andb]. by rewrite Hc.
  - apply andb_false_iff in Hloop as [->| ->]; cbn [andb]; by rewrite ?andb_false_r.
Qed.

(** *** The world the builder leaves *)

Lemma create_icon_set_ok w :
  can_build w = true ->
  exists w0, os.makedirs_exist_ok icon_dir w = Ok tt w0 /\
             create_icon_set w = Ok tt (finished w0).
Proof.
  intros Hcan. pose proof (create_icon_set_spec w) as H.
  destruct (create_icon_set w) as [[] w1|e w1].
  - destruct H as (w0 & Hmk & _ & _ & ->). by exists w0.
  - congruence.
Qed.

Lemma w_files_add_dirs w ds :
  w_files (foldl (fun w d => add_dir d w) w ds) = w_files w.
Proof. revert w. induction ds as [|d ds IH]; intros w; [done|]. cbn. by rewrite IH. Qed.

Lemma w_fonts_add_dirs w ds :
  w_fonts (foldl (fun w d => add_dir d w) w ds) = w_fonts w.
Proof. revert w. induction ds as [|d ds IH]; intros w; [done|]. cbn. by rewrite IH. Qed.

Lemma w_metrics_add_dirs w ds :
  w_metrics (foldl (fun w d => add_dir d w) w ds) = w_metrics w.
Proof. revert w. induction ds as [|d ds IH]; intros w; [done|]. cbn. by rewrite IH. Qed.

Lemma w_trace_add_dirs w ds :
  w_trace (foldl (fun w d => add_dir d w) w ds) = w_trace w.
Proof. revert w. induction ds as [|d ds IH]; intros w; [done|]. cbn. by rewrite IH. Qed.

Lemma makedirs_frame w w0 :
  os.makedirs_exist_ok icon_dir w = Ok tt w0 ->
  w_fonts w0 = w_fonts w /\ w_metrics w0 = w_metrics w /\ w_files w0 = w_files w /\
  exists ds, w_trace w0 = (w_trace w ++ map Mkdir ds)%list.
Proof.
  intros Hmk. pose proof (makedirs_icon_dir_cases w) as H. rewrite Hmk in H.
  destruct H as (_ & _ & ds & -> & _). cbn [extend w_fonts w_metrics w_files w_trace].
  rewrite w_fonts_add_dirs, w_metrics_add_dirs, w_files_add_dirs, w_trace_add_dirs.
  repeat split. by exists ds.
Qed.

Lemma rendered_ext w w' size :
  w_fonts w = w_fonts w' -> w_metrics w = w_metrics w' ->
  rendered w size = rendered w' size.
Proof.
  intros Hf Hm. unfold rendered, glyphs, chosen_font, text_width, text_height.
  by rewrite Hf, Hm.
Qed.

Lemma builder_writes_ext w w' :
  w_fonts w = w_fonts w' -> w_metrics w = w_metrics w' ->
  builder_writes w = builder_writes w'.
Proof.
  intros Hf Hm. unfold builder_writes, icon_writes. f_equal.
  apply map_ext. intros s. by rewrite (rendered_ext w w' s Hf Hm).
Qed.

Lemma w_files_save_icons w sizes :
  w_files (foldl save_icon w sizes) =
  put_all (w_files w) (map (fun s => (icon_path s, PngFile (rendered w s))) sizes).
Proof.
  revert w. induction sizes as [|s ss IH]; intros w; [done|].
  cbn [foldl map put_all]. rewrite IH. reflexivity.
Qed.

Lemma w_trace_save_icons w sizes :
  w_trace (foldl save_icon w sizes) = (w_trace w ++ icon_events w sizes)%list.
Proof.
  revert w. induction sizes as [|s ss IH]; intros w.
  - cbn. by rewrite app_nil_r.
  - cbn [foldl]. rewrite IH. unfold icon_events. cbn [flat_map].
    unfold save_icon at 1. cbn [log put_file extend w_trace].
    rewrite <- !app_assoc. reflexivity.
Qed.

Lemma file_writes_app evs1 evs2 :
  file_writes (evs1 ++ evs2) = (file_writes evs1 ++ file_writes evs2)%list.
Proof. apply omap_app. Qed.

Lemma mkdirs_app evs1 evs2 : mkdirs (evs1 ++ evs2) = (mkdirs evs1 ++ mkdirs evs2)%list.
Proof. apply omap_app. Qed.

Lemma file_writes_font_calls w size : file_writes (font_calls w size) = [].
Proof. unfold font_calls. by repeat case_match. Qed.

Lemma mkdirs_font_calls w size : mkdirs (font_calls w size) = [].
Proof. unfold font_calls. by repeat case_match. Qed.

Lemma file_writes_icon_events w sizes :
  file_writes (icon_events w sizes) =
  map (fun s => (icon_path s, PngFile (rendered w s))) sizes.
Proof.
  induction sizes as [|s ss IH]; [done|].
  unfold icon_events in *. cbn [flat_map map].
  rewrite !file_writes_app, file_writes_font_calls, IH. reflexivity.
Qed.

Lemma mkdirs_icon_events w sizes : mkdirs (icon_events w sizes) = [].
Proof.
  induction sizes as [|s ss IH]; [done|].
  unfold icon_events in *. cbn [flat_map].
  rewrite !mkdirs_app, mkdirs_font_calls, IH. reflexivity.
Qed.

Lemma file_writes_mkdir ds : file_writes (map Mkdir ds) = [].
Proof. induction ds; [done|]. cbn. done. Qed.

Lemma w_trace_log e w : w_trace (log e w) = (w_trace w ++ [e])%list.
Proof. reflexivity. Qed.

Lemma w_trace_put_file p c w : w_trace (put_file p c w) = w_trace w.
Proof. reflexivity. Qed.

Lemma w_files_log e w : w_files (log e w) = w_files w.
Proof. reflexivity. Qed.

Lemma w_files_put_file p c w : w_files (put_file p c w) = <[p := c]> (w_files w).
Proof. reflexivity. Qed.

Lemma w_dirs_log e w : w_dirs (log e w) = w_dirs w.
Proof. reflexivity. Qed.

Lemma w_dirs_put_file p c w : w_dirs (put_file p c w) = w_dirs w.
Proof. reflexivity. Qed.

Lemma put_all_app m kvs1 kvs2 :
  put_all m (kvs1 ++ kvs2) = put_all (put_all m kvs1) kvs2.
Proof. apply foldl_app. Qed.

Lemma w_files_finished w0 :
  w_files (finished w0) = put_all (w_files w0) (builder_writes w0).
Proof.
  unfold finished, builder_writes, icon_writes.
  rewrite !w_files_log, w_files_put_file, w_files_save_icons, put_all_app.
  reflexivity.
Qed.

Lemma w_trace_finished w0 :
  exists evs, w_trace (finished w0) = (w_trace w0 ++ evs)%list /\
              file_writes evs = builder_writes w0 /\ mkdirs evs = [] /\
              last evs = Some (Print "Icon set created successfully!").
Proof.
  exists (icon_events w0 all_sizes
          ++ [FileWrite contents_path (JsonFile 2 expected_manifest);
              Print "Icon set created successfully!"])%list.
  split; [|split; [|split]].
  - unfold finished.
    rewrite !w_trace_log, w_trace_put_file, w_trace_save_icons.
    rewrite <- !app_assoc. reflexivity.
  - rewrite file_writes_app, file_writes_icon_events. reflexivity.
  - rewrite mkdirs_app, mkdirs_icon_events. reflexivity.
  - rewrite last_app. reflexivity.
Qed.

Lemma w_dirs_finished w0 : w_dirs (finished w0) = w_dirs w0.
Proof.
  unfold finished. rewrite !w_dirs_log, w_dirs_put_file. apply w_dirs_save_icons.
Qed.

(** *** Storing a list of files *)

Lemma put_all_union m kvs :
  put_all m kvs = (list_to_map (reverse kvs) : gmap string file_content) ∪ m.
Proof.
  revert m. induction kvs as [|[k v] kvs IH]; intros m.
  - cbn. by rewrite (left_id_L ∅ (∪)).
  - cbn [put_all foldl fst snd]. fold (put_all (<[k:=v]> m) kvs). rewrite IH.
    rewrite reverse_cons, list_to_map_app. cbn [list_to_map foldr fst snd uncurry].
    rewrite insert_empty, <- (assoc_L (∪)), <- insert_union_singleton_l.
    reflexivity.
Qed.

Lemma put_all_twice m kvs : put_all (put_all m kvs) kvs = put_all m kvs.
Proof.
  rewrite !put_all_union, (assoc_L (∪)), (idemp_L (∪)). reflexivity.
Qed.

Lemma dom_put_all m kvs :
  dom (put_all m kvs) = dom m ∪ list_to_set (map fst kvs).
Proof.
  revert m. induction kvs as [|[k v] kvs IH]; intros m.
  - cbn. by rewrite (right_id_L ∅ (∪)).
  - cbn [put_all foldl fst snd map list_to_set]. fold (put_all (<[k:=v]> m) kvs).
    rewrite IH, dom_insert_L.
    by rewrite (assoc_L (∪) (dom m)), (comm_L (∪) (dom m)).
Qed.

Lemma put_all_lookup_last m kvs k v :
  (put_all m (kvs ++ [(k, v)])) !! k = Some v.
Proof. unfold put_all. rewrite foldl_app. cbn. apply lookup_insert_eq. Qed.

Lemma new_events_app w w' evs :
  w_trace w' = (w_trace w ++ evs)%list -> new_events w w' = evs.
Proof. intros H. unfold new_events. rewrite H. apply drop_app_length. Qed.

Lemma mkdirs_mkdir ds : mkdirs (map Mkdir ds) = ds.
Proof.
  induction ds as [|d ds IH]; [done|].
  change (mkdirs (map Mkdir (d :: ds))) with (d :: mkdirs (map Mkdir ds)).
  by rewrite IH.
Qed.

(** A run of the builder that can complete, summed up against the world
    it started from. *)
Lemma build_summary w :
  can_build w = true ->
  exists w1, create_icon_set w = Ok tt w1 /\
    file_writes (new_events w w1) = builder_writes w /\
    w_files w1 = put_all (w_files w) (builder_writes w) /\
    sublist (mkdirs (new_events w w1)) [assets_dir; icon_dir] /\
    last (new_events w w1) = Some (Print "Icon set created successfully!").
Proof.
  intros Hcan. destruct (create_icon_set_ok w Hcan) as (w0 & Hmk & Hrun).
  exists (finished w0). split; [exact Hrun|].
  pose proof (makedirs_icon_dir_cases w) as Hcases. rewrite Hmk in Hcases.
  destruct Hcases as (_ & _ & ds & Hw0 & Hsub).
  destruct (makedirs_frame w w0 Hmk) as (Hf & Hm & Hfiles & _).
  assert (w_trace w0 = (w_trace w ++ map Mkdir ds)%list) as Htr0.
  { rewrite Hw0. cbn [extend w_trace]. by rewrite w_trace_add_dirs. }
  destruct (w_trace_finished w0) as (evs & Htr & Hwrites & Hmkdirs & Hlast).
  rewrite Htr0, <- app_assoc in Htr.
  rewrite (new_events_app _ _ _ Htr).
  rewrite file_writes_app, file_writes_mkdir, Hwrites.
  rewrite w_files_finished, Hfiles, (builder_writes_ext w0 w Hf Hm).
  split; [reflexivity|]. split; [reflexivity|]. split.
  - rewrite mkdirs_app, Hmkdirs, app_nil_r, mkdirs_mkdir. exact Hsub.
  - rewrite last_app, Hlast. reflexivity.
Qed.

Lemma distinct_sizes_spec : remove_dups all_sizes = distinct_sizes.
Proof. vm_compute. reflexivity. Qed.

Lemma builder_writes_paths w :
  map fst (builder_writes w) = (map icon_path all_sizes ++ [contents_path])%list.
Proof. reflexivity. Qed.

Lemma lookup_contents w :
  put_all (w_files w) (builder_writes w) !! contents_path
  = Some (JsonFile 2 expected_manifest).
Proof. unfold builder_writes. apply put_all_lookup_last. Qed.

Lemma lookup_icon_gen (r : Z -> image) (c : file_content)
    (m : gmap string file_content) (size : Z) :
  size ∈ distinct_sizes ->
  put_all m (map (fun s => (icon_path s, PngFile (r s))) all_sizes
             ++ [(contents_path, c)]) !! icon_path size
  = Some (PngFile (r size)).
Proof.
  intros Hin. rewrite put_all_union. apply lookup_union_Some_l.
  unfold distinct_sizes in Hin.
  repeat (apply elem_of_cons in Hin as [->|Hin]; [vm_compute; reflexivity|]).
  by apply elem_of_nil in Hin.
Qed.

Lemma lookup_icon w size :
  size ∈ distinct_sizes ->
  put_all (w_files w) (builder_writes w) !! icon_path size
  = Some (PngFile (rendered w size)).
Proof. apply (lookup_icon_gen (rendered w)). Qed.

(** ** The double computation agrees with the rational model *)


Lemma Zdigits2_log2 (z : Z) : (0 < z)%Z -> Zdigits2 z = (Z.log2 z + 1)%Z.
Proof.
  destruct z as [|p|p]; try lia. intros _. cbn [Zdigits2].
  induction p as [p IH|p IH|]; cbn [digits2_pos].
  - rewrite Pos2Z.inj_succ, IH.
    change (Z.pos p~1) with (2 * Z.pos p + 1)%Z.
    rewrite Z.log2_succ_double by lia. lia.
  - rewrite Pos2Z.inj_succ, IH.
    change (Z.pos p~0) with (2 * Z.pos p)%Z.
    rewrite Z.log2_double by lia. lia.
  - reflexivity.
Qed.

Lemma iter_pos_comm {A} (f : A -> A) (p : positive) (x : A) :
  SpecFloat.iter_pos f p (f x) = f (SpecFloat.iter_pos f p x).
Proof.
  revert x. induction p as [p IH|p IH|]; intros x; cbn [SpecFloat.iter_pos].
  - by rewrite !IH.
  - by rewrite !IH.
  - reflexivity.
Qed.

Lemma iter_pos_succ {A} (f : A -> A) (p : positive) (x : A) :
  SpecFloat.iter_pos f (Pos.succ p) x = f (SpecFloat.iter_pos f p x).
Proof.
  revert x. induction p as [p IH|p IH|]; intros x.
  - change (Pos.succ p~1) with ((Pos.succ p)~0)%positive. cbn [SpecFloat.iter_pos].
    rewrite !IH. by rewrite !iter_pos_comm.
  - change (Pos.succ p~0) with (p~1)%positive. cbn [SpecFloat.iter_pos].
    by rewrite !iter_pos_comm.
  - reflexivity.
Qed.

(** Shifting right by [n] a mantissa that is a multiple of [2^n] loses
    nothing. *)
Lemma shr_exact (n : positive) (k : Z) :
  (0 < k)%Z ->
  SpecFloat.iter_pos shr_1 n (Build_shr_record (k * 2 ^ Z.pos n) false false)
  = Build_shr_record k false false.
Proof.
  revert k. induction n as [|n IH] using Pos.peano_ind; intros k Hk.
  - cbn [SpecFloat.iter_pos]. destruct k as [|p|p]; try lia.
    replace (Z.pos p * 2 ^ 1)%Z with (Z.pos p~0) by lia. reflexivity.
  - rewrite iter_pos_succ.
    replace (k * 2 ^ Z.pos (Pos.succ n))%Z with ((2 * k) * 2 ^ Z.pos n)%Z.
    2:{ rewrite Pos2Z.inj_succ, Z.pow_succ_r by lia. lia. }
    rewrite IH by lia. destruct k as [|p|p]; try lia. reflexivity.
Qed.

Lemma log2_52_pos (k : Z) : Z.log2 k = 52%Z -> (0 < k)%Z.
Proof.
  intros Hk. destruct (Z.lt_ge_cases 0 k) as [H|H]; [exact H|].
  rewrite Z.log2_nonpos in Hk by lia. lia.
Qed.

Lemma shr_fexp_exact (k n e : Z) :
  (0 <= n)%Z -> Z.log2 k = 52%Z -> (-1074 <= e + n)%Z ->
  shr_fexp 53 1024 (k * 2 ^ n) e loc_Exact
  = (Build_shr_record k false false, (e + n)%Z).
Proof.
  intros Hn Hk He.
  pose proof (log2_52_pos k Hk) as Hpos.
  unfold shr_fexp, shr_record_of_loc.
  rewrite Zdigits2_log2 by (apply Z.mul_pos_pos; [lia | apply Z.pow_pos_nonneg; lia]).
  rewrite Z.log2_mul_pow2, Hk by lia.
  unfold fexp, emin.
  replace (Z.max (n + 52 + 1 + e - 53) (3 - 1024 - 53) - e)%Z with n by lia.
  unfold shr. destruct n as [|p|p]; try lia.
  - rewrite Z.pow_0_r, Z.mul_1_r, Z.add_0_r. reflexivity.
  - by rewrite shr_exact.
Qed.

(** Rounding a mantissa of [53 + n] bits whose low [n] bits are zero is
    exact. *)
Lemma binary_round_aux_exact (s : bool) (k n e : Z) :
  (0 <= n)%Z -> Z.log2 k = 52%Z -> (-1074 <= e + n <= 971)%Z ->
  binary_round_aux 53 1024 s (k * 2 ^ n) e loc_Exact
  = S754_finite s (Z.to_pos k) (e + n).
Proof.
  intros Hn Hk He.
  pose proof (log2_52_pos k Hk) as Hpos.
  unfold binary_round_aux.
  rewrite shr_fexp_exact by lia.
  cbn [shr_m loc_of_shr_record round_nearest_even].
  pose proof (shr_fexp_exact k 0 (e + n) ltac:(lia) Hk ltac:(lia)) as H0.
  rewrite Z.pow_0_r, Z.mul_1_r, Z.add_0_r in H0. rewrite H0.
  cbn [shr_m]. destruct k as [|p|p]; try lia.
  replace (e + n <=? 1024 - 53)%Z with true by (symmetry; apply Z.leb_le; lia).
  reflexivity.
Qed.

Lemma pos_iter_xO (p k : positive) :
  Z.pos (Pos.iter xO p k) = (Z.pos p * 2 ^ Z.pos k)%Z.
Proof.
  induction k as [|k IH] using Pos.peano_ind.
  - cbn [Pos.iter]. lia.
  - rewrite Pos.iter_succ, Pos2Z.inj_xO, IH, Pos2Z.inj_succ, Z.pow_succ_r by lia.
    lia.
Qed.

(** [float(n)] of a positive integer below [2^53]: the mantissa is [n]
    shifted up to 53 bits. *)
Lemma of_int_pos (n : Z) :
  (0 < n < 2 ^ 53)%Z ->
  Binary64.of_int n
  = S754_finite false (Z.to_pos (n * 2 ^ (52 - Z.log2 n))) (Z.log2 n - 52).
Proof.
  intros Hn.
  assert (0 <= Z.log2 n < 53)%Z as Hlog.
  { split; [apply Z.log2_nonneg|]. apply Z.log2_lt_pow2; lia. }
  assert (Z.log2 (n * 2 ^ (52 - Z.log2 n)) = 52%Z) as Hk
    by (rewrite Z.log2_mul_pow2 by lia; lia).
  unfold Binary64.of_int, binary_normalize. destruct n as [|p|p]; try lia.
  unfold binary_round.
  change (Z.pos (digits2_pos p)) with (Zdigits2 (Z.pos p)).
  rewrite Zdigits2_log2 by lia. unfold fexp, emin, Binary64.prec, Binary64.emax.
  replace (Z.max (Z.log2 (Z.pos p) + 1 + 0 - 53) (3 - 1024 - 53))%Z
    with (Z.log2 (Z.pos p) - 52)%Z by lia.
  unfold shl_align.
  destruct (Z.log2 (Z.pos p) - 52 - 0)%Z as [|q|q] eqn:Hd; try lia.
  - assert (Z.log2 (Z.pos p) = 52%Z) as E by lia. rewrite E in *.
    pose proof (binary_round_aux_exact false (Z.pos p) 0 0 ltac:(lia)) as H.
    rewrite Z.pow_0_r, Z.mul_1_r in H. rewrite H; [|lia|lia].
    change (52 - 52)%Z with 0%Z. rewrite Z.pow_0_r, Z.mul_1_r. reflexivity.
  - pose proof (binary_round_aux_exact false (Z.pos (Pos.iter xO p q)) 0
                  (Z.log2 (Z.pos p) - 52) ltac:(lia)) as H.
    rewrite Z.pow_0_r, Z.mul_1_r in H. rewrite H.
    + rewrite Z.add_0_r, pos_iter_xO.
      replace (Z.pos q) with (52 - Z.log2 (Z.pos p))%Z by lia. reflexivity.
    + rewrite pos_iter_xO. replace (Z.pos q) with (52 - Z.log2 (Z.pos p))%Z by lia.
      exact Hk.
    + lia.
Qed.

Example of_int_1024 : Binary64.of_int 1024 = S754_finite false (2 ^ 52) (-42).
Proof. reflexivity. Qed.

Lemma div_eucl_pair (a b : Z) : Z.div_eucl a b = ((a / b)%Z, (a mod b)%Z).
Proof. unfold Z.div, Z.modulo. by destruct (Z.div_eucl a b). Qed.

(** Dividing a normal double by 1024 only lowers its exponent. *)
Lemma div_1024_exact (m : positive) (e : Z) :
  Z.log2 (Z.pos m) = 52%Z -> (-1000 <= e <= 900)%Z ->
  Binary64.div (S754_finite false m e) (Binary64.of_int 1024)
  = S754_finite false m (e - 10).
Proof.
  intros Hk He. rewrite of_int_1024.
  unfold Binary64.div, SFdiv, Binary64.prec, Binary64.emax.
  assert (SFdiv_core_binary 53 1024 (Z.pos m) e (Z.pos (2 ^ 52)) (-42)
          = ((Z.pos m * 2 ^ 1)%Z, (e - 11)%Z, loc_Exact)) as Hcore.
  { unfold SFdiv_core_binary.
    rewrite (Zdigits2_log2 (Z.pos m)), Hk by lia.
    replace (Zdigits2 (Z.pos (2 ^ 52))) with 53%Z by reflexivity.
    unfold fexp, emin.
    replace (Z.min (Z.max (52 + 1 + e - (53 + -42) - 53) (3 - 1024 - 53)) (e - -42))
      with (e - 11)%Z by lia.
    replace (e - -42 - (e - 11))%Z with 53%Z by lia.
    cbv iota beta.
    rewrite Z.shiftl_mul_pow2, div_eucl_pair by lia.
    replace (Z.pos m * 2 ^ 53)%Z with ((Z.pos m * 2 ^ 1) * Z.pos (2 ^ 52))%Z
      by (change (Z.pos (2 ^ 52)) with (2 ^ 52)%Z; lia).
    rewrite Z.div_mul, Z.mod_mul by lia. reflexivity. }
  rewrite Hcore. cbn [xorb].
  rewrite binary_round_aux_exact by lia.
  f_equal. lia.
Qed.

Lemma log2_normal (n : Z) :
  (0 < n < 2 ^ 53)%Z ->
  (0 <= Z.log2 n <= 52)%Z /\ Z.log2 (n * 2 ^ (52 - Z.log2 n)) = 52%Z /\
  (0 < n * 2 ^ (52 - Z.log2 n))%Z.
Proof.
  intros Hn.
  assert (0 <= Z.log2 n < 53)%Z as Hlog.
  { split; [apply Z.log2_nonneg|]. apply Z.log2_lt_pow2; lia. }
  split; [lia|]. split.
  - rewrite Z.log2_mul_pow2 by lia. lia.
  - apply Z.mul_pos_pos; [lia|]. apply Z.pow_pos_nonneg; lia.
Qed.

(** The double computation [int(c * (size / 1024))] is exact whenever the
    product [c * size] fits the 53-bit mantissa. *)
Theorem scaled64_exact (c size : Z) :
  (0 < c < 2 ^ 53)%Z -> (0 <= size)%Z -> (c * size < 2 ^ 53)%Z ->
  Binary64.scaled64 c size = Some (c * size / 1024)%Z.
Proof.
  intros Hc Hsize Hprod. unfold Binary64.scaled64.
  destruct (log2_normal c Hc) as (Hlc & Hkc & Hpc).
  rewrite (of_int_pos c Hc).
  destruct (Z.eq_dec size 0) as [->|Hnz].
  { rewrite Z.mul_0_r. reflexivity. }
  assert (0 < size < 2 ^ 53)%Z as Hs by nia.
  destruct (log2_normal size Hs) as (Hls & Hks & Hps).
  rewrite (of_int_pos size Hs).
  rewrite div_1024_exact by (rewrite ?Z2Pos.id by lia; first [exact Hks | lia]).
  assert (0 < c * size < 2 ^ 53)%Z as Hcs by nia.
  destruct (log2_normal (c * size) Hcs) as (Hl & Hk & Hp).
  pose proof (Z.log2_mul_below c size ltac:(lia) ltac:(lia)) as Hbelow.
  set (lc := Z.log2 c) in *. set (ls := Z.log2 size) in *.
  set (l := Z.log2 (c * size)) in *.
  unfold Binary64.mul, SFmul, Binary64.prec, Binary64.emax. cbn [xorb].
  rewrite Pos2Z.inj_mul, !Z2Pos.id by lia.
  replace (c * 2 ^ (52 - lc) * (size * 2 ^ (52 - ls)))%Z
    with ((c * size * 2 ^ (52 - l)) * 2 ^ (52 + l - lc - ls))%Z.
  2:{ rewrite <- !Z.mul_assoc. f_equal.
      rewrite (Z.mul_comm (2 ^ (52 - lc))), <- !Z.mul_assoc. f_equal.
      rewrite <- !Z.pow_add_r by lia. f_equal. lia. }
  rewrite binary_round_aux_exact by lia.
  replace (lc - 52 + (ls - 52 - 10) + (52 + l - lc - ls))%Z with (l - 62)%Z by lia.
  unfold Binary64.to_int.
  destruct (l - 62)%Z as [|q|q] eqn:Hq; try lia.
  rewrite Z2Pos.id by lia.
  rewrite Z.shiftr_div_pow2 by lia.
  replace (Z.pos q) with ((52 - l) + 10)%Z by lia.
  rewrite Z.pow_add_r by lia.
  rewrite (Z.mul_comm (2 ^ (52 - l))), Z.div_mul_cancel_r.
  - reflexivity.
  - lia.
  - apply Z.pow_nonzero; lia.
Qed.

(** For every literal of the script and every size below [2^44], far
    beyond any image that can be allocated, the script's double
    arithmetic yields exactly the integer of the rational model. *)
Theorem binary64_agrees (c size : Z) :
  In c Binary64.literals -> (0 <= size < 2 ^ 44)%Z ->
  Binary64.scaled64 c size = Some (scaled c size).
Proof.
  intros Hc Hsize.
  assert (0 < c <= 400)%Z as Hbound.
  { unfold Binary64.literals in Hc. cbn [In] in Hc.
    repeat (destruct Hc as [<-|Hc]; [lia|]). destruct Hc. }
  rewrite scaled_floor by lia.
  apply scaled64_exact; [lia | lia |].
  assert (c * size <= 400 * size)%Z by nia. lia.
Qed.

(** Rounding does show once the product needs more than 53 bits: such
    sizes are out of reach of [Image.new], which has to allocate
    [size * size] pixels before the constants are computed. *)
Example binary64_rounds_far_out :
  Binary64.scaled64 400 (2 ^ 51 + 23) = Some (scaled 400 (2 ^ 51 + 23) + 1)%Z.
Proof. reflexivity. Qed.

Example binary64_inset_16 : Binary64.scaled64 60 16 = Some 0%Z.
Proof. reflexivity. Qed.

(** ** Claims on the scaled constants *)

(** C2, as stated, fails: at [size = 16] the inset is [0] while
    [60 * 16 / 1024] is [15/16], so the four constants are not all exactly
    proportional to the size. *)
Lemma C2_not_proportional_at_16 :
  ~ (proportional 60 16 (inset 16) /\ proportional 100 16 (corner_radius 16) /\
     proportional 400 16 (font_size 16) /\ proportional 10 16 (spacing 16)).
Proof.
  intros [H _]. apply proportional_iff in H. vm_compute in H. discriminate.
Qed.

(** C2, amended: for a size that is not negative each scaled constant is
    the integer part of [c * size / 1024], at most the proportional value
    and less than one below it; the four constants are all exactly
    proportional precisely when the size is a multiple of 512; at
    [size = 512] they are 30, 50, 200 and 5. *)
Theorem C2_proportional_up_to_truncation (size : Z) :
  ((proportional 60 size (inset size) /\ proportional 100 size (corner_radius size) /\
    proportional 400 size (font_size size) /\ proportional 10 size (spacing size))
   <-> (512 | size)%Z) /\
  ((0 <= size)%Z ->
   (1024 * inset size <= 60 * size < 1024 * inset size + 1024)%Z /\
   (1024 * corner_radius size <= 100 * size < 1024 * corner_radius size + 1024)%Z /\
   (1024 * font_size size <= 400 * size < 1024 * font_size size + 1024)%Z /\
   (1024 * spacing size <= 10 * size < 1024 * spacing size + 1024)%Z) /\
  (inset 512 = 30 /\ corner_radius 512 = 50 /\ font_size 512 = 200 /\ spacing 512 = 5)%Z.
Proof.
  split; [|split].
  - unfold inset, corner_radius, font_size, spacing.
    rewrite !scaled_proportional_iff. split.
    + intros (_ & _ & _ & H). by apply divide_1024_10.
    + intros [k ->]. repeat split.
      * exists (30 * k)%Z; lia.
      * exists (50 * k)%Z; lia.
      * exists (200 * k)%Z; lia.
      * exists (5 * k)%Z; lia.
  - intros Hs. unfold inset, corner_radius, font_size, spacing.
    repeat split; apply scaled_bounds; lia.
  - repeat split; reflexivity.
Qed.

Lemma C2_proportional_up_to_truncation_witness :
  (0 <= 100)%Z /\
  (1024 * inset 100 <= 60 * 100 < 1024 * inset 100 + 1024)%Z /\
  inset 100 = 5%Z.
Proof.
  split; [lia|].
  split; [|reflexivity].
  apply (C2_proportional_up_to_truncation 100). lia.
Defined.

(** C10: every scaled constant is [c * size / 1024] truncated toward
    zero, which is the floor for a size that is not negative; at
    [size = 16] the inset and the spacing are both [0]; and these are the
    values [create_anie_icon] draws with wherever Pillow makes the
    canvas: the bounding box and radius of the background, the size it
    asks the font loader for, and the gap between the two letters of the
    top row. *)
Theorem C10_constants_truncated (size : Z) :
  (inset size = Z.quot (60 * size) 1024 /\
   corner_radius size = Z.quot (100 * size) 1024 /\
   font_size size = Z.quot (400 * size) 1024 /\
   spacing size = Z.quot (10 * size) 1024) /\
  ((0 <= size)%Z ->
   (inset size = 60 * size / 1024 /\ corner_radius size = 100 * size / 1024 /\
    font_size size = 400 * size / 1024 /\ spacing size = 10 * size / 1024)%Z /\
   forall w, canvas_ok w size = true ->
   exists img w' f x y,
     create_anie_icon size w = Ok img w' /\
     im_ops img !! 0%nat =
       Some (RoundedRectangle
               [60 * size / 1024; 60 * size / 1024;
                size - 60 * size / 1024; size - 60 * size / 1024]%Z
               (0, 0, 0)%Z (100 * size / 1024)%Z) /\
     w_trace w' !! length (w_trace w) =
       Some (FontOpen primary_font_path (400 * size / 1024)%Z) /\
     im_ops img !! 1%nat = Some (Text (x, y) "A" (255, 255, 255)%Z f) /\
     im_ops img !! 2%nat =
       Some (Text (x + text_width w f "A" + 10 * size / 1024, y)%Z "N"
               (0, 144, 255)%Z f)) /\
  (inset 16 = 0 /\ spacing 16 = 0)%Z.
Proof.
  split; [|split].
  - unfold inset, corner_radius, font_size, spacing.
    rewrite !scaled_quot. done.
  - intros Hs.
    assert (Hq : forall c, (0 <= c)%Z -> scaled c size = (c * size / 1024)%Z)
      by (intros c Hc; by apply scaled_floor).
    split.
    + unfold inset, corner_radius, font_size, spacing. rewrite !Hq by lia. done.
    + intros w Hcan. rewrite (create_anie_icon_run _ _ Hcan).
      eexists _, _, _, _, _. split; [reflexivity|].
      unfold rendered, background, glyphs, inset, corner_radius, spacing.
      rewrite !Hq by lia. cbn [im_ops lookup list_lookup].
      split; [reflexivity|]. split; [|split; reflexivity].
      cbn [extend w_trace]. rewrite lookup_app_r by lia.
      rewrite Nat.sub_diag. unfold font_calls, font_size. rewrite Hq by lia.
      by repeat case_match.
  - split; reflexivity.
Qed.

Lemma C10_constants_truncated_witness :
  (0 <= 1000)%Z /\ inset 1000 = 58%Z /\ font_size 1000 = 390%Z.
Proof.
  split; [lia|].
  destruct (C10_constants_truncated 1000) as (_ & H & _).
  destruct (H ltac:(lia)) as ((Hi & _ & Hf & _) & _).
  split; [exact Hi | exact Hf].
Defined.

(** ** Claims on [create_anie_icon] *)

Lemma new_events_extend evs w : new_events w (extend evs w) = evs.
Proof. unfold new_events, extend. cbn [w_trace]. by rewrite drop_app_length. Qed.

(** C1, as stated, fails: a side of [2^31] does not fit the C [int]
    Pillow takes it for.  On every machine [Image.new] raises
    [OverflowError] and no image is returned. *)
Lemma C1_no_image_at_2_31 :
  (forall w, create_anie_icon (2 ^ 31) w = Raise OverflowError w) /\
  ~ (forall size w, (0 < size)%Z ->
       exists img w', create_anie_icon size w = Ok img w' /\
                      im_width img = size /\ im_height img = size).
Proof.
  assert (forall w, create_anie_icon (2 ^ 31) w = Raise OverflowError w) as H
    by (intros w; by apply create_anie_icon_big).
  split; [exact H|].
  intros Hall.
  destruct (Hall (2 ^ 31)%Z (empty_world no_fonts) ltac:(lia)) as (img & w' & Hrun & _).
  rewrite H in Hrun. discriminate Hrun.
Qed.

(** C1, amended: for every size [S] with [0 < S < 2^31] whose canvas the
    machine can allocate, [create_anie_icon] returns an image whose
    width and height are both [S].  From [2^31] on it raises
    [OverflowError], and below, when the canvas cannot be allocated,
    [MemoryError].  An image of other dimensions is never returned. *)
Theorem C1_image_has_requested_size (size : Z) (w : world) :
  (0 < size)%Z ->
  ((size < 2 ^ 31)%Z -> w_canvas w (size, size) = true ->
   exists img w', create_anie_icon size w = Ok img w' /\
                  im_width img = size /\ im_height img = size) /\
  ((2 ^ 31 <= size)%Z -> create_anie_icon size w = Raise OverflowError w) /\
  ((size < 2 ^ 31)%Z -> w_canvas w (size, size) = false ->
   create_anie_icon size w = Raise MemoryError w) /\
  (forall img w', create_anie_icon size w = Ok img w' ->
                  im_width img = size /\ im_height img = size).
Proof.
  intros H.
  assert ((size < 2 ^ 31)%Z -> w_canvas w (size, size) = true ->
          create_anie_icon size w
          = Ok (rendered w size) (extend (font_calls w size) w)) as Hrun.
  { intros Hfit Hc. apply create_anie_icon_run, canvas_ok_spec.
    split; [lia | exact Hc]. }
  split; [|split; [|split]].
  - intros Hfit Hc. rewrite (Hrun Hfit Hc).
    eexists _, _. split; [reflexivity|]. split; reflexivity.
  - apply create_anie_icon_big.
  - intros Hfit Hc. apply create_anie_icon_full; [lia | exact Hc].
  - intros img w' Hok.
    destruct (canvas_ok w size) eqn:Hcan.
    + rewrite (create_anie_icon_run _ _ Hcan) in Hok. injection Hok as <- _.
      split; reflexivity.
    + destruct (create_anie_icon_refused _ _ Hcan) as (e & He & _).
      rewrite He in Hok. discriminate Hok.
Qed.

Lemma C1_image_has_requested_size_witness :
  (0 < 512)%Z /\
  exists img w', create_anie_icon 512 (empty_world no_fonts) = Ok img w' /\
                 im_width img = 512%Z /\ im_height img = 512%Z.
Proof.
  split; [lia|].
  destruct (C1_image_has_requested_size 512 (empty_world no_fonts) ltac:(lia))
    as (H & _).
  apply H; [lia | reflexivity].
Defined.

(** C4: whenever [create_anie_icon] draws (Pillow makes the canvas), the
    one rounded rectangle of the image has the bounding box
    [[inset, inset, S - inset, S - inset]]; for a negative size, and
    wherever else Pillow refuses the canvas, [Image.new] raises and
    nothing is drawn. *)
Theorem C4_background_bounding_box (size : Z) (w : world) :
  (canvas_ok w size = true ->
   exists img w', create_anie_icon size w = Ok img w' /\
     filter (fun op => is_rounded_rectangle op = true) (im_ops img) =
       [RoundedRectangle
          [inset size; inset size; size - inset size; size - inset size]%Z
          (0, 0, 0)%Z (corner_radius size)]) /\
  ((size < 0)%Z -> create_anie_icon size w = Raise ValueError w) /\
  (canvas_ok w size = false -> exists e, create_anie_icon size w = Raise e w).
Proof.
  split; [|split].
  - intros H. rewrite (create_anie_icon_run _ _ H).
    eexists _, _. split; reflexivity.
  - apply create_anie_icon_neg.
  - intros H. destruct (create_anie_icon_refused _ _ H) as (e & He & _).
    by exists e.
Qed.

Lemma C4_background_bounding_box_witness :
  canvas_ok (empty_world mac_fonts) 1024 = true /\
  exists img w', create_anie_icon 1024 (empty_world mac_fonts) = Ok img w' /\
    filter (fun op => is_rounded_rectangle op = true) (im_ops img) =
      [RoundedRectangle [60; 60; 964; 964]%Z (0, 0, 0)%Z 100%Z].
Proof.
  split; [reflexivity|].
  apply (C4_background_bounding_box 1024 (empty_world mac_fonts)). reflexivity.
Defined.

(** C6: wherever Pillow makes the canvas, the font is resolved by an
    ordered chain.  If the primary path
    loads, it is the only loader called; if it fails and the secondary
    path loads, the two are called in that order and nothing after; if
    both fail, the default font is loaded last.  All four letters are
    drawn with the font of the first loader that succeeded. *)
Theorem C6_font_fallback_chain (size : Z) (w : world) :
  canvas_ok w size = true ->
  exists img w', create_anie_icon size w = Ok img w' /\
    let fs := font_size size in
    let tried := new_events w w' in
    let used := omap op_font (im_ops img) in
    (w_fonts w primary_font_path fs = true ->
       tried = [FontOpen primary_font_path fs] /\
       used = replicate 4 (TrueType primary_font_path fs)) /\
    (w_fonts w primary_font_path fs = false ->
     w_fonts w secondary_font_path fs = true ->
       tried = [FontOpen primary_font_path fs; FontOpen secondary_font_path fs] /\
       used = replicate 4 (TrueType secondary_font_path fs)) /\
    (w_fonts w primary_font_path fs = false ->
     w_fonts w secondary_font_path fs = false ->
       tried = [FontOpen primary_font_path fs; FontOpen secondary_font_path fs;
                FontDefault] /\
       used = replicate 4 DefaultFont).
Proof.
  intros H. rewrite (create_anie_icon_run _ _ H).
  eexists _, _. split; [reflexivity|]. cbv zeta.
  rewrite new_events_extend.
  unfold rendered, glyphs, font_calls, chosen_font. cbn [im_ops omap op_font].
  split; [|split].
  - intros H1. rewrite H1. split; reflexivity.
  - intros H1 H2. rewrite H1, H2. split; reflexivity.
  - intros H1 H2. rewrite H1, H2. split; reflexivity.
Qed.

Lemma C6_font_fallback_chain_witness :
  canvas_ok (empty_world mac_fonts) 128 = true /\
  (exists img w', create_anie_icon 128 (empty_world mac_fonts) = Ok img w' /\
     new_events (empty_world mac_fonts) w' = [FontOpen primary_font_path 50] /\
     omap op_font (im_ops img) = replicate 4 (TrueType primary_font_path 50)) /\
  (exists img w', create_anie_icon 128 (empty_world user_fonts) = Ok img w' /\
     new_events (empty_world user_fonts) w'
     = [FontOpen primary_font_path 50; FontOpen secondary_font_path 50] /\
     omap op_font (im_ops img) = replicate 4 (TrueType secondary_font_path 50)) /\
  (exists img w', create_anie_icon 128 (empty_world no_fonts) = Ok img w' /\
     new_events (empty_world no_fonts) w'
     = [FontOpen primary_font_path 50; FontOpen secondary_font_path 50;
        FontDefault] /\
     omap op_font (im_ops img) = replicate 4 DefaultFont).
Proof.
  split; [reflexivity|]. split; [|split].
  - destruct (C6_font_fallback_chain 128 (empty_world mac_fonts) eq_refl)
      as (img & w' & Hrun & Hprimary & _).
    exists img, w'. split; [exact Hrun|]. apply Hprimary. reflexivity.
  - destruct (C6_font_fallback_chain 128 (empty_world user_fonts) eq_refl)
      as (img & w' & Hrun & _ & Hsecondary & _).
    exists img, w'. split; [exact Hrun|]. apply Hsecondary; reflexivity.
  - destruct (C6_font_fallback_chain 128 (empty_world no_fonts) eq_refl)
      as (img & w' & Hrun & _ & _ & Hdefault).
    exists img, w'. split; [exact Hrun|]. apply Hdefault; reflexivity.
Defined.

(** C8: [create_anie_icon] writes nothing to disk.  Whatever the size and
    whether it returns or raises, the directories and files of the world
    are unchanged, and every call it added to the trace is a font
    loader call. *)
Theorem C8_no_disk_write (size : Z) (w : world) :
  let w' := world_of (create_anie_icon size w) in
  w_dirs w' = w_dirs w /\ w_files w' = w_files w /\
  exists evs, w_trace w' = (w_trace w ++ evs)%list /\
              forallb is_font_load evs = true /\
              forallb (fun e => negb (is_disk_write e)) evs = true.
Proof.
  destruct (canvas_ok w size) eqn:Hcan.
  - rewrite (create_anie_icon_run _ _ Hcan).
    cbn [world_of extend w_dirs w_files w_trace].
    repeat split. exists (font_calls w size). split; [reflexivity|].
    unfold font_calls. by repeat case_match.
  - destruct (create_anie_icon_refused _ _ Hcan) as (e & -> & _). cbn.
    repeat split. exists []. by rewrite app_nil_r.
Qed.

(** ** Claims on [create_icon_set] *)

(** C3, as stated, fails: run in an empty directory, the builder
    completes and leaves seven image files on disk, not ten. *)
Lemma C3_empty_directory_gets_seven_images :
  (exists w1, create_icon_set (empty_world no_fonts) = Ok tt w1 /\
              length (image_files w1) = 7%nat) /\
  ~ (forall w1, create_icon_set (empty_world no_fonts) = Ok tt w1 ->
                length (image_files w1) = 10%nat).
Proof.
  assert (create_icon_set (empty_world no_fonts)
          = Ok tt (world_of (create_icon_set (empty_world no_fonts)))) as Hrun
    by (vm_compute; reflexivity).
  split.
  - eexists. split; [exact Hrun|]. vm_compute. reflexivity.
  - intros H. specialize (H _ Hrun). vm_compute in H. discriminate.
Qed.

(** C3, amended: a run of the builder that can complete performs exactly
    ten image writes, in table order, followed by the manifest; the ten
    writes go to seven distinct image files; the manifest holds exactly
    ten records in table order, each size class with its 1x record before
    its 2x record. *)
Theorem C3_ten_writes_seven_files_ten_records (w : world) :
  can_build w = true ->
  exists w1 m, create_icon_set w = Ok tt w1 /\
    map fst (file_writes (new_events w w1))
      = (map icon_path [16; 32; 32; 64; 128; 256; 256; 512; 512; 1024]%Z
         ++ [contents_path])%list /\
    dom (w_files w1)
      = dom (w_files w) ∪ list_to_set (map icon_path distinct_sizes)
        ∪ {[contents_path]} /\
    NoDup (map icon_path distinct_sizes) /\
    length (map icon_path distinct_sizes) = 7%nat /\
    Forall (fun s => w_files w1 !! icon_path s = Some (PngFile (rendered w s)))
      distinct_sizes /\
    w_files w1 !! contents_path = Some (JsonFile 2 m) /\
    map (fun e => (e_size e, e_scale e)) (images m)
      = [ ("16x16", "1x"); ("16x16", "2x"); ("32x32", "1x"); ("32x32", "2x");
          ("128x128", "1x"); ("128x128", "2x"); ("256x256", "1x");
          ("256x256", "2x"); ("512x512", "1x"); ("512x512", "2x") ] /\
    length (images m) = 10%nat.
Proof.
  intros Hcan.
  destruct (build_summary w Hcan) as (w1 & Hrun & Hwrites & Hfiles & _).
  exists w1, expected_manifest. split; [exact Hrun|].
  rewrite Hwrites, Hfiles. split; [reflexivity|]. split.
  { rewrite dom_put_all, builder_writes_paths, <- (assoc_L (∪)).
    apply (f_equal (union (dom (w_files w)))).
    refine (bool_decide_unpack _ _). vm_compute. exact I. }
  split; [refine (bool_decide_unpack _ _); vm_compute; exact I|].
  split; [reflexivity|].
  split.
  { apply Forall_forall. intros s Hs. by apply lookup_icon. }
  split; [apply lookup_contents|].
  split; reflexivity.
Qed.

Lemma C3_ten_writes_seven_files_ten_records_witness :
  can_build (empty_world no_fonts) = true /\
  exists w1 m, create_icon_set (empty_world no_fonts) = Ok tt w1 /\
    w_files w1 !! contents_path = Some (JsonFile 2 m) /\
    length (images m) = 10%nat /\
    length (file_writes (new_events (empty_world no_fonts) w1)) = 11%nat.
Proof.
  assert (can_build (empty_world no_fonts) = true) as Hcan
    by (vm_compute; reflexivity).
  split; [exact Hcan|].
  destruct (C3_ten_writes_seven_files_ten_records (empty_world no_fonts) Hcan)
    as (w1 & m & Hrun & Hwrites & _ & _ & _ & _ & Hm & _ & Hlen).
  exists w1, m. split; [exact Hrun|]. split; [exact Hm|]. split; [exact Hlen|].
  rewrite <- (length_map fst), Hwrites. reflexivity.
Defined.

(** C5: every record of the manifest carries the size class it was made
    for and, as its scale, the pixel dimension divided by the base
    dimension of the class (an exact division for every table entry)
    followed by "x"; the two records of class "32x32" have the scales
    "1x" (dimension 32) and "2x" (dimension 64). *)
Theorem C5_scale_is_dimension_over_base (w : world) :
  can_build w = true ->
  exists w1 m, create_icon_set w = Ok tt w1 /\
    w_files w1 !! contents_path = Some (JsonFile 2 m) /\
    Forall2
      (fun e v =>
         e_size e = fst v /\ e_filename e = icon_filename (snd v) /\
         exists width, class_width (fst v) = Some width /\ (0 < width)%Z /\
                       (snd v = snd v / width * width)%Z /\
                       e_scale e = Str.str (snd v / width) ++ "x")
      (images m) variants /\
    variants !! 2%nat = Some ("32x32", 32%Z) /\
    variants !! 3%nat = Some ("32x32", 64%Z) /\
    e_scale <$> images m !! 2%nat = Some "1x" /\
    e_scale <$> images m !! 3%nat = Some "2x" /\
    map e_scale (filter (fun e => e_size e = "32x32") (images m)) = ["1x"; "2x"].
Proof.
  intros Hcan.
  destruct (build_summary w Hcan) as (w1 & Hrun & _ & Hfiles & _).
  exists w1, expected_manifest. split; [exact Hrun|].
  rewrite Hfiles. split; [apply lookup_contents|].
  split.
  { unfold variants, icon_sizes, expected_manifest.
    cbn [images flat_map map fst snd app].
    repeat (apply Forall2_cons; split;
      [ split; [reflexivity|]; split; [reflexivity|];
        eexists; split; [vm_compute; reflexivity|];
        split; [reflexivity|]; split; vm_compute; reflexivity |]).
    constructor. }
  repeat split; vm_compute; reflexivity.
Qed.

Lemma C5_scale_is_dimension_over_base_witness :
  can_build (empty_world mac_fonts) = true /\
  exists w1 m, create_icon_set (empty_world mac_fonts) = Ok tt w1 /\
    w_files w1 !! contents_path = Some (JsonFile 2 m) /\
    map e_scale (filter (fun e => e_size e = "32x32") (images m)) = ["1x"; "2x"].
Proof.
  assert (can_build (empty_world mac_fonts) = true) as Hcan
    by (vm_compute; reflexivity).
  split; [exact Hcan|].
  destruct (C5_scale_is_dimension_over_base (empty_world mac_fonts) Hcan)
    as (w1 & m & Hrun & Hm & _ & _ & _ & _ & _ & H32).
  exists w1, m. split; [exact Hrun|]. split; [exact Hm | exact H32].
Defined.

Lemma w_fonts_save_icons w sizes : w_fonts (foldl save_icon w sizes) = w_fonts w.
Proof.
  revert w. induction sizes as [|s ss IH]; intros w; [done|].
  cbn [foldl]. rewrite IH. reflexivity.
Qed.

Lemma w_metrics_save_icons w sizes : w_metrics (foldl save_icon w sizes) = w_metrics w.
Proof.
  revert w. induction sizes as [|s ss IH]; intros w; [done|].
  cbn [foldl]. rewrite IH. reflexivity.
Qed.

Lemma w_fonts_log e w : w_fonts (log e w) = w_fonts w.
Proof. reflexivity. Qed.

Lemma w_fonts_put_file p c w : w_fonts (put_file p c w) = w_fonts w.
Proof. reflexivity. Qed.

Lemma w_metrics_log e w : w_metrics (log e w) = w_metrics w.
Proof. reflexivity. Qed.

Lemma w_metrics_put_file p c w : w_metrics (put_file p c w) = w_metrics w.
Proof. reflexivity. Qed.

Lemma w_canvas_log e w : w_canvas (log e w) = w_canvas w.
Proof. reflexivity. Qed.

Lemma w_canvas_put_file p c w : w_canvas (put_file p c w) = w_canvas w.
Proof. reflexivity. Qed.

Lemma w_canvas_save_icons w sizes : w_canvas (foldl save_icon w sizes) = w_canvas w.
Proof.
  revert w. induction sizes as [|s ss IH]; intros w; [done|].
  cbn [foldl]. rewrite IH. reflexivity.
Qed.

Lemma w_canvas_finished w0 : w_canvas (finished w0) = w_canvas w0.
Proof.
  unfold finished. rewrite !w_canvas_log, w_canvas_put_file.
  apply w_canvas_save_icons.
Qed.

Lemma w_fonts_finished w0 : w_fonts (finished w0) = w_fonts w0.
Proof.
  unfold finished. rewrite !w_fonts_log, w_fonts_put_file. apply w_fonts_save_icons.
Qed.

Lemma w_metrics_finished w0 : w_metrics (finished w0) = w_metrics w0.
Proof.
  unfold finished. rewrite !w_metrics_log, w_metrics_put_file.
  apply w_metrics_save_icons.
Qed.

Lemma is_file_put_all p m kvs :
  is_Some (m !! p) -> is_Some (put_all m kvs !! p).
Proof.
  rewrite <- !elem_of_dom, dom_put_all. set_solver.
Qed.

Lemma path_exists_finished p w0 :
  path_exists p w0 = true -> path_exists p (finished w0) = true.
Proof.
  unfold path_exists, is_dir, is_file. rewrite w_dirs_finished, w_files_finished.
  rewrite !orb_true_iff, !bool_decide_eq_true.
  intros [H|H]; [by left|right]. by apply is_file_put_all.
Qed.

Lemma none_is_dir_finished w0 ps : none_is_dir (finished w0) ps = none_is_dir w0 ps.
Proof. unfold none_is_dir, is_dir. by rewrite w_dirs_finished. Qed.

(** C7: after a run of the builder that completed, a second run
    completes too: the output directory is found and nothing is created,
    and the second run writes the same files with the same contents in
    the same order, so the files on disk are exactly those the first run
    left. *)
Theorem C7_rerun_writes_the_same_files (w w1 : world) :
  create_icon_set w = Ok tt w1 ->
  exists w2, create_icon_set w1 = Ok tt w2 /\
    mkdirs (new_events w1 w2) = [] /\
    w_dirs w2 = w_dirs w1 /\
    file_writes (new_events w1 w2) = file_writes (new_events w w1) /\
    w_files w2 = w_files w1.
Proof.
  intros Hrun.
  pose proof (create_icon_set_spec w) as Hspec. rewrite Hrun in Hspec.
  destruct Hspec as (w0 & Hmk & Hcanvas & Hnone & ->).
  pose proof (makedirs_icon_dir_cases w) as Hcases. rewrite Hmk in Hcases.
  destruct Hcases as (Hdir & Hassets & _).
  assert (can_build w = true) as Hcan
    by (unfold can_build; by rewrite Hmk, Hcanvas, Hnone).
  destruct (build_summary w Hcan) as (w1' & Hrun' & Hwrites1 & _).
  rewrite Hrun in Hrun'. injection Hrun' as <-.
  destruct (makedirs_frame w w0 Hmk) as (Hf0 & Hm0 & _ & _).
  (* the second run finds the directory *)
  assert (os.makedirs_exist_ok icon_dir (finished w0) = Ok tt (finished w0)) as Hmk2.
  { apply makedirs_icon_dir_again.
    - by apply path_exists_finished.
    - unfold is_dir in *. by rewrite w_dirs_finished. }
  assert (can_build (finished w0) = true) as Hcan2.
  { unfold can_build. rewrite Hmk2, none_is_dir_finished, Hnone.
    rewrite (can_render_ext (finished w0) w all_sizes), Hcanvas; [done|].
    by rewrite w_canvas_finished, (makedirs_canvas w w0 Hmk). }
  destruct (create_icon_set_ok _ Hcan2) as (w0' & Hmk2' & Hrun2).
  rewrite Hmk2 in Hmk2'. injection Hmk2' as <-.
  exists (finished (finished w0)). split; [exact Hrun2|].
  assert (builder_writes (finished w0) = builder_writes w0) as Hbw
    by (apply builder_writes_ext; [apply w_fonts_finished | apply w_metrics_finished]).
  destruct (w_trace_finished (finished w0)) as (evs & Htr & Hw2 & Hmkdirs & _).
  rewrite (new_events_app _ _ _ Htr).
  split; [exact Hmkdirs|].
  split; [apply w_dirs_finished|].
  split.
  - rewrite Hw2, Hbw, Hwrites1. by apply builder_writes_ext.
  - rewrite (w_files_finished (finished w0)), Hbw, w_files_finished.
    apply put_all_twice.
Qed.

Lemma C7_rerun_writes_the_same_files_witness :
  exists w1 w2,
    create_icon_set (empty_world mac_fonts) = Ok tt w1 /\
    create_icon_set w1 = Ok tt w2 /\ w_files w2 = w_files w1.
Proof.
  assert (create_icon_set (empty_world mac_fonts)
          = Ok tt (world_of (create_icon_set (empty_world mac_fonts)))) as Hrun
    by (vm_compute; reflexivity).
  destruct (C7_rerun_writes_the_same_files _ _ Hrun) as (w2 & Hrun2 & _ & _ & _ & Hfiles).
  exists (world_of (create_icon_set (empty_world mac_fonts))), w2.
  split; [exact Hrun|]. split; [exact Hrun2 | exact Hfiles].
Defined.

Lemma shared_sizes_distinct (s : Z) : s ∈ shared_sizes -> s ∈ distinct_sizes.
Proof.
  intros Hs. unfold shared_sizes in Hs. unfold distinct_sizes.
  repeat (apply elem_of_cons in Hs as [->|Hs]; [repeat constructor|]).
  by apply elem_of_nil in Hs.
Qed.

Lemma writes_to_shared (r : Z -> image) (c : file_content) (s : Z) :
  s ∈ shared_sizes ->
  filter (fun pc => fst pc = icon_path s)
    (map (fun s => (icon_path s, PngFile (r s))) all_sizes
     ++ [(contents_path, c)])%list
  = [(icon_path s, PngFile (r s)); (icon_path s, PngFile (r s))].
Proof.
  intros Hin. unfold shared_sizes in Hin.
  repeat (apply elem_of_cons in Hin as [->|Hin]; [vm_compute; reflexivity|]).
  by apply elem_of_nil in Hin.
Qed.

Lemma writes_to_unshared (r : Z -> image) (c : file_content) (s : Z) :
  s ∈ [16; 64; 128; 1024]%Z ->
  filter (fun pc => fst pc = icon_path s)
    (map (fun s => (icon_path s, PngFile (r s))) all_sizes
     ++ [(contents_path, c)])%list
  = [(icon_path s, PngFile (r s))].
Proof.
  intros Hin.
  repeat (apply elem_of_cons in Hin as [->|Hin]; [vm_compute; reflexivity|]).
  by apply elem_of_nil in Hin.
Qed.

(** C9: the file name of a variant depends on its pixel dimension alone,
    so the ten variants of the table have seven distinct file names; the
    files of the dimensions 32, 256 and 512 are each written twice, both
    times with the same image, which is the image left on disk; the other
    four are written once; and each shared file name is referenced by two
    different manifest records, of two different size classes. *)
Theorem C9_shared_file_names (w : world) :
  can_build w = true ->
  exists w1 m, create_icon_set w = Ok tt w1 /\
    w_files w1 !! contents_path = Some (JsonFile 2 m) /\
    length variants = 10%nat /\
    map e_filename (images m) = map (fun v => icon_filename (snd v)) variants /\
    map fst (file_writes (new_events w w1))
      = (map (fun v => icon_path (snd v)) variants ++ [contents_path])%list /\
    remove_dups (map e_filename (images m))
      = [ "icon_16x16.png"; "icon_32x32.png"; "icon_64x64.png";
          "icon_128x128.png"; "icon_256x256.png"; "icon_512x512.png";
          "icon_1024x1024.png" ] /\
    Forall
      (fun s =>
         filter (fun pc => fst pc = icon_path s) (file_writes (new_events w w1))
           = [ (icon_path s, PngFile (rendered w s));
               (icon_path s, PngFile (rendered w s)) ] /\
         w_files w1 !! icon_path s = Some (PngFile (rendered w s)) /\
         exists e1 e2,
           filter (fun e => e_filename e = icon_filename s) (images m) = [e1; e2] /\
           e_size e1 <> e_size e2)
      shared_sizes /\
    Forall
      (fun s =>
         filter (fun pc => fst pc = icon_path s) (file_writes (new_events w w1))
           = [ (icon_path s, PngFile (rendered w s)) ])
      [16; 64; 128; 1024]%Z.
Proof.
  intros Hcan.
  destruct (build_summary w Hcan) as (w1 & Hrun & Hwrites & Hfiles & _).
  exists w1, expected_manifest. split; [exact Hrun|].
  rewrite Hwrites, Hfiles.
  split; [apply lookup_contents|].
  split; [reflexivity|].
  split; [reflexivity|].
  split; [reflexivity|].
  split; [vm_compute; reflexivity|].
  split.
  - apply Forall_forall. intros s Hs.
    split; [by apply (writes_to_shared (rendered w))|].
    split.
    { apply lookup_icon. by apply shared_sizes_distinct. }
    unfold shared_sizes in Hs.
    repeat (apply elem_of_cons in Hs as [->|Hs];
      [eexists _, _; split; [vm_compute; reflexivity | vm_compute; discriminate]|]).
    by apply elem_of_nil in Hs.
  - apply Forall_forall. intros s Hs.
    by apply (writes_to_unshared (rendered w)).
Qed.

Lemma C9_shared_file_names_witness :
  can_build (empty_world no_fonts) = true /\
  exists w1, create_icon_set (empty_world no_fonts) = Ok tt w1 /\
    map fst (file_writes (new_events (empty_world no_fonts) w1))
      = (map (fun v => icon_path (snd v)) variants ++ [contents_path])%list.
Proof.
  assert (can_build (empty_world no_fonts) = true) as Hcan
    by (vm_compute; reflexivity).
  split; [exact Hcan|].
  destruct (C9_shared_file_names (empty_world no_fonts) Hcan)
    as (w1 & m & Hrun & _ & _ & _ & Hwrites & _).
  exists w1. split; [exact Hrun | exact Hwrites].
Defined.

(** * Further properties *)

(** ** Further properties of the scaled constants *)

(** X1: wherever Pillow makes the canvas, the background rectangle is
    never inverted and lies on the canvas. *)
Theorem background_rectangle_fits (size : Z) (w : world) :
  canvas_ok w size = true ->
  exists img w' x0 x1 r fill,
    create_anie_icon size w = Ok img w' /\
    im_ops img !! 0%nat = Some (RoundedRectangle [x0; x0; x1; x1] fill r) /\
    (0 <= x0 <= x1)%Z /\ (x1 <= size)%Z /\ (0 <= 2 * r <= x1 - x0)%Z.
Proof.
  intros Hcan. rewrite (create_anie_icon_run _ _ Hcan).
  apply canvas_ok_spec in Hcan as [[Hs _] _].
  eexists _, _, _, _, _, _. split; [reflexivity|].
  split; [reflexivity|].
  pose proof (scaled_bounds 60 size ltac:(lia) Hs).
  pose proof (scaled_bounds 100 size ltac:(lia) Hs).
  unfold inset, corner_radius. lia.
Qed.

Lemma background_rectangle_fits_witness :
  canvas_ok (empty_world no_fonts) 16 = true /\
  exists img w' x0 x1 r fill,
    create_anie_icon 16 (empty_world no_fonts) = Ok img w' /\
    im_ops img !! 0%nat = Some (RoundedRectangle [x0; x0; x1; x1] fill r) /\
    (0 <= x0 <= x1)%Z.
Proof.
  split; [reflexivity|].
  destruct (background_rectangle_fits 16 (empty_world no_fonts) eq_refl)
    as (img & w' & x0 & x1 & r & fill & Hrun & Hop & Hx & _).
  by exists img, w', x0, x1, r, fill.
Defined.

(** X2: doubling the canvas doubles each scaled constant, up to one
    pixel of truncation. *)
Theorem doubling_the_size (size : Z) :
  (0 <= size)%Z ->
  (2 * inset size <= inset (2 * size) <= 2 * inset size + 1)%Z /\
  (2 * corner_radius size <= corner_radius (2 * size) <= 2 * corner_radius size + 1)%Z /\
  (2 * font_size size <= font_size (2 * size) <= 2 * font_size size + 1)%Z /\
  (2 * spacing size <= spacing (2 * size) <= 2 * spacing size + 1)%Z.
Proof.
  intros Hs.
  assert (forall c, (0 <= c)%Z ->
            (2 * scaled c size <= scaled c (2 * size) <= 2 * scaled c size + 1)%Z) as H.
  { intros c Hc.
    pose proof (scaled_bounds c size Hc Hs).
    pose proof (scaled_bounds c (2 * size) Hc ltac:(lia)). lia. }
  unfold inset, corner_radius, font_size, spacing.
  repeat split; apply H; lia.
Qed.

Lemma doubling_the_size_witness :
  (0 <= 16)%Z /\ (2 * inset 16 <= inset 32 <= 2 * inset 16 + 1)%Z /\ inset 32 = 1%Z.
Proof.
  split; [lia|]. split; [|reflexivity].
  apply (doubling_the_size 16). lia.
Defined.

(** X3: where truncation makes a constant vanish. *)
Theorem constants_vanish_on_small_canvases (size : Z) :
  (0 <= size)%Z ->
  (inset size = 0 <-> size <= 17)%Z /\
  (corner_radius size = 0 <-> size <= 10)%Z /\
  (font_size size = 0 <-> size <= 2)%Z /\
  (spacing size = 0 <-> size <= 102)%Z.
Proof.
  intros Hs.
  pose proof (scaled_bounds 60 size ltac:(lia) Hs).
  pose proof (scaled_bounds 100 size ltac:(lia) Hs).
  pose proof (scaled_bounds 400 size ltac:(lia) Hs).
  pose proof (scaled_bounds 10 size ltac:(lia) Hs).
  unfold inset, corner_radius, font_size, spacing. lia.
Qed.

Lemma constants_vanish_on_small_canvases_witness :
  (0 <= 64)%Z /\ (spacing 64 = 0 <-> 64 <= 102)%Z /\ spacing 64 = 0%Z.
Proof.
  split; [lia|]. split; [|reflexivity].
  apply (constants_vanish_on_small_canvases 64). lia.
Defined.

(** X4: each scaled constant grows with the size. *)
Theorem constants_are_monotone (s1 s2 : Z) :
  (s1 <= s2)%Z ->
  (inset s1 <= inset s2)%Z /\ (corner_radius s1 <= corner_radius s2)%Z /\
  (font_size s1 <= font_size s2)%Z /\ (spacing s1 <= spacing s2)%Z.
Proof.
  intros Hle. unfold inset, corner_radius, font_size, spacing.
  rewrite !scaled_quot. repeat split; apply Z.quot_le_mono; lia.
Qed.

Lemma constants_are_monotone_witness :
  (512 <= 1024)%Z /\ (inset 512 <= inset 1024)%Z.
Proof.
  split; [lia|]. apply (constants_are_monotone 512 1024). lia.
Defined.

(** ** The constants as the interpreter computes them *)

(** X5: for every size below [2^44] the seven products
    [int(c * scale_factor)] of the renderer, computed on IEEE-754 doubles
    as the interpreter does, are the exact quotients
    [c * size / 1024] truncated toward zero: rounding never shows. *)
Theorem double_arithmetic_is_exact (size : Z) :
  (0 <= size < 2 ^ 44)%Z ->
  Binary64.scaled64 60 size = Some (inset size) /\
  Binary64.scaled64 100 size = Some (corner_radius size) /\
  Binary64.scaled64 400 size = Some (font_size size) /\
  Binary64.scaled64 10 size = Some (spacing size) /\
  Forall (fun c => Binary64.scaled64 c size = Some (Z.quot (c * size) 1024))
    [80; 15; 68]%Z.
Proof.
  intros Hs.
  assert (forall c, In c Binary64.literals ->
            Binary64.scaled64 c size = Some (Z.quot (c * size) 1024)) as H.
  { intros c Hc. rewrite (binary64_agrees c size Hc Hs). by rewrite scaled_quot. }
  unfold inset, corner_radius, font_size, spacing.
  rewrite !scaled_quot.
  repeat split; try (apply H; cbn; tauto).
  repeat (apply Forall_cons; split; [apply H; cbn; tauto|]). constructor.
Qed.

Lemma double_arithmetic_is_exact_witness :
  (0 <= 1000 < 2 ^ 44)%Z /\ Binary64.scaled64 400 1000 = Some 390%Z.
Proof.
  split; [lia|].
  destruct (double_arithmetic_is_exact 1000 ltac:(lia)) as (_ & _ & H & _).
  exact H.
Defined.

(** ** Further properties of [create_anie_icon] *)

(** X6: wherever Pillow makes the canvas, the image is a transparent
    RGBA canvas with five drawing calls:
    the black background, then A, N, I, E in white, blue, white, blue,
    all four in one font. *)
Theorem letters_and_colours (size : Z) (w : world) :
  canvas_ok w size = true ->
  exists img w' f,
    create_anie_icon size w = Ok img w' /\
    im_mode img = "RGBA" /\ im_color img = (0, 0, 0, 0)%Z /\
    map op_summary (im_ops img)
    = [ ("", (0, 0, 0)%Z, None);
        ("A", (255, 255, 255)%Z, Some f); ("N", (0, 144, 255)%Z, Some f);
        ("I", (255, 255, 255)%Z, Some f); ("E", (0, 144, 255)%Z, Some f) ].
Proof.
  intros Hs. rewrite (create_anie_icon_run _ _ Hs).
  eexists _, _, _. repeat split; reflexivity.
Qed.

Lemma letters_and_colours_witness :
  canvas_ok (empty_world mac_fonts) 256 = true /\
  exists img w' f,
    create_anie_icon 256 (empty_world mac_fonts) = Ok img w' /\
    map op_summary (im_ops img)
    = [ ("", (0, 0, 0)%Z, None);
        ("A", (255, 255, 255)%Z, Some f); ("N", (0, 144, 255)%Z, Some f);
        ("I", (255, 255, 255)%Z, Some f); ("E", (0, 144, 255)%Z, Some f) ].
Proof.
  split; [reflexivity|].
  destruct (letters_and_colours 256 (empty_world mac_fonts) eq_refl)
    as (img & w' & f & Hrun & _ & _ & Hops).
  by exists img, w', f.
Defined.

(** X7: the two rows, wherever Pillow makes the canvas.  A and N share
    a baseline, I and E share the one
    below it, lower by the height of "AN" plus the spacing; N starts
    where A ends plus the spacing; and E starts to the right of I by its
    own width plus the spacing, less the difference of the two hand-tuned
    corrections. *)
Theorem row_layout (size : Z) (w : world) :
  canvas_ok w size = true ->
  exists img w' f xA xN xI xE y1 y2 cA cN cI cE,
    create_anie_icon size w = Ok img w' /\
    drop 1 (im_ops img)
    = [ Text (xA, y1) "A" cA f; Text (xN, y1) "N" cN f;
        Text (xI, y2) "I" cI f; Text (xE, y2) "E" cE f ] /\
    (y2 - y1 = text_height w f "AN" + spacing size)%Z /\
    (xN - xA = text_width w f "A" + spacing size)%Z /\
    (xE - xI = text_width w f "E" + spacing size
               - (scaled 68 size - scaled 15 size))%Z /\
    (y1 = (size - (text_height w f "AN" * 2 + spacing size)) / 2 - scaled 80 size)%Z.
Proof.
  intros Hs. rewrite (create_anie_icon_run _ _ Hs).
  eexists _, _, _, _, _, _, _, _, _, _, _, _, _. split; [reflexivity|].
  split; [reflexivity|]. repeat split; lia.
Qed.

Lemma row_layout_witness :
  canvas_ok (empty_world no_fonts) 1024 = true /\
  exists img w',
    create_anie_icon 1024 (empty_world no_fonts) = Ok img w' /\
    drop 1 (im_ops img)
    = [ Text (506, 416)%Z "A" (255, 255, 255)%Z DefaultFont;
        Text (522, 416)%Z "N" (0, 144, 255)%Z DefaultFont;
        Text (491, 437)%Z "I" (255, 255, 255)%Z DefaultFont;
        Text (454, 437)%Z "E" (0, 144, 255)%Z DefaultFont ].
Proof.
  split; [reflexivity|].
  destruct (row_layout 1024 (empty_world no_fonts) eq_refl)
    as (img & w' & f & xA & xN & xI & xE & y1 & y2 & cA & cN & cI & cE
        & Hrun & Hops & _).
  exists img, w'. split; [exact Hrun|].
  rewrite create_anie_icon_run in Hrun by reflexivity. injection Hrun as <- _.
  reflexivity.
Defined.

(** X8: wherever Pillow makes the canvas, each row is centred on its
    measured text: the left margin of
    "AN", and of "IE" before the hand-tuned correction of I, is half of
    what the text leaves free, rounded down. *)
Theorem rows_are_centred (size : Z) (w : world) :
  canvas_ok w size = true ->
  exists img w' f xA xI y1 y2 cA cI,
    create_anie_icon size w = Ok img w' /\
    im_ops img !! 1%nat = Some (Text (xA, y1) "A" cA f) /\
    im_ops img !! 3%nat = Some (Text (xI, y2) "I" cI f) /\
    (size - 1 <= 2 * xA + text_width w f "AN" <= size)%Z /\
    (size - 1 <= 2 * (xI + scaled 15 size) + text_width w f "IE" <= size)%Z.
Proof.
  intros Hs. rewrite (create_anie_icon_run _ _ Hs).
  eexists _, _, _, _, _, _, _, _, _. split; [reflexivity|].
  split; [reflexivity|]. split; [reflexivity|].
  set (f := chosen_font w size).
  pose proof (Z.div_mod (size - text_width w f "AN") 2 ltac:(lia)).
  pose proof (Z.mod_pos_bound (size - text_width w f "AN") 2 ltac:(lia)).
  pose proof (Z.div_mod (size - text_width w f "IE") 2 ltac:(lia)).
  pose proof (Z.mod_pos_bound (size - text_width w f "IE") 2 ltac:(lia)).
  lia.
Qed.

Lemma rows_are_centred_witness :
  canvas_ok (empty_world no_fonts) 512 = true /\
  exists img w' f xA y1 cA,
    create_anie_icon 512 (empty_world no_fonts) = Ok img w' /\
    im_ops img !! 1%nat = Some (Text (xA, y1) "A" cA f) /\
    (511 <= 2 * xA + text_width (empty_world no_fonts) f "AN" <= 512)%Z.
Proof.
  split; [reflexivity|].
  destruct (rows_are_centred 512 (empty_world no_fonts) eq_refl)
    as (img & w' & f & xA & xI & y1 & y2 & cA & cI & Hrun & HA & _ & Hc & _).
  by exists img, w', f, xA, y1, cA.
Defined.

(** X9: the result and the loader calls depend on the memory of the
    machine, the installed fonts and their metrics only, never on the
    directories, the files or the trace of the world the function runs
    in. *)
Theorem icon_ignores_the_disk (size : Z) (w1 w2 : world) :
  w_canvas w1 = w_canvas w2 ->
  w_fonts w1 = w_fonts w2 -> w_metrics w1 = w_metrics w2 ->
  value_of (create_anie_icon size w1) = value_of (create_anie_icon size w2) /\
  new_events w1 (world_of (create_anie_icon size w1))
  = new_events w2 (world_of (create_anie_icon size w2)).
Proof.
  intros Hc Hf Hm.
  assert (canvas_ok w2 size = canvas_ok w1 size) as Hsame
    by (unfold canvas_ok; by rewrite Hc).
  destruct (canvas_ok w1 size) eqn:Hcan.
  - rewrite (create_anie_icon_run _ _ Hcan), (create_anie_icon_run _ _ Hsame).
    cbn [value_of world_of].
    rewrite !new_events_extend, (rendered_ext w1 w2 size Hf Hm).
    split; [reflexivity|]. unfold font_calls. by rewrite Hf.
  - assert (forall w e, create_anie_icon size w = Raise e w ->
              new_events w (world_of (create_anie_icon size w)) = []) as Hnone.
    { intros w e ->. cbn [world_of]. unfold new_events. by rewrite drop_all. }
    destruct (Z.lt_ge_cases size 0) as [Hneg|Hpos].
    { rewrite (Hnone w1 _ (create_anie_icon_neg _ _ Hneg)),
        (Hnone w2 _ (create_anie_icon_neg _ _ Hneg)).
      by rewrite !create_anie_icon_neg. }
    destruct (Z.lt_ge_cases size (2 ^ 31)) as [Hfit|Hbig].
    2:{ rewrite (Hnone w1 _ (create_anie_icon_big _ _ Hbig)),
          (Hnone w2 _ (create_anie_icon_big _ _ Hbig)).
        by rewrite !create_anie_icon_big. }
    assert (w_canvas w1 (size, size) = false) as Hc1.
    { destruct (w_canvas w1 (size, size)) eqn:E; [|done].
      assert (canvas_ok w1 size = true)
        by (apply canvas_ok_spec; split; [lia | done]).
      congruence. }
    assert (w_canvas w2 (size, size) = false) as Hc2 by (by rewrite <- Hc).
    assert (0 <= size < 2 ^ 31)%Z as Hrange by lia.
    rewrite (Hnone w1 _ (create_anie_icon_full _ _ Hrange Hc1)),
      (Hnone w2 _ (create_anie_icon_full _ _ Hrange Hc2)).
    by rewrite !create_anie_icon_full.
Qed.

Lemma icon_ignores_the_disk_witness :
  exists w1,
    create_icon_set (empty_world mac_fonts) = Ok tt w1 /\
    value_of (create_anie_icon 64 (empty_world mac_fonts))
    = value_of (create_anie_icon 64 w1).
Proof.
  exists (world_of (create_icon_set (empty_world mac_fonts))).
  split; [vm_compute; reflexivity|].
  apply (icon_ignores_the_disk 64); reflexivity.
Defined.

(** ** The size argument of [create_anie_icon] *)

(** X10: whatever fonts are installed, the renderer returns an image
    exactly when Pillow makes the canvas.  Otherwise it raises at
    [Image.new], before any font is asked for, and the world is left as
    it was: [ValueError] for a negative size, [OverflowError] from
    [2^31] on, [MemoryError] when the machine cannot hold the canvas. *)
Theorem renders_iff_canvas_is_made (size : Z) (w : world) :
  ((exists img w', create_anie_icon size w = Ok img w')
   <-> (0 <= size < 2 ^ 31)%Z /\ w_canvas w (size, size) = true) /\
  ((size < 0)%Z -> create_anie_icon size w = Raise ValueError w) /\
  ((2 ^ 31 <= size)%Z -> create_anie_icon size w = Raise OverflowError w) /\
  ((0 <= size < 2 ^ 31)%Z -> w_canvas w (size, size) = false ->
   create_anie_icon size w = Raise MemoryError w).
Proof.
  split; [split|split; [|split]].
  - intros (img & w' & Hrun). apply canvas_ok_spec.
    destruct (canvas_ok w size) eqn:Hcan; [done|].
    destruct (create_anie_icon_refused _ _ Hcan) as (e & He & _).
    rewrite He in Hrun. discriminate Hrun.
  - intros Hcan. apply canvas_ok_spec in Hcan.
    rewrite (create_anie_icon_run _ _ Hcan). by eexists _, _.
  - apply create_anie_icon_neg.
  - apply create_anie_icon_big.
  - apply create_anie_icon_full.
Qed.

Lemma renders_iff_canvas_is_made_witness :
  (2 ^ 31 <= 2 ^ 31)%Z /\
  create_anie_icon (2 ^ 31) (empty_world mac_fonts)
  = Raise OverflowError (empty_world mac_fonts).
Proof.
  split; [lia|].
  apply (renders_iff_canvas_is_made (2 ^ 31) (empty_world mac_fonts)). lia.
Defined.

(** ** Strings, for every number *)

Lemma string_app_nil_r (s : string) : s ++ "" = s.
Proof.
  induction s as [|a s IH]; [done|].
  change (String a (s ++ "") = String a s). by rewrite IH.
Qed.

Lemma string_app_assoc (a b c : string) : (a ++ b) ++ c = a ++ (b ++ c).
Proof.
  induction a as [|x a IH]; [done|].
  change (String x ((a ++ b) ++ c) = String x (a ++ (b ++ c))). by rewrite IH.
Qed.

Lemma string_app_cons (x : ascii) (a b : string) :
  String x a ++ b = String x (a ++ b).
Proof. reflexivity. Qed.

Lemma rev_app_rev_app (a b c : string) :
  String.rev_app (String.rev_app a b) c = String.rev_app b (a ++ c).
Proof.
  revert b c. induction a as [|x a IH]; intros b c; [done|].
  rewrite string_app_cons. cbn [String.rev_app]. by rewrite IH.
Qed.

Lemma avoids_app c s t : avoids c (s ++ t) = (avoids c s && avoids c t)%bool.
Proof.
  induction s as [|a s IH]; [done|].
  rewrite string_app_cons. cbn [avoids]. by rewrite IH, andb_assoc.
Qed.

Lemma split_go_avoids sep d cur rest :
  avoids sep d = true ->
  Str.split_go sep cur (d ++ String sep rest)
  = String.rev (String.rev_app d cur) :: Str.split_go sep "" rest.
Proof.
  revert cur. induction d as [|a d IH]; intros cur Hd.
  - change ("" ++ String sep rest) with (String sep rest).
    cbn [Str.split_go String.rev_app]. by rewrite Ascii.eqb_refl.
  - cbn [avoids] in Hd. apply andb_true_iff in Hd as [Ha Hd].
    apply negb_true_iff in Ha. rewrite string_app_cons.
    cbn [Str.split_go String.rev_app]. rewrite Ha. by apply IH.
Qed.

Lemma split_head sep d rest :
  avoids sep d = true -> head (Str.split sep (d ++ String sep rest)) = Some d.
Proof.
  intros Hd. unfold Str.split. rewrite (split_go_avoids _ _ _ _ Hd).
  cbn [head]. unfold String.rev. rewrite rev_app_rev_app.
  cbn [String.rev_app]. by rewrite string_app_nil_r.
Qed.

Lemma ancestors_go_avoids pre s :
  avoids "/" s = true -> Str.ancestors_go pre s = [].
Proof.
  revert pre. induction s as [|a s IH]; intros pre Hs; [done|].
  cbn [avoids] in Hs. apply andb_true_iff in Hs as [Ha Hs].
  apply negb_true_iff in Ha. cbn [Str.ancestors_go]. rewrite Ha. by apply IH.
Qed.

Lemma ancestors_go_app pre a b :
  Str.ancestors_go pre (a ++ b)
  = (Str.ancestors_go pre a ++ Str.ancestors_go (String.rev_app a pre) b)%list.
Proof.
  revert pre. induction a as [|x a IH]; intros pre; [done|].
  rewrite string_app_cons. cbn [Str.ancestors_go String.rev_app].
  destruct (Ascii.eqb x "/"); by rewrite IH.
Qed.

Lemma digits_only_app d1 d2 :
  digits_only (d1 ++ d2) = (digits_only d1 && digits_only d2)%bool.
Proof.
  induction d1 as [|a d1 IH]; [done|].
  rewrite string_app_cons. cbn [digits_only].
  destruct (Str.digit_of a); [exact IH | done].
Qed.

Lemma digit_of_pretty_N_char x :
  (x < 10)%N -> Str.digit_of (pretty_N_char x) = Some (Z.of_N x).
Proof.
  intros Hx.
  assert (x = 0 \/ x = 1 \/ x = 2 \/ x = 3 \/ x = 4 \/ x = 5 \/ x = 6 \/ x = 7
          \/ x = 8 \/ x = 9)%N as H by lia.
  repeat (destruct H as [->|H]; [reflexivity|]). by subst.
Qed.

Lemma string_length_app (a b : string) :
  String.length (a ++ b) = (String.length a + String.length b)%nat.
Proof.
  induction a as [|x a IH]; [done|].
  rewrite string_app_cons. cbn [String.length]. by rewrite IH.
Qed.

Lemma string_length_pos (a : ascii) (s : string) :
  (1 <= Z.of_nat (String.length (String a s)))%Z.
Proof. cbn [String.length]. lia. Qed.

(** [pretty_N_go x s] puts the decimal digits of [x] in front of [s]:
    none for [0], and no leading zero. *)
Lemma pretty_N_go_spec x :
  forall s, exists d,
    pretty_N_go x s = d ++ s /\ digits_only d = true /\
    (x = 0%N -> d = "") /\
    ((0 < x)%N -> d <> "" /\
                  (10 ^ (Z.of_nat (String.length d) - 1) <= Z.of_N x)%Z) /\
    forall acc n r,
      Str.scan_digits acc n false (d ++ r)
      = Str.scan_digits (acc * 10 ^ Z.of_nat (String.length d) + Z.of_N x)%Z
          (n + Z.of_nat (String.length d))%Z false r.
Proof.
  induction (N.lt_wf_0 x) as [x _ IH]. intros s.
  destruct (N.eq_dec x 0%N) as [->|Hx].
  - exists "". rewrite pretty_N_go_0. split; [done|]. split; [done|].
    split; [done|]. split; [lia|]. intros acc n r.
    change ("" ++ r) with r. cbn [String.length].
    f_equal; lia.
  - rewrite pretty_N_go_step by lia.
    destruct (IH (x `div` 10)%N ltac:(apply N.div_lt; lia)
                (String (pretty_N_char (x `mod` 10)) s))
      as (d & -> & Hd & Hzero & Hpos & Hscan).
    exists (d ++ String (pretty_N_char (x `mod` 10)) "").
    assert (x `mod` 10 < 10)%N as Hmod by (apply N.mod_lt; lia).
    pose proof (N.div_mod x 10 ltac:(lia)) as Hdm.
    assert (Z.of_N x = 10 * Z.of_N (x `div` 10) + Z.of_N (x `mod` 10))%Z as Hx10 by lia.
    assert (0 <= Z.of_N (x `mod` 10) < 10)%Z as Hm10
      by (split; [apply N2Z.is_nonneg | change 10%Z with (Z.of_N 10); by apply N2Z.inj_lt]).
    rewrite string_length_app. cbn [String.length].
    rewrite Nat2Z.inj_add. change (Z.of_nat 1) with 1%Z.
    set (L := Z.of_nat (String.length d)) in *.
    assert (0 <= L)%Z as HL by (unfold L; lia).
    split; [by rewrite string_app_assoc|]. split.
    { rewrite digits_only_app, Hd. cbn [digits_only andb].
      by rewrite (digit_of_pretty_N_char _ Hmod). }
    split; [lia|]. split.
    { intros _. split; [by destruct d|].
      replace (L + 1 - 1)%Z with L by lia.
      destruct (N.eq_dec (x `div` 10)%N 0%N) as [Hq|Hq].
      - assert (d = "") as Hnil by (by apply Hzero).
        unfold L. rewrite Hnil. cbn [String.length]. change (10 ^ Z.of_nat 0)%Z with 1%Z.
        lia.
      - destruct (Hpos ltac:(lia)) as [Hne Hlow].
        assert (1 <= L)%Z as HL1 by (unfold L; destruct d; [done | apply string_length_pos]).
        replace L with ((L - 1) + 1)%Z by lia.
        rewrite Z.pow_add_r by lia. change (10 ^ 1)%Z with 10%Z. lia. }
    intros acc n r. rewrite string_app_assoc, Hscan.
    rewrite string_app_cons. change ("" ++ r) with r.
    cbn [Str.scan_digits]. rewrite (digit_of_pretty_N_char _ Hmod).
    rewrite Z.pow_add_r by lia. change (10 ^ 1)%Z with 10%Z.
    f_equal; lia.
Qed.

Lemma digit_not_space c d : Str.digit_of c = Some d -> Str.is_space c = false.
Proof.
  unfold Str.digit_of, Str.is_space.
  set (n := Z.of_N (N_of_ascii c)).
  destruct ((48 <=? n)%Z && (n <=? 57)%Z)%bool eqn:H; [|done]. intros _.
  apply andb_true_iff in H as [H1 H2]. apply Z.leb_le in H1, H2.
  apply orb_false_iff. split.
  - apply andb_false_iff. right. apply Z.leb_gt. lia.
  - apply Z.eqb_neq. lia.
Qed.

Lemma digit_not_char c d a :
  Str.digit_of c = Some d -> Str.digit_of a = None -> Ascii.eqb c a = false.
Proof.
  intros Hc Ha. destruct (Ascii.eqb_spec c a) as [->|]; [congruence | done].
Qed.

(** [int] reads a string of up to 4300 digits as written. *)
Lemma parse_int_digits (d : string) (v : Z) :
  d <> "" -> digits_only d = true ->
  (Z.of_nat (String.length d) <= Str.max_str_digits)%Z ->
  (forall acc n r,
     Str.scan_digits acc n false (d ++ r)
     = Str.scan_digits (acc * 10 ^ Z.of_nat (String.length d) + v)%Z
         (n + Z.of_nat (String.length d))%Z false r) ->
  Str.parse_int d = Some v.
Proof.
  intros Hne Hd Hlen Hscan. destruct d as [|c d]; [done|].
  assert (exists k, Str.digit_of c = Some k) as [k Hk].
  { cbn [digits_only] in Hd. destruct (Str.digit_of c); [by eexists | done]. }
  unfold Str.parse_int. cbn [Str.lstrip]. rewrite (digit_not_space _ _ Hk).
  rewrite (digit_not_char c k "+" Hk eq_refl), (digit_not_char c k "-" Hk eq_refl).
  unfold Str.parse_unsigned. rewrite (digit_not_char c k "_" Hk eq_refl).
  specialize (Hscan 0%Z 0%Z ""). rewrite string_app_nil_r in Hscan.
  rewrite Hscan. cbn [Str.scan_digits Str.all_space negb orb].
  pose proof (string_length_pos c d) as Hpos.
  assert ((0 + Z.of_nat (String.length (String c d)) =? 0)%Z = false) as ->
    by (apply Z.eqb_neq; lia).
  assert ((Str.max_str_digits <? 0 + Z.of_nat (String.length (String c d)))%Z = false)
    as -> by (apply Z.ltb_ge; lia).
  cbn [orb]. f_equal; lia.
Qed.

Lemma pretty_N_spec (x : N) :
  digits_only (pretty x) = true /\
  ((Z.of_N x < 10 ^ Str.max_str_digits)%Z ->
   Str.parse_int (pretty x) = Some (Z.of_N x)).
Proof.
  unfold pretty, pretty_N. destruct (decide (x = 0%N)) as [->|Hx]; [done|].
  destruct (pretty_N_go_spec x "") as (d & -> & Hd & _ & Hpos & Hscan).
  rewrite string_app_nil_r. split; [exact Hd|]. intros Hbound.
  destruct (Hpos ltac:(lia)) as [Hne Hlow].
  apply (parse_int_digits d (Z.of_N x) Hne Hd); [|exact Hscan].
  destruct (Z.le_gt_cases (Z.of_nat (String.length d)) Str.max_str_digits)
    as [Hle|Hgt]; [exact Hle|].
  assert (10 ^ Str.max_str_digits <= 10 ^ (Z.of_nat (String.length d) - 1))%Z
    by (apply Z.pow_le_mono_r; unfold Str.max_str_digits in *; lia).
  lia.
Qed.

(** [int(str(n)) == n] for a number that is not negative and has at most
    4300 digits. *)
Lemma parse_int_str (n : Z) :
  (0 <= n < 10 ^ Str.max_str_digits)%Z -> Str.parse_int (Str.str n) = Some n.
Proof.
  intros Hn. unfold Str.str, pretty, pretty_Z. destruct n as [|p|p]; [done| |lia].
  change (pretty p) with (pretty (N.pos p)).
  destruct (pretty_N_spec (N.pos p)) as [_ H]. apply H. lia.
Qed.

Lemma digits_only_avoids c s :
  Str.digit_of c = None -> digits_only s = true -> avoids c s = true.
Proof.
  intros Hc. induction s as [|a s IH]; [done|]. cbn.
  destruct (Str.digit_of a) eqn:Ha; [|done]. intros Hs.
  rewrite (IH Hs), andb_true_r. apply negb_true_iff.
  destruct (Ascii.eqb_spec a c) as [->|]; [congruence | done].
Qed.

(** The decimal form of a number holds digits and at most a sign. *)
Lemma str_avoids c (n : Z) :
  Str.digit_of c = None -> c <> "-"%char -> avoids c (Str.str n) = true.
Proof.
  intros Hc Hdash. unfold Str.str, pretty, pretty_Z. destruct n as [|p|p].
  - by apply digits_only_avoids.
  - change (pretty p) with (pretty (N.pos p)).
    apply digits_only_avoids; [exact Hc|]. apply pretty_N_spec.
  - change (pretty p) with (pretty (N.pos p)). cbn [avoids String.app].
    change ("-" +:+ ?s) with (String "-" s). cbn [avoids].
    rewrite (digits_only_avoids c _ Hc) by apply pretty_N_spec.
    rewrite andb_true_r. apply negb_true_iff.
    destruct (Ascii.eqb_spec "-" c) as [<-|]; [done | done].
Qed.

Lemma icon_filename_avoids_slash size : avoids "/" (icon_filename size) = true.
Proof.
  unfold icon_filename. rewrite !avoids_app, !str_avoids by done. reflexivity.
Qed.

Lemma dirname_icon_path size : Str.dirname (icon_path size) = Some icon_dir.
Proof.
  unfold Str.dirname, Str.ancestors, icon_path, Str.path_join.
  change (icon_dir ++ "/" ++ ?f) with (icon_dir ++ String "/" f).
  rewrite ancestors_go_app. cbn [Str.ancestors_go]. rewrite Ascii.eqb_refl.
  rewrite (ancestors_go_avoids _ _ (icon_filename_avoids_slash size)).
  reflexivity.
Qed.

Lemma icon_filename_inj s1 s2 : icon_filename s1 = icon_filename s2 -> s1 = s2.
Proof.
  unfold icon_filename. intros H.
  apply (inj (String.app "icon_")) in H.
  apply (f_equal (fun s => head (Str.split "x" s))) in H.
  change (?a ++ "x" ++ ?b) with (a ++ String "x" b) in H.
  rewrite !split_head in H by (by apply str_avoids).
  injection H as H. by apply (inj pretty) in H.
Qed.

(** X11: file names never collide.  Two different pixel dimensions get
    different image files, no image file is the manifest, and every
    image file lies directly in the output directory. *)
Theorem file_names_never_collide (s1 s2 : Z) :
  (s1 <> s2 -> Str.path_join icon_dir (icon_filename s1)
               <> Str.path_join icon_dir (icon_filename s2)) /\
  Str.path_join icon_dir (icon_filename s1) <> Str.path_join icon_dir "Contents.json" /\
  Str.dirname (Str.path_join icon_dir (icon_filename s1)) = Some icon_dir.
Proof.
  split; [|split].
  - intros Hne H. apply Hne, icon_filename_inj.
    unfold Str.path_join in H. apply (inj (String.app icon_dir)) in H.
    by apply (inj (String.app "/")) in H.
  - unfold Str.path_join, icon_filename. intros H.
    apply (inj (String.app icon_dir)) in H. discriminate H.
  - apply dirname_icon_path.
Qed.

Lemma file_names_never_collide_witness :
  (16 <> 32)%Z /\
  Str.path_join icon_dir (icon_filename 16) <> Str.path_join icon_dir (icon_filename 32).
Proof.
  split; [lia|]. apply (file_names_never_collide 16 32). lia.
Defined.

(** X12: the base dimension survives the trip through the key of the
    table.  From a key written as a number of at most 4300 digits that
    is not negative, "x" and anything, [int(base_size.split('x')[0])]
    gives the number back, so a size class with such a key runs its
    inner loop with that width. *)
Theorem width_round_trip (n : Z) (rest : string) (scales : list Z)
    (contents : manifest) (w : world) :
  (0 <= n < 10 ^ 4300)%Z ->
  class_width (Str.str n ++ "x" ++ rest) = Some n /\
  size_class (Str.str n ++ "x" ++ rest, scales) contents w
  = for_each scales contents (icon_variant (Str.str n ++ "x" ++ rest) n) w.
Proof.
  intros Hn.
  assert (class_width (Str.str n ++ "x" ++ rest) = Some n) as H.
  { unfold class_width. change (?a ++ "x" ++ ?b) with (a ++ String "x" b).
    rewrite split_head by (by apply str_avoids). by apply parse_int_str. }
  split; [exact H|]. by apply size_class_run.
Qed.

Lemma width_round_trip_witness :
  (0 <= 128 < 10 ^ 4300)%Z /\ class_width "128x128" = Some 128%Z.
Proof.
  assert (0 <= 128 < 10 ^ 4300)%Z as H by (split; [lia | reflexivity]).
  split; [exact H|].
  apply (width_round_trip 128 "128" [] initial_contents (empty_world no_fonts) H).
Defined.

(** ** Further properties of [create_icon_set] *)

Lemma none_is_dir_add_dir d w ps :
  d ∉ ps -> none_is_dir (add_dir d w) ps = none_is_dir w ps.
Proof.
  unfold none_is_dir. induction ps as [|p ps IH]; intros Hd; [done|].
  apply not_elem_of_cons in Hd as [Hne Hd].
  cbn [forallb]. rewrite IH by exact Hd. rewrite is_dir_add_dir.
  by rewrite (bool_decide_eq_false_2 (p = d)) by congruence.
Qed.

Lemma none_is_dir_log e w ps : none_is_dir (log e w) ps = none_is_dir w ps.
Proof. reflexivity. Qed.

Lemma assets_dir_not_target : assets_dir ∉ targets.
Proof. apply (bool_decide_eq_false_1 (_ ∈ _)). vm_compute. reflexivity. Qed.

Lemma icon_dir_not_target : icon_dir ∉ targets.
Proof. apply (bool_decide_eq_false_1 (_ ∈ _)). vm_compute. reflexivity. Qed.

Lemma makedirs_fresh w :
  path_exists assets_dir w = false -> path_exists icon_dir w = false ->
  os.makedirs_exist_ok icon_dir w
  = Ok tt (log (Mkdir icon_dir) (add_dir icon_dir
             (log (Mkdir assets_dir) (add_dir assets_dir w)))).
Proof.
  intros HA HB. unfold os.makedirs_exist_ok.
  change (Str.ancestors icon_dir) with [assets_dir]. cbn [rev app].
  unfold os.makedirs_chain, os.mkdir, bind, os.check_parent, ret.
  change (Str.dirname icon_dir) with (Some assets_dir).
  change (Str.dirname assets_dir) with (@None string).
  cbv beta. rewrite !HA. cbv beta iota.
  set (w1 := log (Mkdir assets_dir) (add_dir assets_dir w)).
  assert (is_dir assets_dir w1 = true) as HdA1.
  { unfold w1. change (is_dir assets_dir (log _ ?x)) with (is_dir assets_dir x).
    rewrite is_dir_add_dir. by rewrite bool_decide_eq_true_2. }
  assert (path_exists icon_dir w1 = false) as HB1.
  { unfold path_exists in *. apply orb_false_iff in HB as [Hd Hf].
    unfold w1. change (is_dir icon_dir (log _ ?x)) with (is_dir icon_dir x).
    rewrite is_dir_add_dir, Hd.
    change (is_file icon_dir (log _ (add_dir _ w))) with (is_file icon_dir w).
    rewrite Hf. reflexivity. }
  rewrite HdA1. cbv beta iota. rewrite HB1. reflexivity.
Qed.

(** X13: started where [Assets.xcassets] does not exist, on a machine
    that can hold the canvases of the table, the builder makes the two
    directories, the parent first, and completes. *)
Theorem fresh_run_makes_both_directories (w : world) :
  path_exists assets_dir w = false -> path_exists icon_dir w = false ->
  none_is_dir w targets = true -> can_render w all_sizes = true ->
  exists w1, create_icon_set w = Ok tt w1 /\
    mkdirs (new_events w w1) = [assets_dir; icon_dir] /\
    w_dirs w1 = {[icon_dir]} ∪ ({[assets_dir]} ∪ w_dirs w).
Proof.
  intros HA HB Hnone Hcanvas.
  pose proof (makedirs_fresh w HA HB) as Hmk.
  set (w0 := log (Mkdir icon_dir) (add_dir icon_dir
               (log (Mkdir assets_dir) (add_dir assets_dir w)))) in *.
  assert (can_build w = true) as Hcan.
  { unfold can_build. rewrite Hmk, Hcanvas. unfold w0.
    rewrite none_is_dir_log, (none_is_dir_add_dir _ _ _ icon_dir_not_target).
    rewrite none_is_dir_log, (none_is_dir_add_dir _ _ _ assets_dir_not_target).
    exact Hnone. }
  destruct (create_icon_set_ok w Hcan) as (w0' & Hmk' & Hrun).
  rewrite Hmk in Hmk'. injection Hmk' as <-.
  exists (finished w0). split; [exact Hrun|].
  destruct (w_trace_finished w0) as (evs & Htr & _ & Hmkdirs & _).
  assert (w_trace w0 = (w_trace w ++ [Mkdir assets_dir; Mkdir icon_dir])%list) as Htr0.
  { unfold w0. rewrite w_trace_log. change (w_trace (add_dir icon_dir ?x)) with (w_trace x).
    rewrite w_trace_log. change (w_trace (add_dir assets_dir w)) with (w_trace w).
    by rewrite <- app_assoc. }
  rewrite Htr0, <- app_assoc in Htr.
  rewrite (new_events_app _ _ _ Htr), mkdirs_app, Hmkdirs.
  split; [reflexivity|].
  rewrite w_dirs_finished. reflexivity.
Qed.

Lemma fresh_run_makes_both_directories_witness :
  exists w1, create_icon_set (empty_world no_fonts) = Ok tt w1 /\
    mkdirs (new_events (empty_world no_fonts) w1) = [assets_dir; icon_dir].
Proof.
  destruct (fresh_run_makes_both_directories (empty_world no_fonts))
    as (w1 & Hrun & Hmk & _); try (vm_compute; reflexivity).
  exists w1. split; [exact Hrun | exact Hmk].
Defined.

(** X14: when the output directory cannot be made because a file is in
    the way, the builder raises before anything is rendered or written,
    and leaves the world as it found it. *)
Theorem blocked_output_directory (w : world) :
  is_dir icon_dir w = false ->
  (is_dir assets_dir w = true -> is_file icon_dir w = true ->
   create_icon_set w = Raise FileExistsError w) /\
  (is_dir assets_dir w = false -> is_file assets_dir w = true ->
   create_icon_set w = Raise NotADirectoryError w).
Proof.
  intros HdB.
  assert (forall e, os.makedirs_exist_ok icon_dir w = Raise e w ->
                    create_icon_set w = Raise e w) as Hlift.
  { intros e He. unfold create_icon_set, bind. by rewrite He. }
  split.
  - intros HdA HfB. apply Hlift. unfold os.makedirs_exist_ok.
    change (Str.ancestors icon_dir) with [assets_dir]. cbn [rev app].
    unfold os.makedirs_chain, os.mkdir, bind, os.check_parent, ret.
    change (Str.dirname icon_dir) with (Some assets_dir).
    unfold path_exists. cbv beta.
    repeat (first [rewrite HdA | rewrite HdB | rewrite HfB]; cbn [orb andb is_OSError]).
    reflexivity.
  - intros HdA HfA. apply Hlift. unfold os.makedirs_exist_ok.
    change (Str.ancestors icon_dir) with [assets_dir]. cbn [rev app].
    unfold os.makedirs_chain, os.mkdir, bind, os.check_parent, ret.
    change (Str.dirname icon_dir) with (Some assets_dir).
    unfold path_exists. cbv beta.
    repeat (first [rewrite HdA | rewrite HdB | rewrite HfA]; cbn [orb andb is_OSError]).
    reflexivity.
Qed.

Lemma blocked_output_directory_witness :
  is_dir icon_dir blocked_by_file = false /\
  create_icon_set blocked_by_file = Raise FileExistsError blocked_by_file.
Proof.
  split; [vm_compute; reflexivity|].
  apply (blocked_output_directory blocked_by_file); vm_compute; reflexivity.
Defined.

(** *** Every outcome of the directory step *)

Lemma extend_nil w : extend [] w = w.
Proof. destruct w. unfold extend. cbn. by rewrite app_nil_r. Qed.

Lemma log_log_mkdir a b w :
  log (Mkdir b) (add_dir b (log (Mkdir a) (add_dir a w)))
  = extend [Mkdir a; Mkdir b] (add_dir b (add_dir a w)).
Proof. unfold log, extend, add_dir. cbn. by rewrite <- app_assoc. Qed.

Lemma mkdir_outcome p w :
  os.mkdir p w = Ok tt (log (Mkdir p) (add_dir p w)) \/
  exists e, os.mkdir p w = Raise e w /\ is_OSError e = true.
Proof.
  unfold os.mkdir, bind, os.check_parent.
  destruct (Str.dirname p) as [d|].
  - destruct (is_dir d w).
    + destruct (path_exists p w); [right; by eexists | by left].
    + destruct (is_file d w); right; by eexists.
  - destruct (path_exists p w); [right; by eexists | by left].
Qed.

Lemma mkdir_exist_ok_outcome p w :
  mkdir_exist_ok p w = Ok tt (log (Mkdir p) (add_dir p w)) \/
  mkdir_exist_ok p w = Ok tt w \/
  exists e, mkdir_exist_ok p w = Raise e w /\ is_OSError e = true.
Proof.
  unfold mkdir_exist_ok.
  destruct (mkdir_outcome p w) as [->|(e & -> & He)]; [by left|].
  rewrite He. cbn [andb]. destruct (is_dir p w); right; [by left|right; by eexists].
Qed.

Lemma makedirs_unfold w :
  os.makedirs_exist_ok icon_dir w
  = if path_exists assets_dir w then mkdir_exist_ok icon_dir w
    else match mkdir_exist_ok assets_dir w with
         | Ok _ w' => mkdir_exist_ok icon_dir w'
         | Raise FileExistsError w' => mkdir_exist_ok icon_dir w'
         | Raise e w' => Raise e w'
         end.
Proof.
  unfold os.makedirs_exist_ok.
  change (Str.ancestors icon_dir) with [assets_dir]. cbn [rev app].
  unfold os.makedirs_chain, bind, ret. fold (mkdir_exist_ok icon_dir).
  fold (mkdir_exist_ok assets_dir). cbv beta.
  destruct (path_exists assets_dir w); [reflexivity|].
  unfold mkdir_exist_ok.
  destruct (os.mkdir assets_dir w) as [[] w1|e w1]; [reflexivity|].
  destruct (is_OSError e && is_dir assets_dir w1); [reflexivity|].
  by destruct e.
Qed.

Lemma makedirs_outcome w :
  exists ds,
    world_of (os.makedirs_exist_ok icon_dir w)
    = extend (map Mkdir ds) (foldl (fun w d => add_dir d w) w ds) /\
    sublist ds [assets_dir; icon_dir] /\
    match os.makedirs_exist_ok icon_dir w with
    | Ok _ _ => True
    | Raise e _ => is_OSError e = true
    end.
Proof.
  rewrite makedirs_unfold.
  assert (forall w' ds', sublist ds' [assets_dir] ->
            w' = extend (map Mkdir ds') (foldl (fun w d => add_dir d w) w ds') ->
            exists ds,
              world_of (mkdir_exist_ok icon_dir w')
              = extend (map Mkdir ds) (foldl (fun w d => add_dir d w) w ds) /\
              sublist ds [assets_dir; icon_dir] /\
              match mkdir_exist_ok icon_dir w' with
              | Ok _ _ => True
              | Raise e _ => is_OSError e = true
              end) as Hstep.
  { intros w' ds' Hsub ->.
    destruct (mkdir_exist_ok_outcome icon_dir
                (extend (map Mkdir ds') (foldl (fun w d => add_dir d w) w ds')))
      as [->|[->|(e & -> & He)]]; cbn [world_of].
    - exists (ds' ++ [icon_dir])%list. split; [|split; [|done]].
      + rewrite map_app, foldl_app. cbn [map foldl].
        unfold log, extend, add_dir. cbn. by rewrite <- app_assoc.
      + change [assets_dir; icon_dir] with ([assets_dir] ++ [icon_dir])%list.
        by apply sublist_app.
    - exists ds'. split; [done|]. split; [|done].
      change [assets_dir; icon_dir] with ([assets_dir] ++ [icon_dir])%list.
      by apply sublist_inserts_r.
    - exists ds'. split; [done|]. split; [|done].
      change [assets_dir; icon_dir] with ([assets_dir] ++ [icon_dir])%list.
      by apply sublist_inserts_r. }
  destruct (path_exists assets_dir w).
  - apply (Hstep w []); [repeat constructor|]. cbn. by rewrite extend_nil.
  - destruct (mkdir_exist_ok_outcome assets_dir w) as [->|[->|(e & -> & He)]].
    + apply (Hstep _ [assets_dir]); [repeat constructor|]. reflexivity.
    + apply (Hstep w []); [repeat constructor|]. cbn. by rewrite extend_nil.
    + destruct e; try discriminate He;
        first [ apply (Hstep w []); [repeat constructor|]; cbn; by rewrite extend_nil
              | exists []; cbn [world_of map foldl]; rewrite extend_nil;
                split; [done|]; split; [repeat constructor | done] ].
Qed.

(** *** Where the loops stop *)

Lemma icon_variant_full base width size contents w :
  good_size size -> canvas_ok w size = false ->
  icon_variant base width size contents w = Raise MemoryError w.
Proof.
  intros [Hrange _] Hcan. unfold icon_variant, bind.
  rewrite create_anie_icon_full; [reflexivity | exact Hrange |].
  destruct (w_canvas w (size, size)) eqn:Hc; [|done].
  assert (canvas_ok w size = true) by (apply canvas_ok_spec; by split).
  congruence.
Qed.

Lemma canvas_ok_save_icons w sizes :
  canvas_ok (foldl save_icon w sizes) = canvas_ok w.
Proof. unfold canvas_ok. by rewrite w_canvas_save_icons. Qed.

Lemma stopped_cons w s pre s' :
  stopped (save_icon w s) pre s' = stopped w (s :: pre) s'.
Proof. unfold stopped. by rewrite canvas_ok_save_icon. Qed.

Lemma stopped_app w sizes pre s :
  stopped (foldl save_icon w sizes) pre s = stopped w (sizes ++ pre) s.
Proof. unfold stopped. by rewrite canvas_ok_save_icons, foldl_app. Qed.

Lemma inner_loop_raise base width sizes :
  width <> 0%Z -> Forall good_size sizes ->
  forall contents w e w', is_dir icon_dir w = true ->
  for_each sizes contents (icon_variant base width) w = Raise e w' ->
  exists pre s post,
    sizes = (pre ++ s :: post)%list /\ w' = stopped w pre s /\ e = stop_error w s.
Proof.
  intros Hw Hgood. induction Hgood as [|s ss Hs Hss IH]; intros contents w e w' Hdir.
  - discriminate.
  - cbn [for_each]. unfold bind.
    destruct (canvas_ok w s) eqn:Hcan.
    2:{ rewrite (icon_variant_full _ _ _ _ _ Hs Hcan). intros [= <- <-].
        exists [], s, ss. unfold stopped, stop_error. by rewrite Hcan. }
    rewrite (icon_variant_run _ _ _ _ _ Hw Hs Hdir Hcan).
    destruct (is_dir (icon_path s) w) eqn:Hp.
    + intros [= <- <-]. exists [], s, ss. unfold stopped, stop_error.
      by rewrite Hcan.
    + intros Hrest.
      assert (is_dir icon_dir (save_icon w s) = true) as Hdir' by exact Hdir.
      destruct (IH _ _ _ _ Hdir' Hrest) as (pre & s' & post & -> & -> & ->).
      exists (s :: pre), s', post. split; [reflexivity|].
      split; [apply stopped_cons|].
      unfold stop_error. by rewrite canvas_ok_save_icon.
Qed.

Lemma outer_loop_raise classes :
  Forall good_class classes ->
  forall contents w e w', is_dir icon_dir w = true ->
  for_each classes contents size_class w = Raise e w' ->
  exists pre s post,
    concat (map snd classes) = (pre ++ s :: post)%list /\
    w' = stopped w pre s /\ e = stop_error w s.
Proof.
  induction 1 as [|[base scales] cs (width & Hwd & Hnz & Hgood) Hcs IH];
    intros contents w e w' Hdir.
  - discriminate.
  - cbn [for_each map concat snd fst] in *. unfold bind.
    rewrite (size_class_run _ _ _ _ _ Hwd).
    pose proof (inner_loop_spec base width scales Hnz Hgood contents w Hdir) as Hin.
    destruct (for_each scales contents (icon_variant base width) w) as [c w2|e2 w2] eqn:Hrun.
    + destruct Hin as (_ & _ & _ & ->). intros Hrest.
      assert (is_dir icon_dir (foldl save_icon w scales) = true) as Hdir'
        by (by rewrite is_dir_save_icons).
      destruct (IH _ _ _ _ Hdir' Hrest) as (pre & s & post & Hsplit & -> & ->).
      exists (scales ++ pre)%list, s, post. split; [|split].
      * rewrite Hsplit. by rewrite <- app_assoc.
      * apply stopped_app.
      * unfold stop_error. by rewrite canvas_ok_save_icons.
    + intros [= <- <-].
      destruct (inner_loop_raise base width scales Hnz Hgood _ _ _ _ Hdir Hrun)
        as (pre & s & post & -> & -> & ->).
      exists pre, s, (post ++ concat (map snd cs))%list.
      split; [|split; reflexivity].
      by rewrite <- app_assoc.
Qed.

Lemma font_calls_ext w w' size :
  w_fonts w = w_fonts w' -> font_calls w size = font_calls w' size.
Proof. intros H. unfold font_calls. by rewrite H. Qed.

Lemma is_print_font_calls w size : forallb (fun e => negb (is_print e)) (font_calls w size) = true.
Proof. unfold font_calls. by repeat case_match. Qed.

Lemma no_print_icon_events w sizes :
  forallb (fun e => negb (is_print e)) (icon_events w sizes) = true.
Proof.
  induction sizes as [|s ss IH]; [done|].
  unfold icon_events in *. cbn [flat_map].
  rewrite !forallb_app, is_print_font_calls, IH. reflexivity.
Qed.

Lemma no_print_mkdir ds : forallb (fun e => negb (is_print e)) (map Mkdir ds) = true.
Proof. induction ds; [done|]. cbn. done. Qed.

Lemma put_all_lookup_notin m kvs p :
  p ∉ map fst kvs -> put_all m kvs !! p = m !! p.
Proof.
  revert m. induction kvs as [|[k v] kvs IH]; intros m Hp; [done|].
  cbn [map fst] in Hp. apply not_elem_of_cons in Hp as [Hne Hp].
  cbn [put_all foldl fst snd]. fold (put_all (<[k:=v]> m) kvs).
  rewrite IH by exact Hp. by rewrite lookup_insert_ne.
Qed.

(** *** Every outcome of the builder *)

Lemma reached_makedirs w ds :
  reached w (extend (map Mkdir ds) (foldl (fun w d => add_dir d w) w ds))
    ds [] (map Mkdir ds).
Proof.
  unfold reached. cbn [extend w_trace w_files w_dirs w_fonts w_metrics].
  rewrite w_trace_add_dirs, w_files_add_dirs, w_fonts_add_dirs, w_metrics_add_dirs.
  rewrite mkdirs_mkdir, file_writes_mkdir. done.
Qed.

Lemma reached_save_icons w w0 ds sizes :
  reached w w0 ds [] (map Mkdir ds) ->
  reached w (foldl save_icon w0 sizes) ds
    (map (fun s => (icon_path s, PngFile (rendered w s))) sizes)
    (map Mkdir ds ++ icon_events w0 sizes).
Proof.
  intros (Htr & Hmk & Hfw & Hfiles & Hdirs & Hf & Hm). unfold reached.
  rewrite w_trace_save_icons, w_files_save_icons, w_dirs_save_icons,
    w_fonts_save_icons, w_metrics_save_icons.
  rewrite Htr, Hfiles, Hdirs, Hf, Hm.
  rewrite mkdirs_app, file_writes_app, Hmk, Hfw, mkdirs_icon_events,
    file_writes_icon_events, app_nil_r.
  rewrite <- app_assoc. cbn [put_all foldl app].
  assert (map (fun s => (icon_path s, PngFile (rendered w0 s))) sizes
          = map (fun s => (icon_path s, PngFile (rendered w s))) sizes) as ->
    by (apply map_ext; intros s; by rewrite (rendered_ext w0 w s Hf Hm)).
  done.
Qed.

Lemma create_icon_set_unfold w :
  create_icon_set w
  = match os.makedirs_exist_ok icon_dir w with
    | Raise e w0 => Raise e w0
    | Ok _ w0 =>
        match for_each icon_sizes initial_contents size_class w0 with
        | Raise e w2 => Raise e w2
        | Ok c w2 =>
            match os.write_file contents_path (JsonFile 2 c) w2 with
            | Raise e w3 => Raise e w3
            | Ok _ w3 => Ok tt (log (Print success_message) w3)
            end
        end
    end.
Proof. reflexivity. Qed.

Lemma run_outcome (w : world) :
  exists ds kvs evs,
    sublist ds [assets_dir; icon_dir] /\
    kvs `prefix_of` builder_writes w /\
    reached w (world_of (create_icon_set w)) ds kvs evs /\
    match create_icon_set w with
    | Ok _ _ => kvs = builder_writes w /\ last evs = Some (Print success_message)
    | Raise e _ =>
        (e = MemoryError \/ is_OSError e = true) /\
        kvs `prefix_of` icon_writes w /\
        forallb (fun e => negb (is_print e)) evs = true
    end.
Proof.
  destruct (makedirs_outcome w) as (ds & Hw0 & Hsub & Hexn).
  pose proof (makedirs_icon_dir_cases w) as Hcases.
  pose proof (reached_makedirs w ds) as Hr0. rewrite <- Hw0 in Hr0.
  rewrite create_icon_set_unfold.
  destruct (os.makedirs_exist_ok icon_dir w) as [[] w0|e w0]; cbn [world_of] in *.
  2:{ exists ds, [], (map Mkdir ds). split; [exact Hsub|].
      split; [apply prefix_nil|]. split; [exact Hr0|].
      split; [by right|]. split; [apply prefix_nil|]. apply no_print_mkdir. }
  destruct Hcases as (Hdir & _ & _).
  pose proof (outer_loop_spec icon_sizes table_classes_good initial_contents w0 Hdir)
    as Hloop.
  fold all_sizes in Hloop. rewrite table_manifest in Hloop.
  destruct (for_each icon_sizes initial_contents size_class w0) as [c w2|e w2] eqn:Hrun.
  - destruct Hloop as (_ & _ & -> & ->).
    pose proof (reached_save_icons w w0 ds all_sizes Hr0) as Hr2.
    fold (icon_writes w) in Hr2.
    rewrite (write_file_run contents_path icon_dir) by
      (first [reflexivity | by rewrite is_dir_save_icons]).
    destruct (is_dir contents_path (foldl save_icon w0 all_sizes)); cbn [world_of].
    + exists ds, (icon_writes w), (map Mkdir ds ++ icon_events w0 all_sizes)%list.
      split; [exact Hsub|].
      split; [by apply prefix_app_r|]. split; [exact Hr2|].
      split; [by right|]. split; [reflexivity|].
      by rewrite forallb_app, no_print_mkdir, no_print_icon_events.
    + exists ds, (builder_writes w),
        ((map Mkdir ds ++ icon_events w0 all_sizes)
         ++ [FileWrite contents_path (JsonFile 2 expected_manifest);
             Print success_message])%list.
      split; [exact Hsub|]. split; [reflexivity|].
      split; [|split; [reflexivity | by rewrite last_app]].
      destruct Hr2 as (Htr & Hmk & Hfw & Hfiles & Hdirs & Hf & Hm).
      unfold reached.
      rewrite !w_trace_log, w_trace_put_file, !w_files_log, w_files_put_file,
        !w_dirs_log, w_dirs_put_file, !w_fonts_log, w_fonts_put_file,
        !w_metrics_log, w_metrics_put_file.
      rewrite Htr, Hfiles, Hdirs, Hf, Hm.
      rewrite mkdirs_app, file_writes_app, Hmk, Hfw.
      unfold builder_writes. rewrite put_all_app.
      rewrite <- !app_assoc. cbn [app]. by rewrite app_nil_r.
  - clear Hloop.
    destruct (outer_loop_raise icon_sizes table_classes_good _ _ _ _ Hdir Hrun)
      as (pre & s & post & Hsplit & -> & ->).
    fold all_sizes in Hsplit. cbn [world_of].
    pose proof (reached_save_icons w w0 ds pre Hr0) as Hr2.
    destruct Hr2 as (Htr & Hmk & Hfw & Hfiles & Hdirs & Hf & Hm).
    assert (map (fun s => (icon_path s, PngFile (rendered w s))) pre
              `prefix_of` icon_writes w) as Hpre.
    { unfold icon_writes. rewrite Hsplit, map_app. by apply prefix_app_r. }
    unfold stopped, stop_error. destruct (canvas_ok w0 s).
    + exists ds, (map (fun s => (icon_path s, PngFile (rendered w s))) pre),
        ((map Mkdir ds ++ icon_events w0 pre)
         ++ font_calls (foldl save_icon w0 pre) s)%list.
      split; [exact Hsub|].
      split; [unfold builder_writes; by apply prefix_app_r|].
      split.
      * unfold reached. cbn [extend w_trace w_files w_dirs w_fonts w_metrics].
        rewrite Htr, Hfiles, Hdirs, Hf, Hm.
        rewrite (mkdirs_app (map Mkdir ds ++ icon_events w0 pre)),
          (file_writes_app (map Mkdir ds ++ icon_events w0 pre)), Hmk, Hfw.
        rewrite mkdirs_font_calls, file_writes_font_calls, !app_nil_r.
        by rewrite <- !app_assoc.
      * split; [by right|]. split; [exact Hpre|].
        by rewrite !forallb_app, no_print_mkdir, no_print_icon_events,
          is_print_font_calls.
    + exists ds, (map (fun s => (icon_path s, PngFile (rendered w s))) pre),
        (map Mkdir ds ++ icon_events w0 pre)%list.
      split; [exact Hsub|].
      split; [unfold builder_writes; by apply prefix_app_r|].
      split; [by unfold reached|].
      split; [by left|]. split; [exact Hpre|].
      by rewrite !forallb_app, no_print_mkdir, no_print_icon_events.
Qed.

Lemma w_dirs_add_dirs w ds :
  w_dirs (foldl (fun w d => add_dir d w) w ds) = list_to_set ds ∪ w_dirs w.
Proof.
  revert w. induction ds as [|d ds IH]; intros w.
  - cbn. by rewrite (left_id_L ∅ (∪)).
  - cbn [foldl list_to_set]. rewrite IH.
    change (w_dirs (add_dir d w)) with ({[d]} ∪ w_dirs w).
    by rewrite (assoc_L (∪)), (comm_L (∪) (list_to_set ds)).
Qed.

Lemma targets_are_builder_paths w : map fst (builder_writes w) = targets.
Proof. reflexivity. Qed.

(** X15: whether it completes or raises, the builder changes no file
    other than the eleven it is there to write, makes no directory other
    than its two, removes none, and leaves fonts and metrics alone. *)
Theorem builder_touches_only_its_output (w : world) (p : string) :
  let w1 := world_of (create_icon_set w) in
  (p ∉ targets -> w_files w1 !! p = w_files w !! p) /\
  (p ∈ w_dirs w -> p ∈ w_dirs w1) /\
  (p ∈ w_dirs w1 -> p ∈ w_dirs w \/ p = assets_dir \/ p = icon_dir) /\
  w_fonts w1 = w_fonts w /\ w_metrics w1 = w_metrics w.
Proof.
  destruct (run_outcome w) as (ds & kvs & evs & Hsub & Hpre & Hreach & _).
  destruct Hreach as (_ & _ & _ & Hfiles & Hdirs & Hf & Hm).
  cbv zeta. rewrite Hfiles, Hdirs, w_dirs_add_dirs, Hf, Hm.
  split; [|split; [|split; [|done]]].
  - intros Hp. apply put_all_lookup_notin. intros Hin. apply Hp.
    rewrite <- (targets_are_builder_paths w).
    apply list_elem_of_fmap in Hin as (kv & -> & Hkv).
    apply list_elem_of_fmap_2. by apply (elem_of_prefix kvs).
  - intros Hp. apply elem_of_union. by right.
  - intros Hp. apply elem_of_union in Hp as [Hp|Hp]; [|by left]. right.
    apply elem_of_list_to_set in Hp. apply (sublist_subseteq _ _ Hsub) in Hp.
    apply elem_of_cons in Hp as [->|Hp]; [by left|].
    apply elem_of_cons in Hp as [->|Hp]; [by right|].
    by apply elem_of_nil in Hp.
Qed.

Lemma builder_touches_only_its_output_witness :
  ("README.md" ∉ targets) /\
  w_files (world_of (create_icon_set blocked_at_64)) !! "README.md"
  = w_files blocked_at_64 !! "README.md".
Proof.
  assert ("README.md" ∉ targets) as Hp
    by (apply (bool_decide_eq_false_1 (_ ∈ _)); vm_compute; reflexivity).
  split; [exact Hp|].
  by apply (builder_touches_only_its_output blocked_at_64 "README.md").
Defined.

(** X16: a run that stops on what it finds at a path ([FileExistsError],
    [FileNotFoundError], [NotADirectoryError] or [IsADirectoryError]) has
    written the images of some first entries of the table, in order, and
    nothing else: the manifest has not been opened, so an older one is
    left as it was, and the success message is not printed.  These are
    errors of opening a path or making a directory; a fault of the medium
    while the manifest is being written is not among them. *)
Theorem path_error_leaves_the_manifest (w w1 : world) (e : exn) :
  create_icon_set w = Raise e w1 ->
  e ∈ [FileExistsError; FileNotFoundError; NotADirectoryError; IsADirectoryError] ->
  exists evs,
    w_trace w1 = (w_trace w ++ evs)%list /\
    file_writes evs `prefix_of` icon_writes w /\
    forallb (fun ev => negb (is_print ev)) evs = true /\
    w_files w1 !! contents_path = w_files w !! contents_path.
Proof.
  intros Hrun _.
  destruct (run_outcome w) as (ds & kvs & evs & _ & _ & Hreach & Hcase).
  rewrite Hrun in Hreach, Hcase. cbn [world_of] in Hreach.
  destruct Hcase as (_ & Hpre & Hnp).
  destruct Hreach as (Htr & _ & Hfw & Hfiles & _).
  exists evs. split; [exact Htr|].
  split; [by rewrite Hfw|]. split; [exact Hnp|].
  rewrite Hfiles. apply put_all_lookup_notin. intros Hin.
  apply list_elem_of_fmap in Hin as (kv & Hkv & Hin).
  apply (elem_of_prefix _ _ _ Hin) in Hpre.
  unfold icon_writes in Hpre. apply list_elem_of_fmap in Hpre as (s & -> & Hs).
  cbn [fst] in Hkv. revert Hkv.
  change all_sizes with [16; 32; 32; 64; 128; 256; 256; 512; 512; 1024]%Z in Hs.
  repeat (apply elem_of_cons in Hs as [->|Hs]; [by vm_compute|]).
  by apply elem_of_nil in Hs.
Qed.

Lemma path_error_leaves_the_manifest_witness :
  exists w1 evs,
    create_icon_set blocked_at_64 = Raise IsADirectoryError w1 /\
    w_trace w1 = (w_trace blocked_at_64 ++ evs)%list /\
    map fst (file_writes evs) = [icon_path 16; icon_path 32; icon_path 32] /\
    w_files w1 !! contents_path = None.
Proof.
  assert (create_icon_set blocked_at_64
          = Raise IsADirectoryError (world_of (create_icon_set blocked_at_64))) as Hrun
    by (vm_compute; reflexivity).
  assert (IsADirectoryError
            ∈ [FileExistsError; FileNotFoundError; NotADirectoryError;
               IsADirectoryError]) as He by (do 3 right; left).
  destruct (path_error_leaves_the_manifest _ _ _ Hrun He) as (evs & Htr & _ & _ & Hc).
  exists (world_of (create_icon_set blocked_at_64)), evs.
  split; [exact Hrun|]. split; [exact Htr|]. split; [|exact Hc].
  change (w_trace blocked_at_64 ++ evs)%list with evs in Htr.
  rewrite <- Htr. vm_compute. reflexivity.
Defined.

(** *** When the builder completes *)

Lemma completes_can_build w w1 : create_icon_set w = Ok tt w1 -> can_build w = true.
Proof.
  intros Hrun. pose proof (create_icon_set_spec w) as H.
  rewrite Hrun in H. destruct H as (w0 & Hmk & Hcanvas & Hnone & _).
  unfold can_build. by rewrite Hmk, Hcanvas, Hnone.
Qed.

Lemma mkdir_exist_ok_top p w :
  Str.dirname p = None -> path_exists p w = false ->
  mkdir_exist_ok p w = Ok tt (log (Mkdir p) (add_dir p w)).
Proof.
  intros Hd Hp. unfold mkdir_exist_ok, os.mkdir, bind, os.check_parent.
  rewrite Hd. cbv beta iota. by rewrite Hp.
Qed.

Lemma directory_ready_spec w :
  match os.makedirs_exist_ok icon_dir w with
  | Ok _ w0 => none_is_dir w0 targets
  | Raise _ _ => false
  end = (directory_ready w && none_is_dir w targets)%bool.
Proof.
  unfold directory_ready. rewrite makedirs_unfold.
  assert (forall w', is_dir assets_dir w' = true \/ path_exists assets_dir w' = true ->
            none_is_dir w' targets = none_is_dir w targets ->
            is_dir icon_dir w' = is_dir icon_dir w ->
            path_exists icon_dir w' = path_exists icon_dir w ->
            match mkdir_exist_ok icon_dir w' with
            | Ok _ w0 => none_is_dir w0 targets
            | Raise _ _ => false
            end
            = ((is_dir icon_dir w
                || negb (path_exists icon_dir w) && is_dir assets_dir w')
               && none_is_dir w targets)%bool) as Hstep.
  { intros w' HA Hnone HdB HB.
    unfold mkdir_exist_ok, os.mkdir, bind, os.check_parent.
    change (Str.dirname icon_dir) with (Some assets_dir). cbv beta.
    rewrite <- Hnone.
    destruct (is_dir assets_dir w') eqn:HdA; cbv beta iota.
    - rewrite HB. destruct (path_exists icon_dir w) eqn:Hpe.
      + cbn [is_OSError andb negb orb]. rewrite HdB.
        destruct (is_dir icon_dir w); cbn [andb orb]; by rewrite ?andb_false_r.
      + assert (is_dir icon_dir w = false) as ->
          by (unfold path_exists in Hpe; by apply orb_false_iff in Hpe as [? ?]).
        cbn [negb andb orb].
        by rewrite none_is_dir_log, (none_is_dir_add_dir _ _ _ icon_dir_not_target).
    - destruct HA as [HA|HA]; [discriminate|].
      unfold path_exists in HA. rewrite HdA in HA. cbn [orb] in HA. rewrite HA.
      cbn [is_OSError andb]. rewrite HdB, andb_false_r, orb_false_r.
      by destruct (is_dir icon_dir w). }
  destruct (path_exists assets_dir w) eqn:HA.
  - rewrite (Hstep w) by auto.
    destruct (is_dir assets_dir w); cbn [negb orb andb]; by rewrite ?orb_false_r.
  - assert (is_dir assets_dir w = false) as HdA
      by (unfold path_exists in HA; by apply orb_false_iff in HA as [? ?]).
    rewrite (mkdir_exist_ok_top assets_dir w eq_refl HA).
    set (w1 := log (Mkdir assets_dir) (add_dir assets_dir w)).
    assert (is_dir assets_dir w1 = true) as HdA1.
    { unfold w1. change (is_dir assets_dir (log _ ?x)) with (is_dir assets_dir x).
      rewrite is_dir_add_dir. by rewrite bool_decide_eq_true_2. }
    assert (is_dir icon_dir w1 = is_dir icon_dir w) as HdB1.
    { unfold w1. change (is_dir icon_dir (log _ ?x)) with (is_dir icon_dir x).
      rewrite is_dir_add_dir. reflexivity. }
    rewrite (Hstep w1).
    + rewrite HdA1, HdA. cbn [negb orb andb]. by rewrite !andb_true_r.
    + by left.
    + unfold w1.
      by rewrite none_is_dir_log, (none_is_dir_add_dir _ _ _ assets_dir_not_target).
    + exact HdB1.
    + unfold path_exists. rewrite HdB1. reflexivity.
Qed.

(** In the world of the model, where the medium never fails, these are
    all the ways the builder can fail. *)
Lemma can_build_eq w :
  can_build w
  = (can_render w all_sizes && (directory_ready w && none_is_dir w targets))%bool.
Proof.
  rewrite <- directory_ready_spec. unfold can_build.
  destruct (os.makedirs_exist_ok icon_dir w); [reflexivity|].
  by rewrite andb_false_r.
Qed.

(** X17: what a completed run needed.  If the builder completes, the
    output directory was there or could be made, none of the eleven
    paths it writes was a directory, and every canvas of the table could
    be made; a directory at one of these paths, a blocked output
    directory or a canvas the machine cannot hold makes it fail. *)
Theorem builder_completes_only_if (w : world) :
  (exists w1, create_icon_set w = Ok tt w1) ->
  directory_ready w = true /\ none_is_dir w targets = true /\
  can_render w all_sizes = true.
Proof.
  intros (w1 & Hrun). pose proof (completes_can_build w w1 Hrun) as Hcan.
  rewrite can_build_eq in Hcan.
  apply andb_true_iff in Hcan as [Hcanvas Hcan].
  apply andb_true_iff in Hcan as [Hready Hnone]. done.
Qed.

Lemma builder_completes_only_if_witness :
  (exists w1, create_icon_set (empty_world mac_fonts) = Ok tt w1) /\
  directory_ready (empty_world mac_fonts) = true.
Proof.
  assert (exists w1, create_icon_set (empty_world mac_fonts) = Ok tt w1) as H.
  { exists (world_of (create_icon_set (empty_world mac_fonts))).
    vm_compute. reflexivity. }
  split; [exact H|].
  by destruct (builder_completes_only_if (empty_world mac_fonts) H) as (Hready & _).
Defined.

(** *** What a completed run leaves *)

Lemma makedirs_made w w0 :
  os.makedirs_exist_ok icon_dir w = Ok tt w0 ->
  w0 = extend (map Mkdir (missing_dirs w))
         (foldl (fun w d => add_dir d w) w (missing_dirs w)).
Proof.
  rewrite makedirs_unfold. unfold missing_dirs. cbn [List.filter].
  assert (forall w', is_dir assets_dir w' = true \/ path_exists assets_dir w' = true ->
            forall w0', mkdir_exist_ok icon_dir w' = Ok tt w0' ->
            w0' = if path_exists icon_dir w' then w'
                  else log (Mkdir icon_dir) (add_dir icon_dir w')) as Hstep.
  { intros w' HA w0'.
    unfold mkdir_exist_ok, os.mkdir, bind, os.check_parent.
    change (Str.dirname icon_dir) with (Some assets_dir). cbv beta iota.
    destruct (is_dir assets_dir w') eqn:HdA; cbv beta iota.
    - destruct (path_exists icon_dir w') eqn:HB.
      + cbn [is_OSError andb]. destruct (is_dir icon_dir w'); [|discriminate].
        by intros [= <-].
      + by intros [= <-].
    - destruct HA as [HA|HA]; [discriminate|].
      unfold path_exists in HA. rewrite HdA in HA. cbn [orb] in HA. rewrite HA.
      cbn [is_OSError andb]. unfold path_exists.
      destruct (is_dir icon_dir w'); [|discriminate]. by intros [= <-]. }
  destruct (path_exists assets_dir w) eqn:HA; cbn [negb].
  - intros Hmk. rewrite (Hstep w (or_intror HA) w0 Hmk).
    destruct (path_exists icon_dir w); cbn [negb map foldl].
    + by rewrite extend_nil.
    + reflexivity.
  - rewrite (mkdir_exist_ok_top assets_dir w eq_refl HA).
    set (w1 := log (Mkdir assets_dir) (add_dir assets_dir w)).
    assert (is_dir assets_dir w1 = true) as HdA1.
    { unfold w1. change (is_dir assets_dir (log _ ?x)) with (is_dir assets_dir x).
      rewrite is_dir_add_dir. by rewrite bool_decide_eq_true_2. }
    assert (path_exists icon_dir w1 = path_exists icon_dir w) as HB1.
    { unfold path_exists, w1.
      change (is_dir icon_dir (log _ ?x)) with (is_dir icon_dir x).
      by rewrite is_dir_add_dir. }
    intros Hmk. rewrite (Hstep w1 (or_introl HdA1) w0 Hmk), HB1.
    destruct (path_exists icon_dir w); cbn [negb map foldl].
    + reflexivity.
    + unfold w1. apply log_log_mkdir.
Qed.

Lemma font_loads_icon_events w sizes :
  filter is_font_load (icon_events w sizes) = flat_map (font_calls w) sizes.
Proof.
  induction sizes as [|s ss IH]; [done|].
  unfold icon_events in *. cbn [flat_map].
  rewrite !filter_app, IH. f_equal.
  unfold font_calls. by repeat case_match.
Qed.

Lemma icon_events_ext w w' sizes :
  w_fonts w = w_fonts w' -> w_metrics w = w_metrics w' ->
  icon_events w sizes = icon_events w' sizes.
Proof.
  intros Hf Hm. unfold icon_events. induction sizes as [|s ss IH]; [done|].
  cbn [flat_map]. by rewrite IH, (font_calls_ext w w' s Hf), (rendered_ext w w' s Hf Hm).
Qed.

(** X18: after a completed run the manifest on disk refers to nothing
    that is missing.  Every record has the idiom "mac" and names a file
    of the output directory that holds a square image of the pixel
    dimension in its name; the header is the one Xcode writes. *)
Theorem manifest_matches_the_files (w w1 : world) :
  create_icon_set w = Ok tt w1 ->
  exists m,
    w_files w1 !! Str.path_join icon_dir "Contents.json" = Some (JsonFile 2 m) /\
    info m = {| author := "xcode"; version := 1 |} /\
    Forall (fun e =>
              e_idiom e = "mac" /\
              exists s img,
                e_filename e = icon_filename s /\
                w_files w1 !! Str.path_join icon_dir (e_filename e)
                = Some (PngFile img) /\
                im_size img = (s, s))
           (images m).
Proof.
  intros Hrun.
  destruct (build_summary w (completes_can_build w w1 Hrun))
    as (w1' & Hrun' & _ & Hfiles & _).
  rewrite Hrun in Hrun'. injection Hrun' as <-.
  exists expected_manifest. rewrite Hfiles.
  split; [apply lookup_contents|]. split; [reflexivity|].
  unfold expected_manifest. cbn [images].
  repeat (apply Forall_cons; split;
    [ split; [reflexivity|];
      eexists _, _; split; [reflexivity|]; split;
      [ apply lookup_icon; refine (bool_decide_unpack _ _); vm_compute; exact I
      | reflexivity ] |]).
  constructor.
Qed.

Lemma manifest_matches_the_files_witness :
  exists w1 m,
    create_icon_set (empty_world mac_fonts) = Ok tt w1 /\
    w_files w1 !! Str.path_join icon_dir "Contents.json" = Some (JsonFile 2 m) /\
    length (images m) = 10%nat.
Proof.
  assert (create_icon_set (empty_world mac_fonts)
          = Ok tt (world_of (create_icon_set (empty_world mac_fonts)))) as Hrun
    by (vm_compute; reflexivity).
  destruct (manifest_matches_the_files _ _ Hrun) as (m & Hm & _ & _).
  exists (world_of (create_icon_set (empty_world mac_fonts))), m.
  split; [exact Hrun|]. split; [exact Hm|].
  rewrite Hrun in Hm. vm_compute in Hm. injection Hm as <-. reflexivity.
Defined.

(** X19: the calls of a completed run, in order: the making of each of
    the two directories that was missing, parent first; then for each of the ten variants its
    font loader calls followed by the write of its image, the font chain
    being resolved afresh every time; then the manifest; then the
    message. *)
Theorem completed_run_trace (w w1 : world) :
  create_icon_set w = Ok tt w1 ->
  exists ds,
    ds = missing_dirs w /\ sublist ds [assets_dir; icon_dir] /\
    new_events w w1
    = (map Mkdir ds
       ++ flat_map (fun s => font_calls w s
                             ++ [FileWrite (icon_path s) (PngFile (rendered w s))])
            [16; 32; 32; 64; 128; 256; 256; 512; 512; 1024]%Z
       ++ [FileWrite contents_path (JsonFile 2 expected_manifest);
           Print "Icon set created successfully!"])%list /\
    filter is_font_load (new_events w w1)
    = flat_map (font_calls w) [16; 32; 32; 64; 128; 256; 256; 512; 512; 1024]%Z.
Proof.
  intros Hrun. pose proof (create_icon_set_spec w) as H.
  rewrite Hrun in H. destruct H as (w0 & Hmk & _ & _ & ->).
  pose proof (makedirs_made w w0 Hmk) as Hw0.
  destruct (makedirs_frame w w0 Hmk) as (Hf & Hm & _).
  exists (missing_dirs w). split; [reflexivity|]. split.
  { unfold missing_dirs. cbn [List.filter].
    destruct (negb (path_exists assets_dir w)), (negb (path_exists icon_dir w));
      repeat constructor. }
  set (ds := missing_dirs w) in *.
  assert (w_trace (finished w0)
          = (w_trace w ++ map Mkdir ds ++ icon_events w all_sizes
               ++ [FileWrite contents_path (JsonFile 2 expected_manifest);
                   Print "Icon set created successfully!"])%list) as Htr.
  { unfold finished.
    rewrite !w_trace_log, w_trace_put_file, w_trace_save_icons.
    rewrite (icon_events_ext w0 w all_sizes Hf Hm).
    rewrite Hw0 at 1. cbn [extend w_trace]. rewrite w_trace_add_dirs.
    by rewrite <- !app_assoc. }
  rewrite (new_events_app _ _ _ Htr).
  split; [reflexivity|].
  rewrite !filter_app, font_loads_icon_events.
  assert (filter is_font_load (map Mkdir ds) = []) as ->
    by (clear; induction ds; [done|]; cbn; done).
  cbn [app]. change (filter _ [FileWrite _ _; Print _]) with (@nil event).
  by rewrite app_nil_r.
Qed.

Lemma completed_run_trace_witness :
  exists w1,
    create_icon_set (empty_world mac_fonts) = Ok tt w1 /\
    length (filter is_font_load (new_events (empty_world mac_fonts) w1)) = 10%nat.
Proof.
  assert (create_icon_set (empty_world mac_fonts)
          = Ok tt (world_of (create_icon_set (empty_world mac_fonts)))) as Hrun
    by (vm_compute; reflexivity).
  destruct (completed_run_trace _ _ Hrun) as (ds & _ & _ & _ & Hfonts).
  exists (world_of (create_icon_set (empty_world mac_fonts))).
  split; [exact Hrun|]. rewrite Hfonts. reflexivity.
Defined.
